(** * Verification of the CloudWatch query model and the CSV framing pipeline

    Shallow embedding of
      - pkg/cloudwatch/models/cloudwatch_query.go
      - pkg/infinity/csvBackend.go
      - pkg/cloudwatch/clients/metrics.go
    Go strings are byte sequences: they are modelled by [string] (a list of
    8-bit [ascii] characters).  Go maps are modelled by stdpp's [gmap]; a
    [range] over a map is modelled by a traversal of [map_to_list], and the
    results proved below do not depend on the order of that traversal,
    except where the order is an argument of the model and the statement
    says so. *)

From Stdlib Require Import ZArith NArith String Ascii List Bool Lia.
From Stdlib Require Import DecimalString.
From Stdlib Require Import Floats.SpecFloat.
From stdpp Require Import base option list gmap strings sorting.

Local Open Scope string_scope.
Set Warnings "-register-all".

(** ** Go values shared by both packages *)

Module Go.

(** The [error] values built by the code: [errors.New] / [fmt.Errorf]
    without [%w] give a plain message, [fmt.Errorf] with [%w] keeps the
    wrapped error, and [QueryError] is the struct of the models package. *)
Inductive error : Type :=
| errorString (msg : string)
| wrapError (msg : string) (inner : error)
| QueryError (inner : error) (RefID : string).

(** The [Error()] text of the errors whose method is known here. *)
Fixpoint Error (e : error) : string :=
  match e with
  | errorString msg => msg
  | wrapError msg _ => msg
  | QueryError inner _ => Error inner
  end.

(** Outcome of a call: a value, a returned error, or a run-time panic
    (failed type assertion, index out of range, nil dereference). *)
Inductive result (A : Type) : Type :=
| Ok (a : A)
| Err (e : error)
| Panic (msg : string).
Arguments Ok {A} a.
Arguments Err {A} e.
Arguments Panic {A} msg.

Definition bind {A B} (r : result A) (k : A -> result B) : result B :=
  match r with
  | Ok a => k a
  | Err e => Err e
  | Panic msg => Panic msg
  end.

(** What [encoding/json] decodes into an [interface{}]. *)
Inductive JSONValue : Type :=
| JNull
| JBool (b : bool)
| JNumber (f : spec_float)
| JString (s : string)
| JArray (elems : list JSONValue)
| JObject (members : list (string * JSONValue)).

End Go.


#[global] Instance result_bind : MBind Go.result := fun A B k r => Go.bind r k.

(** ** The library functions the code calls *)

(** [strings]: byte-level models.  The patterns searched for below are
    ASCII, and an ASCII byte never occurs inside a multi-byte UTF-8
    sequence, so working on bytes finds the same occurrences as Go does. *)
Module Strings.

Fixpoint HasPrefix (s prefix : string) {struct prefix} : bool :=
  match prefix, s with
  | EmptyString, _ => true
  | String p prefix', String c s' => Ascii.eqb p c && HasPrefix s' prefix'
  | String _ _, EmptyString => false
  end.

(** [replaceFrom old new skip s]: the scan of [strings.ReplaceAll] over
    the rest [s] of the text, where the first [skip] bytes belong to an
    occurrence of [old] found earlier and were already replaced. *)
Fixpoint replaceFrom (old new : string) (skip : nat) (s : string) : string :=
  match s with
  | EmptyString => EmptyString
  | String c s' =>
      match skip with
      | S n => replaceFrom old new n s'
      | O =>
          if HasPrefix s old
          then new +:+ replaceFrom old new (String.length old - 1) s'
          else String c (replaceFrom old new O s')
      end
  end.

(** [strings.ReplaceAll] for a non-empty [old] (as at every call site
    here): the non-overlapping occurrences, leftmost first.  For an
    empty [old] Go inserts [new] around every UTF-8 sequence; that case
    is not reached and left as the identity. *)
Definition ReplaceAll (s old new : string) : string :=
  match old with
  | EmptyString => s
  | String _ _ => replaceFrom old new O s
  end.

Definition isUpper (c : ascii) : bool :=
  (65 <=? N_of_ascii c)%N && (N_of_ascii c <=? 90)%N.

Definition lowerByte (c : ascii) : ascii :=
  if isUpper c then ascii_of_N (N_of_ascii c + 32) else c.

(** [strings.ToLower] on the ASCII letters.  Outside ASCII Go maps whole
    runes; no rune other than the ASCII letters is mapped to one of
    a, u, t, o, so the comparison with "auto", the only use made of
    the result, is decided by this model as by Go. *)
Fixpoint ToLower (s : string) : string :=
  match s with
  | EmptyString => EmptyString
  | String c s' => String (lowerByte c) (ToLower s')
  end.

(** The encodings of the runes for which [unicode.IsSpace] holds, as a
    prefix of [s]: the rest of [s] after one white-space rune. *)
Definition dropSpaceRune (s : string) : option string :=
  match s with
  | String c s' =>
      if existsb (Ascii.eqb c) ["009"; "010"; "011"; "012"; "013"; " "]%char
      then Some s'
      else
        match N_of_ascii c, s' with
        | 194%N, String d r =>
            if existsb (N.eqb (N_of_ascii d)) [133; 160]%N then Some r else None
        | 225%N, String d (String e r) =>
            if (N_of_ascii d =? 154)%N && (N_of_ascii e =? 128)%N
            then Some r else None
        | 226%N, String d (String e r) =>
            let x := N_of_ascii e in
            if (N_of_ascii d =? 128)%N
               && (((128 <=? x)%N && (x <=? 138)%N)
                   || existsb (N.eqb x) [168; 169; 175]%N)
            then Some r
            else if (N_of_ascii d =? 129)%N && (x =? 159)%N
            then Some r else None
        | 227%N, String d (String e r) =>
            if (N_of_ascii d =? 128)%N && (N_of_ascii e =? 128)%N
            then Some r else None
        | _, _ => None
        end
  | EmptyString => None
  end.

(** [strings.TrimSpace s == ""]: trimming from the left leaves nothing,
    i.e. the text is a sequence of white-space runes.  The fuel bounds
    the number of runes by the number of bytes. *)
Fixpoint allSpace (fuel : nat) (s : string) : bool :=
  match s with
  | EmptyString => true
  | String _ _ =>
      match fuel with
      | O => false
      | S n =>
          match dropSpaceRune s with
          | Some r => allSpace n r
          | None => false
          end
      end
  end.

Definition TrimSpaceIsEmpty (s : string) : bool :=
  allSpace (String.length s) s.

(** [strings.Contains]: [substr] starts at some byte of [s]. *)
Fixpoint Contains (s substr : string) : bool :=
  HasPrefix s substr
  || match s with
     | EmptyString => false
     | String _ s' => Contains s' substr
     end.

End Strings.

(** [strconv.Atoi] on a 64-bit platform: an optional sign, one or more
    decimal digits, and a value that fits an int64; anything else is an
    error (whose text the caller drops). *)
Module Strconv.

Definition digitOf (c : ascii) : option Z :=
  let n := Z.of_N (N_of_ascii c) in
  if (48 <=? n)%Z && (n <=? 57)%Z then Some (n - 48)%Z else None.

Fixpoint digits (acc : Z) (s : string) : option Z :=
  match s with
  | EmptyString => Some acc
  | String c s' =>
      match digitOf c with
      | Some d => digits (acc * 10 + d)%Z s'
      | None => None
      end
  end.

Definition Atoi (s : string) : option Z :=
  match s with
  | EmptyString => None
  | String c s' =>
      let neg := Ascii.eqb c "-" in
      let body := if neg || Ascii.eqb c "+" then s' else s in
      match body with
      | EmptyString => None
      | String _ _ =>
          match digits 0 body with
          | Some n =>
              let n := if neg then (- n)%Z else n in
              if (- 2 ^ 63 <=? n)%Z && (n <? 2 ^ 63)%Z then Some n else None
          | None => None
          end
      end
  end.

End Strconv.

(** float64 arithmetic, by the binary64 instance of the IEEE 754
    specification of the standard library (round to nearest even). *)
Module Float64.

Definition prec : Z := 53.
Definition emax : Z := 1024.

(** The conversion [float64(n)] of an integer. *)
Definition ofInt (n : Z) : spec_float := binary_normalize prec emax n 0 false.

Definition add : spec_float -> spec_float -> spec_float := SFadd prec emax.
Definition div : spec_float -> spec_float -> spec_float := SFdiv prec emax.

(** [math.Ceil]: the least integral value not below [x]; zeros,
    infinities and NaN are returned as they are, and a negative
    fraction above -1 gives -0. *)
Definition Ceil (x : spec_float) : spec_float :=
  match x with
  | S754_finite s m e =>
      if (0 <=? e)%Z then x
      else
        let d := (2 ^ (- e))%Z in
        let c := if s then (- (Z.pos m / d))%Z else (- ((- Z.pos m) / d))%Z in
        binary_normalize prec emax c 0 s
  | _ => x
  end.

Definition minInt64 : Z := (- 2 ^ 63)%Z.

(** The conversion [int(x)]: truncation toward zero.  For NaN,
    infinities and values outside int64 the Go specification leaves the
    result to the implementation; amd64 gives the least int64. *)
Definition toInt (x : spec_float) : Z :=
  match x with
  | S754_zero _ => 0%Z
  | S754_finite s m e =>
      let v := if (0 <=? e)%Z
               then (cond_Zopp s (Z.pos m * 2 ^ e))%Z
               else (cond_Zopp s (Z.pos m) ÷ 2 ^ (- e))%Z in
      if (minInt64 <=? v)%Z && (v <? 2 ^ 63)%Z then v else minInt64
  | _ => minInt64
  end.

End Float64.

(** [time]: an instant is a number of nanoseconds from a fixed origin, a
    [Duration] is an int64 number of nanoseconds. *)
Module Time.

Definition Time := Z.
Definition Duration := Z.

Definition Second : Duration := 1000000000%Z.
Definition Hour : Duration := (3600 * Second)%Z.
Definition minDuration : Duration := (- 2 ^ 63)%Z.
Definition maxDuration : Duration := (2 ^ 63 - 1)%Z.

(** [t.Sub(u)]: the difference, or the least or greatest [Duration] when
    it does not fit. *)
Definition Sub (t u : Time) : Duration :=
  let d := (t - u)%Z in
  if (d <? minDuration)%Z then minDuration
  else if (maxDuration <? d)%Z then maxDuration
  else d.

(** [time.Since(t)] is [time.Now().Sub(t)]; the clock reading [now] is an
    input of the model. *)
Definition Since (now t : Time) : Duration := Sub now t.

(** [d.Seconds()]: [float64(sec) + float64(nsec)/1e9] with
    [sec := d / Second] and [nsec := d % Second] (both truncated). *)
Definition Seconds (d : Duration) : spec_float :=
  Float64.add (Float64.ofInt (d ÷ Second))
              (Float64.div (Float64.ofInt (Z.rem d Second))
                           (Float64.ofInt 1000000000)).

End Time.

(** [github.com/google/uuid]: a version-4 UUID made of 16 bytes read from
    the random source, and its 36-character text.  The bytes the random
    source delivers are an input of the model ([entropy]); [uuid.Must]
    panics when fewer than 16 can be read. *)
Module UUID.
Import Go.

Definition hexDigit (n : N) : ascii :=
  if (n <? 10)%N then ascii_of_N (48 + n) else ascii_of_N (87 + n).

Fixpoint hexEncode (bytes : list ascii) : string :=
  match bytes with
  | [] => EmptyString
  | b :: bytes' =>
      String (hexDigit (N_of_ascii b / 16))
        (String (hexDigit (N_of_ascii b mod 16)) (hexEncode bytes'))
  end.

(** [NewRandom]: the version and variant bits are forced. *)
Definition setVersion (u : list ascii) : list ascii :=
  alter (fun b => ascii_of_N (N.lor (N.land (N_of_ascii b) 15) 64)) 6%nat
    (alter (fun b => ascii_of_N (N.lor (N.land (N_of_ascii b) 63) 128)) 8%nat u).

(** [UUID.String]: groups of 4, 2, 2, 2 and 6 bytes. *)
Definition String_ (u : list ascii) : string :=
  hexEncode (take 4 u) +:+ "-" +:+ hexEncode (take 2 (drop 4 u)) +:+ "-"
  +:+ hexEncode (take 2 (drop 6 u)) +:+ "-"
  +:+ hexEncode (take 2 (drop 8 u)) +:+ "-" +:+ hexEncode (take 6 (drop 10 u)).

Definition NewString (entropy : list ascii) : result string :=
  if (length entropy <? 16)%nat
  then Panic "uuid: cannot read from the random source"
  else Ok (String_ (setVersion (take 16 entropy))).

End UUID.

(** [regexp]: the two patterns of the package, matched on bytes. *)
Module Regexp.

Definition between (lo hi : N) (c : ascii) : bool :=
  (lo <=? N_of_ascii c)%N && (N_of_ascii c <=? hi)%N.

Definition isLower (c : ascii) : bool := between 97 122 c.

(** The class [[a-zA-Z0-9_]]. *)
Definition isIdByte (c : ascii) : bool :=
  between 97 122 c || between 65 90 c || between 48 57 c || Ascii.eqb c "_".

Fixpoint allIdBytes (s : string) : bool :=
  match s with
  | EmptyString => true
  | String c s' => isIdByte c && allIdBytes s'
  end.

(** [validMetricDataID.MatchString] for [^[a-z][a-zA-Z0-9_]*$]: both
    anchors are those of the whole text (no multi-line flag). *)
Definition validMetricDataID (s : string) : bool :=
  match s with
  | EmptyString => false
  | String c s' => isLower c && allIdBytes s'
  end.

(** The class [\s] of RE2: tab, line feed, form feed, carriage return
    and space. *)
Definition isSpace (c : ascii) : bool :=
  existsb (Ascii.eqb c) ["009"; "010"; "012"; "013"; " "]%char.

Definition isNewline (c : ascii) : bool := Ascii.eqb c "010".

(** The end [\s*}}] of the pattern at the head of [t]: the white space
    consumed followed by the two braces.  A white-space byte is not a
    brace, so the greedy [\s*] has to take the whole run. *)
Fixpoint closeAt (t : string) : option string :=
  match t with
  | String c t' =>
      if isSpace c
      then match closeAt t' with
           | Some tail => Some (String c tail)
           | None => None
           end
      else if Strings.HasPrefix t "}}" then Some "}}" else None
  | EmptyString => None
  end.

(** The lazy group [(.+?)] followed by [\s*}}]: the shortest non-empty
    run of bytes other than line feed after which the end matches.
    Returns the group and the text of the end. *)
Fixpoint lazyGroup (t : string) : option (string * string) :=
  match t with
  | String c t' =>
      if isNewline c then None
      else
        match closeAt t' with
        | Some tail => Some (String c EmptyString, tail)
        | None =>
            match lazyGroup t' with
            | Some (sub, tail) => Some (String c sub, tail)
            | None => None
            end
        end
  | EmptyString => None
  end.

(** The greedy [\s*] after the opening braces: the longest run of white
    space is tried first, and given back byte by byte when the rest of
    the pattern does not match.  Returns the white space, the group and
    the text of the end. *)
Fixpoint openAt (r : string) : option (string * string * string) :=
  match r with
  | String c r' =>
      if isSpace c
      then match openAt r' with
           | Some (ws, sub, tail) => Some (String c ws, sub, tail)
           | None =>
               match lazyGroup r with
               | Some (sub, tail) => Some (EmptyString, sub, tail)
               | None => None
               end
           end
      else match lazyGroup r with
           | Some (sub, tail) => Some (EmptyString, sub, tail)
           | None => None
           end
  | EmptyString => None
  end.

(** A match of [{{\s*(.+?)\s*}}] at the head of [s]: the whole match and
    the group. *)
Definition matchAt (s : string) : option (string * string) :=
  match s with
  | String "{" (String "{" r) =>
      match openAt r with
      | Some (ws, sub, tail) => Some ("{{" +:+ ws +:+ sub +:+ tail, sub)
      | None => None
      end
  | _ => None
  end.

(** [FindAllStringSubmatch(s, -1)]: the leftmost match, then the
    leftmost match in what follows it, and so on; [skip] counts the
    bytes of the last match still to be passed over. *)
Fixpoint findAllFrom (skip : nat) (s : string) : list (string * string) :=
  match s with
  | EmptyString => []
  | String _ s' =>
      match skip with
      | S n => findAllFrom n s'
      | O =>
          match matchAt s with
          | Some (full, sub) =>
              (full, sub) :: findAllFrom (String.length full - 1) s'
          | None => findAllFrom O s'
          end
      end
  end.

Definition legacyAliasRegexp_FindAllStringSubmatch (s : string)
  : list (string * string) :=
  findAllFrom O s.

End Regexp.

(** ** pkg/cloudwatch/models/cloudwatch_query.go *)

Module Models.
Import Go.

(** uint32 enumerations; JSON can carry any uint32. *)
Definition MetricEditorMode := N.
Definition MetricQueryType := N.

Definition MetricEditorModeBuilder : MetricEditorMode := 0%N.
Definition MetricEditorModeRaw : MetricEditorMode := 1%N.

Definition MetricQueryTypeSearch : MetricQueryType := 0%N.
Definition MetricQueryTypeQuery : MetricQueryType := 1%N.

Inductive GMDApiMode : Type :=
| GMDApiModeMetricStat
| GMDApiModeInferredSearchExpression
| GMDApiModeMathExpression
| GMDApiModeSQLExpression.

Definition defaultRegion : string := "default".

(** The struct [CloudWatchQuery].  A nil map and an empty map behave
    alike under [len] and [range]: both are the empty [gmap]. *)
Module CloudWatchQuery.
Record t : Type := mk {
  RefId : string;
  Region : string;
  Id : string;
  Namespace : string;
  MetricName : string;
  Statistic : string;
  Expression : string;
  SqlExpression : string;
  ReturnData : bool;
  Dimensions : gmap string (list string);
  Period : Z;
  Alias : string;
  Label : string;
  MatchExact : bool;
  UsedExpression : string;
  TimezoneUTCOffset : string;
  MetricQueryType : MetricQueryType;
  MetricEditorMode : MetricEditorMode;
  AccountId : option string
}.

(** Assignments to single fields. *)
Definition setRegion (v : string) (q : t) : t :=
  mk (RefId q) v (Id q) (Namespace q) (MetricName q) (Statistic q)
     (Expression q) (SqlExpression q) (ReturnData q) (Dimensions q)
     (Period q) (Alias q) (Label q) (MatchExact q) (UsedExpression q)
     (TimezoneUTCOffset q) (MetricQueryType q) (MetricEditorMode q)
     (AccountId q).
Definition setId (v : string) (q : t) : t :=
  mk (RefId q) (Region q) v (Namespace q) (MetricName q) (Statistic q)
     (Expression q) (SqlExpression q) (ReturnData q) (Dimensions q)
     (Period q) (Alias q) (Label q) (MatchExact q) (UsedExpression q)
     (TimezoneUTCOffset q) (MetricQueryType q) (MetricEditorMode q)
     (AccountId q).
Definition setStatistic (v : string) (q : t) : t :=
  mk (RefId q) (Region q) (Id q) (Namespace q) (MetricName q) v
     (Expression q) (SqlExpression q) (ReturnData q) (Dimensions q)
     (Period q) (Alias q) (Label q) (MatchExact q) (UsedExpression q)
     (TimezoneUTCOffset q) (MetricQueryType q) (MetricEditorMode q)
     (AccountId q).
Definition setReturnData (v : bool) (q : t) : t :=
  mk (RefId q) (Region q) (Id q) (Namespace q) (MetricName q) (Statistic q)
     (Expression q) (SqlExpression q) v (Dimensions q)
     (Period q) (Alias q) (Label q) (MatchExact q) (UsedExpression q)
     (TimezoneUTCOffset q) (MetricQueryType q) (MetricEditorMode q)
     (AccountId q).
Definition setDimensions (v : gmap string (list string)) (q : t) : t :=
  mk (RefId q) (Region q) (Id q) (Namespace q) (MetricName q) (Statistic q)
     (Expression q) (SqlExpression q) (ReturnData q) v
     (Period q) (Alias q) (Label q) (MatchExact q) (UsedExpression q)
     (TimezoneUTCOffset q) (MetricQueryType q) (MetricEditorMode q)
     (AccountId q).
Definition setPeriod (v : Z) (q : t) : t :=
  mk (RefId q) (Region q) (Id q) (Namespace q) (MetricName q) (Statistic q)
     (Expression q) (SqlExpression q) (ReturnData q) (Dimensions q)
     v (Alias q) (Label q) (MatchExact q) (UsedExpression q)
     (TimezoneUTCOffset q) (MetricQueryType q) (MetricEditorMode q)
     (AccountId q).
Definition setLabel (v : string) (q : t) : t :=
  mk (RefId q) (Region q) (Id q) (Namespace q) (MetricName q) (Statistic q)
     (Expression q) (SqlExpression q) (ReturnData q) (Dimensions q)
     (Period q) (Alias q) v (MatchExact q) (UsedExpression q)
     (TimezoneUTCOffset q) (MetricQueryType q) (MetricEditorMode q)
     (AccountId q).
Definition setMatchExact (v : bool) (q : t) : t :=
  mk (RefId q) (Region q) (Id q) (Namespace q) (MetricName q) (Statistic q)
     (Expression q) (SqlExpression q) (ReturnData q) (Dimensions q)
     (Period q) (Alias q) (Label q) v (UsedExpression q)
     (TimezoneUTCOffset q) (MetricQueryType q) (MetricEditorMode q)
     (AccountId q).
Definition setMetricEditorMode (v : Models.MetricEditorMode) (q : t) : t :=
  mk (RefId q) (Region q) (Id q) (Namespace q) (MetricName q) (Statistic q)
     (Expression q) (SqlExpression q) (ReturnData q) (Dimensions q)
     (Period q) (Alias q) (Label q) (MatchExact q) (UsedExpression q)
     (TimezoneUTCOffset q) (MetricQueryType q) v
     (AccountId q).
Definition setAccountId (v : option string) (q : t) : t :=
  mk (RefId q) (Region q) (Id q) (Namespace q) (MetricName q) (Statistic q)
     (Expression q) (SqlExpression q) (ReturnData q) (Dimensions q)
     (Period q) (Alias q) (Label q) (MatchExact q) (UsedExpression q)
     (TimezoneUTCOffset q) (MetricQueryType q) (MetricEditorMode q)
     v.
End CloudWatchQuery.

(** The struct [metricsDataQuery] as [json.Unmarshal] fills it: a
    pointer field is [None] when the member is missing or null, a slice
    is [None] when nil and [Some []] when the JSON array is empty, and
    an element of [[]*string] is [None] for a JSON null. *)
Module metricsDataQuery.
Record t : Type := mk {
  Dimensions : gmap string JSONValue;
  Expression : string;
  Label : option string;
  Id : string;
  MatchExact : option bool;
  MetricEditorMode : option MetricEditorMode;
  MetricName : string;
  MetricQueryType : MetricQueryType;
  Namespace : string;
  Period : string;
  Region : string;
  SqlExpression : string;
  Statistic : option string;
  Statistics : option (list (option string));
  TimezoneUTCOffset : string;
  QueryType : string;
  Hide : option bool;
  Alias : string;
  AccountId : option string
}.

Definition setRegion (v : string) (m : t) : t :=
  mk (Dimensions m) (Expression m) (Label m) (Id m) (MatchExact m)
     (MetricEditorMode m) (MetricName m) (MetricQueryType m) (Namespace m)
     (Period m) v (SqlExpression m) (Statistic m) (Statistics m)
     (TimezoneUTCOffset m) (QueryType m) (Hide m) (Alias m) (AccountId m).
End metricsDataQuery.

(** [backend.DataQuery], the two fields that are read. *)
Module DataQuery.
Record t : Type := mk { RefID : string; JSON : string }.
End DataQuery.

(** *** Classification *)

(** Body of the loop of [IsInferredSearchExpression] for the values of
    one map entry: does it make the function return true? *)
Definition searchValues (values : list string) : bool :=
  (1 <? length values)%nat || existsb (String.eqb "*") values.

(** The loop along one iteration order of the map. *)
Definition rangeSearch (entries : list (string * list string)) : bool :=
  existsb (fun kv => searchValues kv.2) entries.

Definition IsInferredSearchExpression (q : CloudWatchQuery.t) : bool :=
  if negb (CloudWatchQuery.MetricQueryType q =? MetricQueryTypeSearch)%N
     || negb (CloudWatchQuery.MetricEditorMode q =? MetricEditorModeBuilder)%N
  then false
  else if match CloudWatchQuery.AccountId q with
          | Some a => String.eqb a "all"
          | None => false
          end
  then true
  else if (size (CloudWatchQuery.Dimensions q) =? 0)%nat
  then negb (CloudWatchQuery.MatchExact q)
  else if negb (CloudWatchQuery.MatchExact q) then true
  else rangeSearch (map_to_list (CloudWatchQuery.Dimensions q)).

(** The logger only receives a warning in the last case; it does not
    change the result. *)
Definition GetGMDAPIMode (q : CloudWatchQuery.t) : GMDApiMode :=
  if (CloudWatchQuery.MetricQueryType q =? MetricQueryTypeSearch)%N
     && (CloudWatchQuery.MetricEditorMode q =? MetricEditorModeBuilder)%N
  then
    if IsInferredSearchExpression q
    then GMDApiModeInferredSearchExpression
    else GMDApiModeMetricStat
  else if (CloudWatchQuery.MetricQueryType q =? MetricQueryTypeSearch)%N
          && (CloudWatchQuery.MetricEditorMode q =? MetricEditorModeRaw)%N
  then GMDApiModeMathExpression
  else if (CloudWatchQuery.MetricQueryType q =? MetricQueryTypeQuery)%N
  then GMDApiModeSQLExpression
  else GMDApiModeMetricStat.

(** *** Kinds of expression *)

Definition IsUserDefinedSearchExpression (q : CloudWatchQuery.t) : bool :=
  (CloudWatchQuery.MetricQueryType q =? MetricQueryTypeSearch)%N
  && (CloudWatchQuery.MetricEditorMode q =? MetricEditorModeRaw)%N
  && Strings.Contains (CloudWatchQuery.Expression q) "SEARCH(".

Definition IsMathExpression (q : CloudWatchQuery.t) : bool :=
  (CloudWatchQuery.MetricQueryType q =? MetricQueryTypeSearch)%N
  && (CloudWatchQuery.MetricEditorMode q =? MetricEditorModeRaw)%N
  && negb (IsUserDefinedSearchExpression q).

Definition isSearchExpression (q : CloudWatchQuery.t) : bool :=
  (CloudWatchQuery.MetricQueryType q =? MetricQueryTypeSearch)%N
  && (IsUserDefinedSearchExpression q || IsInferredSearchExpression q).

(** The loop of [IsMultiValuedDimensionExpression] along one iteration
    order of the map: an entry with the value "*" ends it with false, an
    entry with more than one value ends it with true. *)
Fixpoint rangeMultiValued (entries : list (string * list string)) : bool :=
  match entries with
  | [] => false
  | (_, values) :: rest =>
      if existsb (fun v => String.eqb v "*") values then false
      else if (1 <? length values)%nat then true
      else rangeMultiValued rest
  end.

(** [IsMultiValuedDimensionExpression] when the map is ranged over in the
    order [order]. *)
Definition IsMultiValuedDimensionExpressionIn
    (order : list (string * list string)) (q : CloudWatchQuery.t) : bool :=
  if negb (CloudWatchQuery.MetricQueryType q =? MetricQueryTypeSearch)%N
     || negb (CloudWatchQuery.MetricEditorMode q =? MetricEditorModeBuilder)%N
  then false
  else rangeMultiValued order.

Definition IsMultiValuedDimensionExpression (q : CloudWatchQuery.t) : bool :=
  IsMultiValuedDimensionExpressionIn
    (map_to_list (CloudWatchQuery.Dimensions q)) q.

(** The inferred-search predicate in the words of the specification. *)
Definition inferredSearchSpec (q : CloudWatchQuery.t) : Prop :=
  CloudWatchQuery.AccountId q = Some "all"
  \/ (CloudWatchQuery.Dimensions q = ∅ /\ CloudWatchQuery.MatchExact q = false)
  \/ (CloudWatchQuery.Dimensions q <> ∅ /\ CloudWatchQuery.MatchExact q = false)
  \/ (CloudWatchQuery.MatchExact q = true
      /\ exists k values,
           CloudWatchQuery.Dimensions q !! k = Some values
           /\ (1 < length values \/ "*" ∈ values)).

(** *** Period *)

Definition getRetainedPeriods (timeSince : Time.Duration) : list Z :=
  if (455 * 24 * Time.Hour <? timeSince)%Z then [21600; 86400]%Z
  else if (63 * 24 * Time.Hour <? timeSince)%Z then [3600; 21600; 86400]%Z
  else if (15 * 24 * Time.Hour <? timeSince)%Z
  then [300; 900; 3600; 21600; 86400]%Z
  else [60; 300; 900; 3600; 21600; 86400]%Z.

(** The loop of [getPeriod]: the first value not below [datapoints],
    else the value [period] set before the loop. *)
Fixpoint firstAtLeast (datapoints : Z) (periods : list Z) (period : Z) : Z :=
  match periods with
  | [] => period
  | value :: rest =>
      if (datapoints <=? value)%Z then value
      else firstAtLeast datapoints rest period
  end.

(** [int(math.Ceil(deltaInSeconds / 2000))]. *)
Definition datapointsOf (delta : Time.Duration) : Z :=
  Float64.toInt
    (Float64.Ceil (Float64.div (Time.Seconds delta) (Float64.ofInt 2000))).

Section Period.
(** [time.ParseDuration], reached only by a period that is neither
    automatic nor an integer. *)
Variable ParseDuration : string -> error + Time.Duration.

Definition getPeriod (query : metricsDataQuery.t)
    (startTime endTime now : Time.Time) : result Z :=
  let periodString := metricsDataQuery.Period query in
  if String.eqb (Strings.ToLower periodString) "auto"
     || String.eqb periodString ""
  then
    let periods := getRetainedPeriods (Time.Since now startTime) in
    let datapoints := datapointsOf (Time.Sub endTime startTime) in
    Ok (firstAtLeast datapoints periods (List.last periods 0%Z))
  else
    match Strconv.Atoi periodString with
    | Some period => Ok period
    | None =>
        match ParseDuration periodString with
        | inr d => Ok (Float64.toInt (Time.Seconds d))
        | inl err =>
            Err (errorString
                   ("failed to parse period as duration: " +:+ Error err))
        end
    end.
End Period.

(** *** Dimensions *)

(** The inner loop of [parseDimensions] over a list value: every element
    is asserted to be a string and appended to the entry of [k]. *)
Fixpoint appendValues (k : string) (values : list JSONValue)
    (parsed : gmap string (list string)) : result (gmap string (list string)) :=
  match values with
  | [] => Ok parsed
  | JString value :: rest =>
      appendValues k rest (<[k := (default [] (parsed !! k) ++ [value])%list]> parsed)
  | _ :: _ => Panic "interface conversion: interface {} is not string"
  end.

(** The outer loop, along one iteration order of the map. *)
Fixpoint parseEntries (entries : list (string * JSONValue))
    (parsed : gmap string (list string)) : result (gmap string (list string)) :=
  match entries with
  | [] => Ok parsed
  | (k, v) :: rest =>
      match v with
      | JString value => parseEntries rest (<[k := [value]]> parsed)
      | JArray values =>
          parsed' ← appendValues k values parsed; parseEntries rest parsed'
      | _ => Err (errorString "unknown type as dimension value")
      end
  end.

Definition sortDimensions (dimensions : gmap string (list string))
  : gmap string (list string) :=
  let keys := merge_sort String.le (map_to_list dimensions).*1 in
  foldl (fun sorted k => <[k := default [] (dimensions !! k)]> sorted) ∅ keys.

(** [parseDimensions] when the map is ranged over in the order [order]. *)
Definition parseDimensionsIn (order : list (string * JSONValue))
  : result (gmap string (list string)) :=
  parsed ← parseEntries order ∅; Ok (sortDimensions parsed).

Definition parseDimensions (dimensions : gmap string JSONValue)
  : result (gmap string (list string)) :=
  parseDimensionsIn (map_to_list dimensions).

(** *** Legacy migration: statistic and label *)

(** [*query.Statistics[0]] indexes the slice and dereferences the
    element; both can fail at run time. *)
Definition getStatistic (query : metricsDataQuery.t) : result string :=
  match metricsDataQuery.Statistic query with
  | None =>
      match metricsDataQuery.Statistics query with
      | None | Some [] => Panic "index out of range [0] with length 0"
      | Some (None :: _) => Panic "invalid memory address or nil pointer dereference"
      | Some (Some statistic :: _) => Ok statistic
      end
  | Some statistic => Ok statistic
  end.

Definition aliasPatterns : gmap string string :=
  list_to_map
    [ ("metric", "${PROP('MetricName')}");
      ("namespace", "${PROP('Namespace')}");
      ("period", "${PROP('Period')}");
      ("region", "${PROP('Region')}");
      ("stat", "${PROP('Stat')}");
      ("label", "${LABEL}") ].

(** One turn of the loop of [getLabel] for the match [groups]. *)
Definition migrateMatch (fullAliasField : string) (groups : string * string)
  : string :=
  let fullMatch := groups.1 in
  let subgroup := groups.2 in
  match aliasPatterns !! subgroup with
  | Some dynamicLabel => Strings.ReplaceAll fullAliasField fullMatch dynamicLabel
  | None =>
      Strings.ReplaceAll fullAliasField fullMatch
        ("${PROP('Dim." +:+ subgroup +:+ "')}")
  end.

Definition getLabel (query : metricsDataQuery.t) (dynamicLabelsEnabled : bool)
  : string :=
  match metricsDataQuery.Label query with
  | Some label => label
  | None =>
      if String.eqb (metricsDataQuery.Alias query) "" then ""
      else if dynamicLabelsEnabled
      then
        let matches :=
          Regexp.legacyAliasRegexp_FindAllStringSubmatch
            (metricsDataQuery.Alias query) in
        foldl migrateMatch (metricsDataQuery.Alias query) matches
      else ""
  end.

Definition migrateLegacyQuery (q : CloudWatchQuery.t)
    (query : metricsDataQuery.t) (dynamicLabelsEnabled : bool)
  : result CloudWatchQuery.t :=
  statistic ← getStatistic query;
  Ok (CloudWatchQuery.setLabel (getLabel query dynamicLabelsEnabled)
        (CloudWatchQuery.setStatistic statistic q)).

(** *** Normalization *)

Definition timeSeriesQuery : string := "timeSeriesQuery".

Section Normalizer.
Variable ParseDuration : string -> error + Time.Duration.
(** [json.Unmarshal] into a [metricsDataQuery]. *)
Variable json_Unmarshal : string -> error + metricsDataQuery.t.

(** The method mutates its receiver; the model returns the receiver
    as it is when the method returns nil.  [now] is the clock reading
    and [entropy] the bytes of the random source. *)
Definition validateAndSetDefaults (q : CloudWatchQuery.t) (refId : string)
    (mdq : metricsDataQuery.t) (startTime endTime now : Time.Time)
    (entropy : list ascii) (defaultRegionValue : string)
    (crossAccountQueryingEnabled : bool) : result CloudWatchQuery.t :=
  if bool_decide (metricsDataQuery.Statistic mdq = None)
     && bool_decide (metricsDataQuery.Statistics mdq = None)
  then Err (errorString "query must have either statistic or statistics field")
  else
    period ← getPeriod ParseDuration mdq startTime endTime now;
    let q := CloudWatchQuery.setPeriod period q in
    match parseDimensions (metricsDataQuery.Dimensions mdq) with
    | Err err =>
        Err (errorString ("failed to parse dimensions: " +:+ Error err))
    | Panic msg => Panic msg
    | Ok dimensions =>
        let q := CloudWatchQuery.setDimensions dimensions q in
        let q := if crossAccountQueryingEnabled
                 then CloudWatchQuery.setAccountId
                        (metricsDataQuery.AccountId mdq) q
                 else q in
        q ← (if String.eqb (metricsDataQuery.Id mdq) ""
             then
               suffix ← (if Regexp.validMetricDataID refId then Ok refId
                         else
                           newUUID ← UUID.NewString entropy;
                           Ok (Strings.ReplaceAll newUUID "-" ""));
               Ok (CloudWatchQuery.setId ("query" +:+ suffix) q)
             else Ok q);
        let q := CloudWatchQuery.setMatchExact true q in
        let q := match metricsDataQuery.MatchExact mdq with
                 | Some b => CloudWatchQuery.setMatchExact b q
                 | None => q
                 end in
        let q := CloudWatchQuery.setReturnData true q in
        let q := match metricsDataQuery.Hide mdq with
                 | Some hide => CloudWatchQuery.setReturnData (negb hide) q
                 | None => q
                 end in
        let q := if String.eqb (metricsDataQuery.QueryType mdq) ""
                 then CloudWatchQuery.setReturnData true q
                 else q in
        let q :=
          match metricsDataQuery.MetricEditorMode mdq with
          | None =>
              if (0 <? String.length (metricsDataQuery.Expression mdq))%nat
              then CloudWatchQuery.setMetricEditorMode MetricEditorModeRaw q
              else CloudWatchQuery.setMetricEditorMode MetricEditorModeBuilder q
          | Some mode => CloudWatchQuery.setMetricEditorMode mode q
          end in
        let q := if String.eqb (CloudWatchQuery.Region q) defaultRegion
                 then CloudWatchQuery.setRegion defaultRegionValue q
                 else q in
        Ok q
    end.

(** [(cwQuery, nil)] is [Ok cwQuery] and [(nil, err)] is [Err err].  The
    parameter called [defaultRegion] in the source hides the constant
    of that name; it is [defaultRegionParam] here. *)
Definition ParseMetricDataQueries (q : DataQuery.t)
    (dataQueries : list DataQuery.t) (startTime endTime now : Time.Time)
    (entropy : list ascii) (defaultRegionParam : string)
    (dynamicLabelsEnabled crossAccountQueryingEnabled : bool)
  : result CloudWatchQuery.t :=
  match json_Unmarshal (DataQuery.JSON q) with
  | inl err => Err (QueryError err (DataQuery.RefID q))
  | inr mdq =>
      let mdq := if String.eqb (metricsDataQuery.Region mdq) ""
                 then metricsDataQuery.setRegion defaultRegionParam mdq
                 else mdq in
      let queryType := metricsDataQuery.QueryType mdq in
      if String.eqb queryType timeSeriesQuery
      then
        let cwQuery :=
          CloudWatchQuery.mk
            (DataQuery.RefID q) (metricsDataQuery.Region mdq)
            (metricsDataQuery.Id mdq) (metricsDataQuery.Namespace mdq)
            (metricsDataQuery.MetricName mdq) ""
            (metricsDataQuery.Expression mdq)
            (metricsDataQuery.SqlExpression mdq) false ∅ 0%Z
            (metricsDataQuery.Alias mdq) "" false ""
            (metricsDataQuery.TimezoneUTCOffset mdq)
            (metricsDataQuery.MetricQueryType mdq) 0%N None in
        match validateAndSetDefaults cwQuery (DataQuery.RefID q) mdq
                startTime endTime now entropy defaultRegionParam
                crossAccountQueryingEnabled with
        | Err err => Err (QueryError err (DataQuery.RefID q))
        | Panic msg => Panic msg
        | Ok cwQuery => migrateLegacyQuery cwQuery mdq dynamicLabelsEnabled
        end
      else Err (errorString "its not a time series query")
  end.
End Normalizer.

(** *** Deep link to the CloudWatch console *)

(** The structs of the link.  Their declarations are in another file of
    the package; the fields are those the literals of [BuildDeepLink]
    name, and a field no literal sets has its zero value. *)
Module metricExpression.
Record t : Type := mk { Expression : string; Label : string }.
End metricExpression.

Module metricStatMeta.
Record t : Type := mk {
  Stat : string;
  Period : Z;
  Label : string;
  AccountId : string
}.
End metricStatMeta.

(** The values put into the [[]interface{}] slices of the link. *)
Inductive linkValue : Type :=
| LinkString (s : string)
| LinkExpression (e : metricExpression.t)
| LinkStatMeta (m : metricStatMeta.t)
| LinkSlice (items : list linkValue).

Module cloudWatchLink.
Record t : Type := mk {
  Title : string;
  View : string;
  Stacked : bool;
  Region : string;
  Start : string;
  End_ : string;
  Metrics : list linkValue
}.
End cloudWatchLink.

(** The loop over [q.Dimensions] along one iteration order: the key and
    the first value of every entry are appended to [metricStat];
    [dimensionValues[0]] is out of range when the list is empty. *)
Fixpoint appendDimensions (entries : list (string * list string))
    (metricStat : list linkValue) : result (list linkValue) :=
  match entries with
  | [] => Ok metricStat
  | (dimensionKey, dimensionValues) :: rest =>
      match dimensionValues with
      | [] => Panic "index out of range [0] with length 0"
      | value :: _ =>
          appendDimensions rest
            (metricStat ++ [LinkString dimensionKey; LinkString value])%list
      end
  end.

Section DeepLink.
(** [t.UTC().Format(time.RFC3339)]. *)
Variable formatRFC3339 : Time.Time -> string.
(** [json.Marshal] of the link. *)
Variable json_Marshal : cloudWatchLink.t -> error + string.
(** [net/url]: [url.Parse], [URL.Query], [Values.Set], [Values.Encode],
    the assignment to [RawQuery] and [URL.String]. *)
Variable URL : Type.
Variable Values : Type.
Variable url_Parse : string -> error + URL.
Variable URL_Query : URL -> Values.
Variable Values_Set : string -> string -> Values -> Values.
Variable Values_Encode : Values -> string.
Variable URL_setRawQuery : string -> URL -> URL.
Variable URL_String : URL -> string.

(** The [Metrics] of the link: the expression of a search, or the
    metric stat with its dimensions. *)
Definition linkMetrics (order : list (string * list string))
    (q : CloudWatchQuery.t) (dynamicLabelEnabled : bool)
  : result (list linkValue) :=
  if isSearchExpression q
  then
    Ok [LinkExpression
          (metricExpression.mk (CloudWatchQuery.UsedExpression q)
             (if dynamicLabelEnabled then CloudWatchQuery.Label q else ""))]
  else
    metricStat ← appendDimensions order
                   [LinkString (CloudWatchQuery.Namespace q);
                    LinkString (CloudWatchQuery.MetricName q)];
    Ok [LinkSlice
          (metricStat
           ++ [LinkStatMeta
                 (metricStatMeta.mk (CloudWatchQuery.Statistic q)
                    (CloudWatchQuery.Period q)
                    (if dynamicLabelEnabled then CloudWatchQuery.Label q
                     else "")
                    (default "" (CloudWatchQuery.AccountId q)))])%list].

(** [BuildDeepLink] when the map of dimensions is ranged over in the
    order [order]; [("", nil)] is [Ok ""]. *)
Definition BuildDeepLinkIn (order : list (string * list string))
    (q : CloudWatchQuery.t) (startTime endTime : Time.Time)
    (dynamicLabelEnabled : bool) : result string :=
  if IsMathExpression q
     || (CloudWatchQuery.MetricQueryType q =? MetricQueryTypeQuery)%N
  then Ok ""
  else
    metrics ← linkMetrics order q dynamicLabelEnabled;
    let link :=
      cloudWatchLink.mk (CloudWatchQuery.RefId q) "timeSeries" false
        (CloudWatchQuery.Region q) (formatRFC3339 startTime)
        (formatRFC3339 endTime) metrics in
    match json_Marshal link with
    | inl err => Err (wrapError ("could not marshal link: " +:+ Error err) err)
    | inr linkProps =>
        match url_Parse ("https://" +:+ CloudWatchQuery.Region q
                         +:+ ".console.aws.amazon.com/cloudwatch/deeplink.js") with
        | inl _ => Err (errorString "unable to parse CloudWatch console deep link")
        | inr url =>
            let fragment := Values_Set "graph" linkProps (URL_Query url) in
            let query :=
              Values_Set "region" (CloudWatchQuery.Region q) (URL_Query url) in
            let url := URL_setRawQuery (Values_Encode query) url in
            Ok (URL_String url +:+ "#metricsV2:" +:+ Values_Encode fragment)
        end
    end.

Definition BuildDeepLink (q : CloudWatchQuery.t)
    (startTime endTime : Time.Time) (dynamicLabelEnabled : bool)
  : result string :=
  BuildDeepLinkIn (map_to_list (CloudWatchQuery.Dimensions q)) q startTime
    endTime dynamicLabelEnabled.
End DeepLink.

End Models.

(** ** pkg/infinity/csvBackend.go *)

Module Infinity.
Import Go.

(** The fields of [models.Query] and of its parts that
    [GetCSVBackendResponse] reads. *)
Record InfinityColumn : Type := mkInfinityColumn {
  Selector : string;
  Text : string;
  ColumnType : string;
  TimeStampFormat : string
}.

Record InfinityCSVOptions : Type := mkInfinityCSVOptions {
  CSVDelimiter : string;
  CSVComment : string;
  CSVSkipLinesWithError : bool;
  CSVRelaxColumnCount : bool;
  CSVColumns : string
}.

Record Query : Type := mkQuery {
  RefID : string;
  QueryType : string;
  Format : string;
  Columns : list InfinityColumn;
  ComputedColumns : list InfinityColumn;
  FilterExpression : string;
  SummarizeExpression : string;
  SummarizeBy : string;
  CSVOptions : InfinityCSVOptions
}.

(** [gframer.ColumnSelector] and [csvFramer.CSVFramerOptions]. *)
Record ColumnSelector : Type := mkColumnSelector {
  SelSelector : string;
  SelAlias : string;
  SelType : string;
  SelTimeFormat : string
}.

Record CSVFramerOptions : Type := mkCSVFramerOptions {
  FrameName : string;
  OptColumns : list ColumnSelector;
  Comment : string;
  Delimiter : string;
  SkipLinesWithError : bool;
  RelaxColumnCount : bool;
  NoHeaders : bool
}.

(** [CustomMeta], the value stored in [FrameMeta.Custom]. *)
Record CustomMeta : Type := mkCustomMeta {
  MetaQuery : Query;
  MetaError : string
}.

Record FrameMeta : Type := mkFrameMeta { Custom : option CustomMeta }.

Inductive TimeSeriesType : Type :=
| TimeSeriesTypeNot
| TimeSeriesTypeLong
| TimeSeriesTypeWide.

Definition newline : string := String "010" EmptyString.
Definition tab : string := String "009" EmptyString.

Section Pipeline.
(** A column of a frame ([data.Field]). *)
Variable Field : Type.

(** [data.Frame]: the columns and the metadata pointer, the two parts
    the pipeline touches. *)
Record Frame : Type := mkFrame {
  Fields : list Field;
  Meta : option FrameMeta
}.

(** The constant [models.QueryTypeTSV]. *)
Variable QueryTypeTSV : string.
(** [csvFramer.CsvStringToFrame]. *)
Variable CsvStringToFrame :
  string -> CSVFramerOptions -> option Frame * option error.
(** The evaluators of the expression grammar behind the computed
    columns, the row filter and the summary. *)
Variable evalComputedColumns :
  list Field -> list InfinityColumn -> error + list Field.
Variable evalFilter : list Field -> string -> error + list Field.
Variable GetSummaryFrame :
  Frame -> string -> string -> option Frame * option error.
(** [frame.TimeSeriesSchema().Type] and [data.LongToWide] with the
    null fill mode. *)
Variable TimeSeriesSchemaType : Frame -> TimeSeriesType.
Variable LongToWide : Frame -> option Frame * option error.

(** Modelled from the spec: [GetDummyFrame] is not part of the sources;
    a frame is "created empty". *)
Definition GetDummyFrame (query : Query) : Frame := mkFrame [] None.

(** Modelled from the spec: [GetFrameWithComputedColumns] is not part
    of the sources.  The derived columns are appended to the frame it
    is given ("mutated in place by each pipeline stage"); when an
    expression fails "partial results are discarded", the frame is
    handed back as it was, with the error. *)
Definition GetFrameWithComputedColumns (frame : Frame)
    (columns : list InfinityColumn) : Frame * option error :=
  match evalComputedColumns (Fields frame) columns with
  | inr fields => (mkFrame fields (Meta frame), None)
  | inl err => (frame, Some err)
  end.

(** Modelled from the spec: [ApplyFilter] is not part of the sources.
    "Empty expression is a no-op"; otherwise the rows are filtered in
    the frame it is given, or the error is returned with that frame. *)
Definition ApplyFilter (frame : Frame) (filterExpression : string)
  : Frame * option error :=
  if String.eqb filterExpression "" then (frame, None)
  else
    match evalFilter (Fields frame) filterExpression with
    | inr fields => (mkFrame fields (Meta frame), None)
    | inl err => (frame, Some err)
    end.

(** [frame.Meta.Custom = custom]: a nil [Meta] is a nil dereference. *)
Definition assignCustom (custom : CustomMeta) (frame : Frame)
  : result Frame :=
  match Meta frame with
  | Some _ => Ok (mkFrame (Fields frame) (Some (mkFrameMeta (Some custom))))
  | None => Panic "invalid memory address or nil pointer dereference"
  end.

(** Lines 71 to 79: summary, else long-to-wide reshape, else the frame.
    At this point [err] is nil. *)
Definition summarizeOrReshape (frame : Frame) (query : Query)
  : option Frame * option error :=
  if negb (Strings.TrimSpaceIsEmpty (SummarizeExpression query))
  then GetSummaryFrame frame (SummarizeExpression query) (SummarizeBy query)
  else
    if String.eqb (Format query) "timeseries"
       && match TimeSeriesSchemaType frame with
          | TimeSeriesTypeLong => true
          | _ => false
          end
    then
      match LongToWide frame with
      | (wFrame, None) => (wFrame, None)
      | (_, Some _) => (Some frame, None)
      end
    else (Some frame, None).

(** Lines 16 to 41: the options handed to the CSV framer, and the text
    with the header line of the query put in front. *)
Definition csvFramerOptions (query : Query) : CSVFramerOptions :=
  let columns :=
    map (fun c => mkColumnSelector (Selector c) (Text c) (ColumnType c)
                    (TimeStampFormat c)) (Columns query) in
  let opts := CSVOptions query in
  mkCSVFramerOptions (RefID query) columns (CSVComment opts)
    (if String.eqb (QueryType query) QueryTypeTSV then tab
     else CSVDelimiter opts)
    (CSVSkipLinesWithError opts) (CSVRelaxColumnCount opts)
    (String.eqb (CSVColumns opts) "-" || String.eqb (CSVColumns opts) "none").

Definition csvText (responseString : string) (query : Query) : string :=
  let header := CSVColumns (CSVOptions query) in
  if negb (String.eqb header "") && negb (String.eqb header "-")
     && negb (String.eqb header "none")
  then header +:+ newline +:+ responseString
  else responseString.

(** The frame after line 58: the dummy frame with the metadata of line 43
    and the columns of the parsed frame, if there is one. *)
Definition parsedFrame (query : Query) (newFrame : option Frame) : Frame :=
  let frame := GetDummyFrame query in
  let frame :=
    mkFrame (Fields frame) (Some (mkFrameMeta (Some (mkCustomMeta query "")))) in
  match newFrame with
  | Some nf => mkFrame (Fields frame ++ Fields nf) (Meta frame)
  | None => frame
  end.

Definition GetCSVBackendResponse (responseString : string) (query : Query)
  : result (option Frame * option error) :=
  let '(newFrame, err) :=
    CsvStringToFrame (csvText responseString query) (csvFramerOptions query) in
  match err with
  | Some e =>
      frame ← assignCustom (mkCustomMeta query (Error e)) (parsedFrame query None);
      Ok (Some frame, Some e)
  | None =>
      let frame := parsedFrame query newFrame in
      let '(frame, err) :=
        GetFrameWithComputedColumns frame (ComputedColumns query) in
      match err with
      | Some e =>
          frame ← assignCustom (mkCustomMeta query (Error e)) frame;
          Ok (Some frame, Some e)
      | None =>
          let '(frame, err) := ApplyFilter frame (FilterExpression query) in
          match err with
          | Some e =>
              frame ← assignCustom (mkCustomMeta query (Error e)) frame;
              Ok (Some frame,
                  Some (wrapError ("error applying filter. " +:+ Error e) e))
          | None => Ok (summarizeOrReshape frame query)
          end
      end
  end.

(** The three stages before the summary, for the statements below: the
    stage that fails with its error, or the frame all three yield. *)
Inductive stageFails (responseString : string) (query : Query)
  : error -> error -> Prop :=
| parseFails newFrame e :
    CsvStringToFrame (csvText responseString query) (csvFramerOptions query)
    = (newFrame, Some e) ->
    stageFails responseString query e e
| computedColumnsFail newFrame frame e :
    CsvStringToFrame (csvText responseString query) (csvFramerOptions query)
    = (newFrame, None) ->
    GetFrameWithComputedColumns (parsedFrame query newFrame)
      (ComputedColumns query) = (frame, Some e) ->
    stageFails responseString query e e
| filterFails newFrame frame frame' e :
    CsvStringToFrame (csvText responseString query) (csvFramerOptions query)
    = (newFrame, None) ->
    GetFrameWithComputedColumns (parsedFrame query newFrame)
      (ComputedColumns query) = (frame, None) ->
    ApplyFilter frame (FilterExpression query) = (frame', Some e) ->
    stageFails responseString query e
      (wrapError ("error applying filter. " +:+ Error e) e).

Inductive stagesYield (responseString : string) (query : Query)
  : Frame -> Prop :=
| allStages newFrame frame frame' :
    CsvStringToFrame (csvText responseString query) (csvFramerOptions query)
    = (newFrame, None) ->
    GetFrameWithComputedColumns (parsedFrame query newFrame)
      (ComputedColumns query) = (frame, None) ->
    ApplyFilter frame (FilterExpression query) = (frame', None) ->
    stagesYield responseString query frame'.

End Pipeline.

End Infinity.

(** ** pkg/cloudwatch/clients/metrics.go *)

(** The decimal text of a non-negative [int], as the run-time prints it
    in its messages. *)
Definition decimal (n : nat) : string :=
  NilZero.string_of_uint (Nat.to_uint n).

Module Clients.
Import Go.

Section MetricsClient.
(** [*cloudwatch.Metric] and [*cloudwatch.ListMetricsOutput]. *)
Variable Metric : Type.
Variable ListMetricsOutput : Type.
(** [page.OwningAccounts], a [[]*string]. *)
Variable OwningAccounts : ListMetricsOutput -> list (option string).
(** [awsutil.ValuesAtPath(page, "Metrics")]; every value it yields for
    that path has the dynamic type [*cloudwatch.Metric]. *)
Variable ValuesAtPath_Metrics : ListMetricsOutput -> error + list Metric.

(** [resources.MetricResponse], the two fields that are written. *)
Record MetricResponse : Type := mkMetricResponse {
  ResponseMetric : Metric;
  AccountId : option string
}.

(** The loop over the metrics of one page, from the index [idx] on. *)
Fixpoint appendMetrics (owningAccounts : list (option string))
    (includeLinkedAccounts : bool) (idx : nat) (metrics : list Metric)
    (cloudWatchMetrics : list MetricResponse) : result (list MetricResponse) :=
  match metrics with
  | [] => Ok cloudWatchMetrics
  | metric :: rest =>
      if (idx <=? length owningAccounts)%nat && includeLinkedAccounts
      then
        match owningAccounts !! idx with
        | Some account =>
            appendMetrics owningAccounts includeLinkedAccounts (S idx) rest
              (cloudWatchMetrics ++ [mkMetricResponse metric account])
        | None =>
            Panic ("index out of range [" +:+ decimal idx +:+ "] with length "
                   +:+ decimal (length owningAccounts))
        end
      else
        appendMetrics owningAccounts includeLinkedAccounts (S idx) rest
          (cloudWatchMetrics ++ [mkMetricResponse metric None])
  end.

(** The function handed to [ListMetricsPages].  It captures
    [cloudWatchMetrics] and [pageNum]; the model passes them in and out
    together with the returned boolean.  [includeLinkedAccounts] is
    [params.IncludeLinkedAccounts], nil when [None]. *)
Definition pageFn (includeLinkedAccounts : option bool)
    (state : list MetricResponse * Z) (page : ListMetricsOutput)
    (lastPage : bool) : result (list MetricResponse * Z * bool) :=
  let '(cloudWatchMetrics, pageNum) := state in
  let pageNum := (pageNum + 1)%Z in
  cloudWatchMetrics ←
    match ValuesAtPath_Metrics page with
    | inr metrics =>
        appendMetrics (OwningAccounts page)
          (default false includeLinkedAccounts) 0 metrics cloudWatchMetrics
    | inl _ => Ok cloudWatchMetrics
    end;
  Ok (cloudWatchMetrics, pageNum, negb lastPage && (pageNum <? 1000)%Z).

(** [ListMetricsPages] is a method of the interface embedded in the
    client.  A provider is modelled by the pages it has to deliver, each
    with its [lastPage] flag, and by the error it returns at the end; as
    the paginators of the SDK do, it calls the function on one page after
    the other until the function returns false. *)
Fixpoint ListMetricsPages {State : Type}
    (pages : list (ListMetricsOutput * bool))
    (fn : State -> ListMetricsOutput -> bool -> result (State * bool))
    (state : State) : result State :=
  match pages with
  | [] => Ok state
  | (page, lastPage) :: rest =>
      match fn state page lastPage with
      | Ok (state', more) =>
          if more then ListMetricsPages rest fn state' else Ok state'
      | Err e => Err e
      | Panic msg => Panic msg
      end
  end.

Definition ListMetricsWithPageLimit
    (pages : list (ListMetricsOutput * bool)) (providerError : option error)
    (includeLinkedAccounts : option bool)
  : result (list MetricResponse * option error) :=
  state ← ListMetricsPages pages (pageFn includeLinkedAccounts) ([], 0%Z);
  Ok (state.1, providerError).
End MetricsClient.

End Clients.

(** The package [metricutil] of the same file. *)
Module Metricutil.
Import Go.

(** What the loop of [SanitizeLabelName] writes for the byte [b] at the
    index [i].  The loop ranges over runes; a rune outside ASCII, or the
    replacement rune of an invalid byte, passes none of the tests, so that
    each of its bytes is dropped, and an ASCII rune is one byte, whose
    index is 0 only at the start of the name. *)
Definition written (i : nat) (b : ascii) : option ascii :=
  if Regexp.between 97 122 b || Regexp.between 65 90 b || Ascii.eqb b "_"
     || (Regexp.between 48 57 b && (0 <? i)%nat)
  then Some b
  else if Ascii.eqb b " " then Some "_"%char
  else None.

Fixpoint sanitizeFrom (i : nat) (name : string) : string :=
  match name with
  | EmptyString => EmptyString
  | String b rest =>
      match written i b with
      | Some c => String c (sanitizeFrom (S i) rest)
      | None => sanitizeFrom (S i) rest
      end
  end.

Section Sanitize.
(** The verb [%q] of [fmt] on a string ([strconv.Quote]). *)
Variable Quote : string -> string.

Definition SanitizeLabelName (name : string) : result string :=
  if (String.length name =? 0)%nat
  then Err (errorString "label name cannot be empty")
  else
    let out := sanitizeFrom 0 name in
    if (String.length out =? 0)%nat
    then Err (errorString
                ("label name only contains invalid chars: " +:+ Quote name))
    else Ok out.
End Sanitize.

End Metricutil.

(** ** Definitions used to state the properties *)

Module Spec.
Import Go Models.

(** The fields the classification reads. *)
Definition sameShape (q q' : CloudWatchQuery.t) : Prop :=
  CloudWatchQuery.MetricQueryType q = CloudWatchQuery.MetricQueryType q'
  /\ CloudWatchQuery.MetricEditorMode q = CloudWatchQuery.MetricEditorMode q'
  /\ CloudWatchQuery.Dimensions q = CloudWatchQuery.Dimensions q'
  /\ CloudWatchQuery.MatchExact q = CloudWatchQuery.MatchExact q'
  /\ CloudWatchQuery.AccountId q = CloudWatchQuery.AccountId q'.

(** A Builder-mode Search query, for the examples. *)
Definition builderSearch (dims : gmap string (list string)) (exact : bool)
    (account : option string) : CloudWatchQuery.t :=
  CloudWatchQuery.mk "A" "us-east-1" "a" "AWS/EC2" "CPUUtilization" "Average"
    "" "" true dims 300 "" "" exact "" ""
    MetricQueryTypeSearch MetricEditorModeBuilder account.

(** Does the byte [c] occur in [s]? *)
Fixpoint occurs (c : ascii) (s : string) : bool :=
  match s with
  | EmptyString => false
  | String x s' => Ascii.eqb x c || occurs c s'
  end.

(** The period in the words of the specification.  The target is the
    exact ceiling of the length of the range in seconds over 2000 (times
    are in nanoseconds), the candidates are those of the retention table
    for the age of the start, and the choice is the smallest candidate
    not below the target, or the largest candidate when there is none. *)
Definition exactTarget (startTime endTime : Time.Time) : Z :=
  (- ((startTime - endTime) / (2000 * 1000000000)))%Z.

Definition day : Z := (24 * 3600 * 1000000000)%Z.

Definition retentionCandidates (age : Z) : list Z :=
  if (455 * day <? age)%Z then [21600; 86400]%Z
  else if (63 * day <? age)%Z then [3600; 21600; 86400]%Z
  else if (15 * day <? age)%Z then [300; 900; 3600; 21600; 86400]%Z
  else [60; 300; 900; 3600; 21600; 86400]%Z.

Definition smallestAtLeast (target : Z) (candidates : list Z) : Z :=
  match List.filter (fun c => (target <=? c)%Z) candidates with
  | [] => foldr Z.max 0%Z candidates
  | c :: cs => foldr Z.min c cs
  end.

Definition specAutoPeriod (startTime endTime now : Time.Time) : Z :=
  smallestAtLeast (exactTarget startTime endTime)
    (retentionCandidates (now - startTime)).

(** An automatic period: empty, or "auto" in any mix of cases. *)
Definition isAuto (periodSpec : string) : Prop :=
  periodSpec = ""
  \/ exists a u t o,
      periodSpec = String a (String u (String t (String o EmptyString)))
      /\ (a = "a" \/ a = "A")%char /\ (u = "u" \/ u = "U")%char
      /\ (t = "t" \/ t = "T")%char /\ (o = "o" \/ o = "O")%char.

(** The value of a run of decimal digits in positional notation. *)
Fixpoint positional (s : string) : option Z :=
  match s with
  | EmptyString => Some 0%Z
  | String c rest =>
      match Strconv.digitOf c, positional rest with
      | Some d, Some v => Some (d * 10 ^ Z.of_nat (String.length rest) + v)%Z
      | _, _ => None
      end
  end.

(** [s] is an integer string denoting [n]: one or more decimal digits,
    possibly after a sign. *)
Definition integerString (s : string) (n : Z) : Prop :=
  exists body v,
    body <> "" /\ positional body = Some v
    /\ ((s = body /\ n = v) \/ (s = String "+" body /\ n = v)
        \/ (s = String "-" body /\ n = (- v)%Z)).

(** A decoded query whose only member is the period. *)
Definition periodQuery (periodSpec : string) : metricsDataQuery.t :=
  metricsDataQuery.mk ∅ "" None "" None None "" 0%N "" periodSpec "" "" None
    None "" "" None "" None.

(** The shapes of a dimension value: a string stands for the list of that
    one string, a list of strings for itself; [normalValue] is [None] for
    every other value.  A key whose list is empty gets no entry. *)
Definition stringOf (v : JSONValue) : option string :=
  match v with
  | JString s => Some s
  | _ => None
  end.

Definition stringsOf (values : list JSONValue) : option (list string) :=
  mapM stringOf values.

Definition normalValue (v : JSONValue) : option (list string) :=
  match v with
  | JString s => Some [s]
  | JArray values => stringsOf values
  | _ => None
  end.

Definition entryOf (v : JSONValue) : option (list string) :=
  match normalValue v with
  | Some (s :: l) => Some (s :: l)
  | _ => None
  end.

(** Is the value neither a string nor a list? *)
Definition otherShape (v : JSONValue) : bool :=
  match v with
  | JString _ | JArray _ => false
  | _ => true
  end.

(** Does [sub] occur in [s]? *)
Fixpoint contains (s sub : string) : bool :=
  Strings.HasPrefix s sub
  || match s with
     | EmptyString => false
     | String _ s' => contains s' sub
     end.

(** The label in the words of the specification.  The scan of the alias
    splits it into the placeholders [{{ name }}] that the pattern finds,
    leftmost first, and the bytes outside them; every placeholder is
    replaced by the token of its name, and the bytes outside are kept. *)
Inductive segment : Type :=
| Lit (c : ascii)
| Hole (full name : string).

Fixpoint scanFrom (skip : nat) (s : string) : list segment :=
  match s with
  | EmptyString => []
  | String c s' =>
      match skip with
      | S n => scanFrom n s'
      | O =>
          match Regexp.matchAt s with
          | Some (full, name) =>
              Hole full name :: scanFrom (String.length full - 1) s'
          | None => Lit c :: scanFrom O s'
          end
      end
  end.

(** The fixed-table token of a name, or its dimension-lookup token. *)
Definition token (name : string) : string :=
  match aliasPatterns !! name with
  | Some dynamicLabel => dynamicLabel
  | None => "${PROP('Dim." +:+ name +:+ "')}"
  end.

(** The text of a segment once the placeholders whose text is in [done]
    have been replaced. *)
Definition rendered (done : list string) (seg : segment) : string :=
  match seg with
  | Lit c => String c EmptyString
  | Hole full name => if bool_decide (full ∈ done) then token name else full
  end.

Definition joined (pieces : list string) : string :=
  foldr String.append EmptyString pieces.

Definition render (done : list string) (segs : list segment) : string :=
  joined (rendered done <$> segs).

Definition substituted (seg : segment) : string :=
  match seg with
  | Lit c => String c EmptyString
  | Hole _ name => token name
  end.

Definition specLabel (alias : string) : string :=
  joined (substituted <$> scanFrom O alias).

Definition holes (segs : list segment) : list (string * string) :=
  omap (fun seg => match seg with
                   | Lit _ => None
                   | Hole full name => Some (full, name)
                   end) segs.

(** The scan as a relation between a text and its segments. *)
Inductive Scanned : string -> list segment -> Prop :=
| scanned_nil : Scanned EmptyString []
| scanned_lit c s segs :
    Regexp.matchAt (String c s) = None ->
    Scanned s segs ->
    Scanned (String c s) (Lit c :: segs)
| scanned_hole full name rest segs :
    Regexp.matchAt (full +:+ rest) = Some (full, name) ->
    Scanned rest segs ->
    Scanned (full +:+ rest) (Hole full name :: segs).

(** Classes of bytes and of texts used in the statements. *)
Definition isOpen (c : ascii) : bool := Ascii.eqb c "{".
Definition isBrace (c : ascii) : bool := Ascii.eqb c "{" || Ascii.eqb c "}".

Fixpoint allBytes (p : ascii -> bool) (s : string) : bool :=
  match s with
  | EmptyString => true
  | String c s' => p c && allBytes p s'
  end.

Definition noBrace (s : string) : bool := allBytes (fun c => negb (isBrace c)) s.

Definition startsPlain (s : string) : bool :=
  match s with
  | EmptyString => false
  | String c _ => negb (Regexp.isSpace c)
  end.

Fixpoint endsPlain (s : string) : bool :=
  match s with
  | EmptyString => false
  | String c EmptyString => negb (Regexp.isSpace c)
  | String _ s' => endsPlain s'
  end.

(** A plain name: no brace in it, no white space at its ends. *)
Definition plainName (name : string) : bool :=
  noBrace name && startsPlain name && endsPlain name.

(** A text without two opening braces in a row that does not end with an
    opening brace: no occurrence of a placeholder starts inside it. *)
Fixpoint inert (p : string) : bool :=
  match p with
  | EmptyString => true
  | String c p' =>
      match p' with
      | EmptyString => negb (isOpen c)
      | String c' _ => negb (isOpen c && isOpen c') && inert p'
      end
  end.

(** A text without an opening brace that does not end with a dollar. *)
Fixpoint closedText (u : string) : bool :=
  match u with
  | EmptyString => true
  | String c u' =>
      negb (isOpen c)
      && match u' with
         | EmptyString => negb (Ascii.eqb c "$")
         | String _ _ => closedText u'
         end
  end.

(** The texts the pattern can match, with the name it captures. *)
Definition placeholder (full name : string) : Prop :=
  exists w t,
    full = "{{" +:+ w +:+ name +:+ t +:+ "}}"
    /\ allBytes Regexp.isSpace w = true
    /\ allBytes Regexp.isSpace t = true
    /\ name <> ""
    /\ allBytes (fun c => negb (Regexp.isNewline c)) name = true.

(** The scans all of whose placeholders have plain names. *)
Definition plainHoles (segs : list segment) : Prop :=
  Forall (fun seg => match seg with
                     | Lit _ => True
                     | Hole _ name => plainName name = true
                     end) segs.

(** A decoded query with an alias and no label. *)
Definition aliasQuery (alias : string) : metricsDataQuery.t :=
  metricsDataQuery.mk ∅ "" None "" None None "" 0%N "" "" "" "" None None ""
    "" None alias None.

(** Stand-ins for the two library functions in the examples: a decoder
    that yields a given struct, and a duration parser that rejects its
    input (no example reaches it with a duration). *)
Definition decodeAs (mdq : metricsDataQuery.t)
  : string -> error + metricsDataQuery.t := fun _ => inr mdq.

Definition noDuration : string -> error + Time.Duration :=
  fun _ => inl (errorString "time: invalid duration").

(** A decoded query with the members the examples vary; every other
    member is absent from the JSON. *)
Definition rawQuery (id period queryType alias : string)
    (statistic : option string) (statistics : option (list (option string)))
    (hide : option bool) (dimensions : gmap string JSONValue)
  : metricsDataQuery.t :=
  metricsDataQuery.mk dimensions "" None id None None "CPUUtilization" 0%N
    "AWS/EC2" period "us-east-1" "" statistic statistics "" queryType hide
    alias None.

(** The call of [ParseMetricDataQueries] in the examples: reference id
    [refId], a time range of 4000 s that started 4000 s ago, no entropy
    unless given. *)
Definition parseExample (refId : string) (entropy : list ascii)
    (mdq : metricsDataQuery.t) : result CloudWatchQuery.t :=
  ParseMetricDataQueries noDuration (decodeAs mdq)
    (DataQuery.mk refId "{}") [] 0%Z (4000 * Time.Second)%Z
    (4000 * Time.Second)%Z entropy "us-east-1" true false.

(** The decoded forms of
    [{"queryType":"timeSeriesQuery","period":"300","statistic":"Average"}],
    of the same with the [queryType] "logAction",
    of [{"period":"300","statistic":"Average","hide":true}] and
    of [{"queryType":"timeSeriesQuery","period":"300","statistics":[]}]
    (the other members are those of [rawQuery]). *)
Definition plainQuery : metricsDataQuery.t :=
  rawQuery "" "300" timeSeriesQuery "" (Some "Average") None None ∅.
Definition logsQuery : metricsDataQuery.t :=
  rawQuery "" "300" "logAction" "" (Some "Average") None None ∅.
Definition hiddenUntyped : metricsDataQuery.t :=
  rawQuery "" "300" "" "" (Some "Average") None (Some true) ∅.
Definition emptyStatistics : metricsDataQuery.t :=
  rawQuery "" "300" timeSeriesQuery "" None (Some []) None ∅.

(** The struct literal of [ParseMetricDataQueries] for [refId] and [mdq]. *)
Definition freshQuery (refId : string) (mdq : metricsDataQuery.t)
  : CloudWatchQuery.t :=
  CloudWatchQuery.mk refId (metricsDataQuery.Region mdq)
    (metricsDataQuery.Id mdq) (metricsDataQuery.Namespace mdq)
    (metricsDataQuery.MetricName mdq) ""
    (metricsDataQuery.Expression mdq) (metricsDataQuery.SqlExpression mdq)
    false ∅ 0%Z (metricsDataQuery.Alias mdq) "" false ""
    (metricsDataQuery.TimezoneUTCOffset mdq)
    (metricsDataQuery.MetricQueryType mdq) 0%N None.

(** Stand-ins for the collaborators of the framing pipeline in the
    examples: columns are strings; the framer fails on an empty text and
    otherwise yields one column holding the text; no column is computed;
    the filter "bad" fails; the summary empties the frame; every frame is
    long and is reshaped into the single column "wide". *)
Definition toyCsv (text : string) (options : Infinity.CSVFramerOptions)
  : option (Infinity.Frame string) * option error :=
  if String.eqb text "" then (None, Some (errorString "empty input"))
  else (Some (Infinity.mkFrame string [text] None), None).

Definition toyColumns (fields : list string)
    (columns : list Infinity.InfinityColumn) : error + list string :=
  inr fields.

Definition toyFilter (fields : list string) (expression : string)
  : error + list string :=
  if String.eqb expression "bad" then inl (errorString "cannot evaluate")
  else inr fields.

Definition toySummary (frame : Infinity.Frame string) (expression by_ : string)
  : option (Infinity.Frame string) * option error :=
  (Some (Infinity.mkFrame string [] (Infinity.Meta string frame)), None).

Definition toyShape (frame : Infinity.Frame string) : Infinity.TimeSeriesType :=
  Infinity.TimeSeriesTypeLong.

Definition toyReshape (frame : Infinity.Frame string)
  : option (Infinity.Frame string) * option error :=
  (Some (Infinity.mkFrame string ["wide"] None), None).

Definition toyPipeline : string -> Infinity.Query ->
    result (option (Infinity.Frame string) * option error) :=
  Infinity.GetCSVBackendResponse string "tsv" toyCsv toyColumns toyFilter
    toySummary toyShape toyReshape.

Definition toyQueryWith (filter summarize format : string) : Infinity.Query :=
  Infinity.mkQuery "A" "csv" format [] [] filter summarize ""
    (Infinity.mkInfinityCSVOptions "," "" false false "").

Definition toyQuery : Infinity.Query := toyQueryWith "" "" "table".

(** The frame the three stages yield for the columns [fields]. *)
Definition toyFrame (fields : list string) (query : Infinity.Query)
  : Infinity.Frame string :=
  Infinity.mkFrame string fields
    (Some (Infinity.mkFrameMeta (Some (Infinity.mkCustomMeta query "")))).

(** More decoded queries for the examples:
    [{"queryType":"timeSeriesQuery","period":"300","statistic":"Average",
      "region":"default","hide":true,"expression":"SEARCH(x)"}],
    a query with the dimensions [{"InstanceId":["i-1","i-2"],"Zone":"a"}]
    and one with the period "5m", no statistic and a null dimension. *)
Definition hiddenQuery : metricsDataQuery.t :=
  metricsDataQuery.mk ∅ "SEARCH(x)" None "" None None "CPUUtilization" 0%N
    "AWS/EC2" "300" "default" "" (Some "Average") None "" timeSeriesQuery
    (Some true) "" None.

Definition dimensionQuery : metricsDataQuery.t :=
  rawQuery "" "300" timeSeriesQuery "" (Some "Average") None None
    {[ "InstanceId" := JArray [JString "i-1"; JString "i-2"];
       "Zone" := JString "a" ]}.

Definition brokenQuery : metricsDataQuery.t :=
  rawQuery "" "5m" timeSeriesQuery "" None None None {[ "Zone" := JNull ]}.

(** A duration parser for the examples that knows "5m" only. *)
Definition fiveMinutes : string -> error + Time.Duration :=
  fun s => if String.eqb s "5m" then inr (300 * Time.Second)%Z
           else inl (errorString "time: invalid duration").

(** Stand-ins for the libraries behind the deep link in the examples:
    times are not printed, the link is marshalled to "{}", a URL is its
    text and the values of its query are kept as a list. *)
Definition toyDeepLink (order : list (string * list string))
    (q : CloudWatchQuery.t) (startTime endTime : Time.Time)
    (dynamicLabelEnabled : bool) : result string :=
  BuildDeepLinkIn (fun _ => "") (fun _ => inr "{}") string
    (list (string * string)) (fun text => inr text) (fun _ => [])
    (fun key value values => (key, value) :: values)
    (fun values => String.concat "&" (values.*1))
    (fun rawQuery url => url +:+ "?" +:+ rawQuery) (fun url => url)
    order q startTime endTime dynamicLabelEnabled.

(** A metric-stat query with the dimensions [dims]. *)
Definition statQuery (dims : gmap string (list string)) : CloudWatchQuery.t :=
  builderSearch dims true None.

(** Pages of metrics for the examples: a page is the list of its metrics
    and the list of its owning accounts. *)
Definition toyPage : Type := list string * list (option string).

Definition toyListMetrics (pages : list (toyPage * bool))
    (includeLinkedAccounts : option bool)
  : result (list (Clients.MetricResponse string) * option error) :=
  Clients.ListMetricsWithPageLimit string toyPage snd (fun page => inr page.1)
    pages None includeLinkedAccounts.

(** The listing of metrics, for the statements: the pages the function
    of [ListMetricsWithPageLimit] gets to see, up to the first one
    flagged as the last and no more than [limit], and the responses made
    of one page when no index is out of range. *)
Fixpoint consumedPages {Page : Type} (limit : nat) (pages : list (Page * bool))
  : list Page :=
  match limit, pages with
  | S n, (page, lastPage) :: rest =>
      page :: (if lastPage then [] else consumedPages n rest)
  | _, _ => []
  end.

Section Listing.
Variable Metric : Type.
Variable ListMetricsOutput : Type.
Variable OwningAccounts : ListMetricsOutput -> list (option string).
Variable ValuesAtPath_Metrics : ListMetricsOutput -> error + list Metric.

Definition pageResponses (includeLinkedAccounts : bool)
    (page : ListMetricsOutput) : list (Clients.MetricResponse Metric) :=
  match ValuesAtPath_Metrics page with
  | inl _ => []
  | inr metrics =>
      if includeLinkedAccounts
      then zip_with (Clients.mkMetricResponse Metric) metrics
             (OwningAccounts page)
      else (fun metric => Clients.mkMetricResponse Metric metric None)
           <$> metrics
  end.
End Listing.

End Spec.

(** * Properties *)

(** ** Query classification *)

Section Classification.
Import Go Models Spec.

Lemma searchValues_spec (values : list string) :
  searchValues values = true <-> (1 < length values \/ "*" ∈ values).
Proof.
  unfold searchValues. rewrite orb_true_iff, Nat.ltb_lt, existsb_exists.
  split; (intros [H | H]; [left; exact H | right]).
  - destruct H as (x & Hin & Heq). apply String.eqb_eq in Heq. subst x.
    by apply list_elem_of_In.
  - exists "*". split; [by apply list_elem_of_In | apply String.eqb_refl].
Qed.

Lemma rangeSearch_spec (m : gmap string (list string)) :
  rangeSearch (map_to_list m) = true
  <-> exists k values, m !! k = Some values
                       /\ (1 < length values \/ "*" ∈ values).
Proof.
  unfold rangeSearch. rewrite existsb_exists. split.
  - intros ([k values] & Hin & Hs). exists k, values. split.
    + by apply elem_of_map_to_list, list_elem_of_In.
    + by apply searchValues_spec.
  - intros (k & values & Hk & Hs). exists (k, values). split.
    + by apply list_elem_of_In, elem_of_map_to_list.
    + by apply searchValues_spec.
Qed.

(** The outcome of the loop does not depend on the order in which Go
    happens to range over the map. *)
Lemma rangeSearch_order (l1 l2 : list (string * list string)) :
  l1 ≡ₚ l2 -> rangeSearch l1 = rangeSearch l2.
Proof.
  intros Hp. unfold rangeSearch.
  apply eq_true_iff_eq. rewrite !existsb_exists.
  split; intros (x & Hin & Hx); exists x; split; try done;
    apply list_elem_of_In; apply list_elem_of_In in Hin.
  - by rewrite <- Hp.
  - by rewrite Hp.
Qed.

Lemma size_zero_empty (m : gmap string (list string)) :
  (size m =? 0)%nat = true <-> m = ∅.
Proof. rewrite Nat.eqb_eq. apply map_size_empty_iff. Qed.

Lemma IsInferredSearchExpression_spec (q : CloudWatchQuery.t) :
  CloudWatchQuery.MetricQueryType q = MetricQueryTypeSearch ->
  CloudWatchQuery.MetricEditorMode q = MetricEditorModeBuilder ->
  IsInferredSearchExpression q = true <-> inferredSearchSpec q.
Proof.
  intros Hqt Hem. unfold IsInferredSearchExpression, inferredSearchSpec.
  rewrite Hqt, Hem. simpl.
  assert (Hacc : match CloudWatchQuery.AccountId q with
                 | Some a => String.eqb a "all"
                 | None => false
                 end = true <-> CloudWatchQuery.AccountId q = Some "all").
  { destruct (CloudWatchQuery.AccountId q) as [a |]; [| done].
    rewrite String.eqb_eq. split; congruence. }
  destruct (match CloudWatchQuery.AccountId q with
            | Some a => String.eqb a "all"
            | None => false
            end).
  { split; [intros _; left; by apply Hacc | done]. }
  assert (Hno : CloudWatchQuery.AccountId q <> Some "all").
  { intros H. apply Hacc in H. done. }
  pose proof (size_zero_empty (CloudWatchQuery.Dimensions q)) as Hsz.
  destruct (size (CloudWatchQuery.Dimensions q) =? 0)%nat.
  - assert (He : CloudWatchQuery.Dimensions q = ∅) by by apply Hsz.
    destruct (CloudWatchQuery.MatchExact q); simpl.
    + split; [done |]. intros [? | [[_ ?] | [[_ ?] | [_ H]]]]; try done.
      destruct H as (k & values & Hk & _). rewrite He in Hk.
      by rewrite lookup_empty in Hk.
    + split; [intros _; right; left; done | done].
  - assert (He : CloudWatchQuery.Dimensions q <> ∅).
    { intros H. apply Hsz in H. done. }
    destruct (CloudWatchQuery.MatchExact q); simpl.
    + rewrite rangeSearch_spec. split.
      * intros H. do 3 right. done.
      * intros [? | [[_ ?] | [[_ ?] | [_ H]]]]; done.
    + split; [intros _; right; right; left; done | done].
Qed.

Lemma GetGMDAPIMode_sameShape (q q' : CloudWatchQuery.t) :
  sameShape q q' -> GetGMDAPIMode q = GetGMDAPIMode q'.
Proof.
  intros (Hqt & Hem & Hd & Hme & Hacc).
  unfold GetGMDAPIMode, IsInferredSearchExpression.
  by rewrite Hqt, Hem, Hd, Hme, Hacc.
Qed.

(** C1: the execution mode is a function of query type, editor mode,
    dimensions, match-exact and account id alone, decided in this order:
    Search and Builder give InferredSearchExpression exactly when the
    inferred-search predicate of the specification holds and MetricStat
    otherwise; Search and Raw give MathExpression; Query gives
    SQLExpression; every other combination falls back to MetricStat. *)
Theorem C1_classification (q : CloudWatchQuery.t) :
  (forall q', sameShape q q' -> GetGMDAPIMode q = GetGMDAPIMode q')
  /\ (CloudWatchQuery.MetricQueryType q = MetricQueryTypeSearch ->
      CloudWatchQuery.MetricEditorMode q = MetricEditorModeBuilder ->
      (GetGMDAPIMode q = GMDApiModeInferredSearchExpression
       <-> inferredSearchSpec q)
      /\ (~ inferredSearchSpec q -> GetGMDAPIMode q = GMDApiModeMetricStat))
  /\ (CloudWatchQuery.MetricQueryType q = MetricQueryTypeSearch ->
      CloudWatchQuery.MetricEditorMode q = MetricEditorModeRaw ->
      GetGMDAPIMode q = GMDApiModeMathExpression)
  /\ (CloudWatchQuery.MetricQueryType q = MetricQueryTypeQuery ->
      GetGMDAPIMode q = GMDApiModeSQLExpression)
  /\ (~ (CloudWatchQuery.MetricQueryType q = MetricQueryTypeSearch
         /\ CloudWatchQuery.MetricEditorMode q = MetricEditorModeBuilder) ->
      ~ (CloudWatchQuery.MetricQueryType q = MetricQueryTypeSearch
         /\ CloudWatchQuery.MetricEditorMode q = MetricEditorModeRaw) ->
      CloudWatchQuery.MetricQueryType q <> MetricQueryTypeQuery ->
      GetGMDAPIMode q = GMDApiModeMetricStat).
Proof.
  split; [intros q'; apply GetGMDAPIMode_sameShape |].
  split; [| split; [| split]].
  - intros Hqt Hem.
    pose proof (IsInferredSearchExpression_spec q Hqt Hem) as Hspec.
    unfold GetGMDAPIMode. rewrite Hqt, Hem. simpl.
    destruct (IsInferredSearchExpression q).
    + split; [split; [intros _; by apply Hspec | done] |].
      intros Hn. exfalso. apply Hn. by apply Hspec.
    + split; [split; [done |] | done].
      intros H. apply Hspec in H. done.
  - intros Hqt Hem. unfold GetGMDAPIMode. by rewrite Hqt, Hem.
  - intros Hqt. unfold GetGMDAPIMode. by rewrite Hqt.
  - intros Hb Hr Hq. unfold GetGMDAPIMode.
    destruct (N.eqb_spec (CloudWatchQuery.MetricQueryType q) MetricQueryTypeSearch) as [Hs | Hs];
      destruct (N.eqb_spec (CloudWatchQuery.MetricEditorMode q) MetricEditorModeBuilder);
      destruct (N.eqb_spec (CloudWatchQuery.MetricEditorMode q) MetricEditorModeRaw);
      destruct (N.eqb_spec (CloudWatchQuery.MetricQueryType q) MetricQueryTypeQuery);
      simpl; try done; exfalso; first [by apply Hb | by apply Hr].
Qed.

Lemma C1_classification_witness :
  GetGMDAPIMode (builderSearch {[ "InstanceId" := ["i-1"; "i-2"] ]} true None)
  = GMDApiModeInferredSearchExpression.
Proof.
  apply (proj1 (proj1 (proj2 (C1_classification
           (builderSearch {[ "InstanceId" := ["i-1"; "i-2"] ]} true None)))
           eq_refl eq_refl)).
  do 3 right. split; [reflexivity |].
  exists "InstanceId", ["i-1"; "i-2"]. split.
  - apply lookup_singleton_eq.
  - left. simpl. lia.
Defined.
End Classification.

(** ** Normalization: identifier, ReturnData, rejection, statistic *)

Section RandomSuffix.
Import Go Spec.

Lemma replaceAll_hyphen (s : string) :
  occurs "-" (Strings.ReplaceAll s "-" "") = false.
Proof.
  unfold Strings.ReplaceAll. induction s as [| c s IH]; [done |].
  cbn [Strings.replaceFrom Strings.HasPrefix String.length Nat.sub].
  destruct (Ascii.eqb_spec "-" c) as [<- | Hne]; cbn [andb].
  - exact IH.
  - cbn [occurs]. rewrite IH.
    destruct (Ascii.eqb_spec c "-"); [congruence | done].
Qed.

Lemma replaceAll_hyphen_head (c : ascii) (s : string) :
  c <> "-"%char ->
  Strings.ReplaceAll (String c s) "-" ""
  = String c (Strings.ReplaceAll s "-" "").
Proof.
  intros Hne. unfold Strings.ReplaceAll.
  cbn [Strings.replaceFrom Strings.HasPrefix].
  destruct (Ascii.eqb_spec "-" c); [congruence | done].
Qed.

Lemma hexDigit_high (b : ascii) :
  UUID.hexDigit (N_of_ascii b / 16) <> "-"%char.
Proof. destruct b as [[] [] [] [] [] [] [] []]; vm_compute; discriminate. Qed.

(** The text of a UUID starts with a hexadecimal digit. *)
Lemma NewString_head (entropy : list ascii) (newUUID : string) :
  UUID.NewString entropy = Ok newUUID ->
  exists c rest, newUUID = String c rest /\ c <> "-"%char.
Proof.
  unfold UUID.NewString.
  destruct (length entropy <? 16)%nat eqn:Hlen; [done |].
  apply Nat.ltb_ge in Hlen.
  do 16 (destruct entropy as [| ? entropy]; [simpl in Hlen; lia |]).
  intros [= <-]. simpl. eexists _, _. split; [reflexivity |].
  apply hexDigit_high.
Qed.

Lemma random_suffix (entropy : list ascii) (newUUID : string) :
  UUID.NewString entropy = Ok newUUID ->
  Strings.ReplaceAll newUUID "-" "" <> ""
  /\ occurs "-" (Strings.ReplaceAll newUUID "-" "") = false.
Proof.
  intros H. split; [| apply replaceAll_hyphen].
  destruct (NewString_head _ _ H) as (c & rest & -> & Hc).
  by rewrite replaceAll_hyphen_head.
Qed.
End RandomSuffix.

Section Normalization.
Import Go Models Spec.
Variable ParseDuration : string -> error + Time.Duration.
Variable json_Unmarshal : string -> error + metricsDataQuery.t.

(** Case analysis on the members that steer the straight-line tail of
    [validateAndSetDefaults]. *)
Local Ltac defaults_cases mdq :=
  destruct (metricsDataQuery.Hide mdq) as [[] |],
    (metricsDataQuery.MatchExact mdq) as [[] |],
    (String.eqb (metricsDataQuery.QueryType mdq) ""),
    (metricsDataQuery.MetricEditorMode mdq),
    (0 <? String.length (metricsDataQuery.Expression mdq))%nat;
  simpl;
  match goal with
  | |- context [String.eqb ?r defaultRegion] =>
      destruct (String.eqb r defaultRegion)
  end;
  simpl.

(** What [validateAndSetDefaults] leaves in the fields decided by the
    decoded query alone, whenever it returns nil. *)
Lemma validateAndSetDefaults_Ok q refId mdq startTime endTime now entropy
    defaultRegionValue cross q' :
  validateAndSetDefaults ParseDuration q refId mdq startTime endTime now
    entropy defaultRegionValue cross = Ok q' ->
  CloudWatchQuery.ReturnData q'
  = (String.eqb (metricsDataQuery.QueryType mdq) ""
     || negb (default false (metricsDataQuery.Hide mdq)))
  /\ CloudWatchQuery.MatchExact q'
     = default true (metricsDataQuery.MatchExact mdq)
  /\ (metricsDataQuery.Id mdq <> "" -> CloudWatchQuery.Id q' = CloudWatchQuery.Id q)
  /\ (metricsDataQuery.Id mdq = "" ->
      if Regexp.validMetricDataID refId
      then CloudWatchQuery.Id q' = "query" +:+ refId
      else exists newUUID,
          UUID.NewString entropy = Ok newUUID
          /\ CloudWatchQuery.Id q'
             = "query" +:+ Strings.ReplaceAll newUUID "-" "").
Proof.
  unfold validateAndSetDefaults.
  destruct (bool_decide _ && bool_decide _); [done |].
  destruct (getPeriod _ _ _ _ _) as [period | |]; simpl; [| done | done].
  destruct (parseDimensions _) as [dims | |]; [| done | done].
  destruct (String.eqb_spec (metricsDataQuery.Id mdq) "") as [Hid | Hid].
  - destruct (Regexp.validMetricDataID refId); simpl.
    + intros [= <-]. repeat split; try done; defaults_cases mdq; done.
    + destruct (UUID.NewString entropy) as [newUUID | |]; simpl; [| done | done].
      intros [= <-]. repeat split; try done.
      1,2: defaults_cases mdq; done.
      intros _. exists newUUID. split; [done |].
      defaults_cases mdq; destruct cross; done.
  - simpl. intros [= <-]. repeat split; try done.
    1,2: defaults_cases mdq; done.
    intros _. defaults_cases mdq; destruct cross; done.
Qed.

(** The default region is written into a copy of the decoded query; no
    other member changes. *)
Local Ltac region_cases mdq :=
  destruct (String.eqb (metricsDataQuery.Region mdq) ""); simpl.

(** A resolved query comes out only through the time-series branch. *)
Lemma ParseMetricDataQueries_Ok q dataQueries startTime endTime now entropy
    defaultRegionParam dyn cross mdq cw :
  json_Unmarshal (DataQuery.JSON q) = inr mdq ->
  ParseMetricDataQueries ParseDuration json_Unmarshal q dataQueries startTime
    endTime now entropy defaultRegionParam dyn cross = Ok cw ->
  metricsDataQuery.QueryType mdq = timeSeriesQuery
  /\ exists mdq' cw0 cw1 statistic,
      metricsDataQuery.QueryType mdq' = metricsDataQuery.QueryType mdq
      /\ metricsDataQuery.Hide mdq' = metricsDataQuery.Hide mdq
      /\ metricsDataQuery.Id mdq' = metricsDataQuery.Id mdq
      /\ metricsDataQuery.Statistic mdq' = metricsDataQuery.Statistic mdq
      /\ metricsDataQuery.Statistics mdq' = metricsDataQuery.Statistics mdq
      /\ CloudWatchQuery.Id cw0 = metricsDataQuery.Id mdq
      /\ validateAndSetDefaults ParseDuration cw0 (DataQuery.RefID q) mdq'
           startTime endTime now entropy defaultRegionParam cross
         = Ok cw1
      /\ getStatistic mdq' = Ok statistic
      /\ cw = CloudWatchQuery.setLabel (getLabel mdq' dyn)
                (CloudWatchQuery.setStatistic statistic cw1).
Proof.
  intros Hdec. unfold ParseMetricDataQueries. rewrite Hdec.
  set (mdq' := if String.eqb (metricsDataQuery.Region mdq) "" then _ else _).
  assert (Hsame : metricsDataQuery.QueryType mdq' = metricsDataQuery.QueryType mdq
                  /\ metricsDataQuery.Hide mdq' = metricsDataQuery.Hide mdq
                  /\ metricsDataQuery.Id mdq' = metricsDataQuery.Id mdq
                  /\ metricsDataQuery.Statistic mdq' = metricsDataQuery.Statistic mdq
                  /\ metricsDataQuery.Statistics mdq' = metricsDataQuery.Statistics mdq).
  { subst mdq'. by region_cases mdq. }
  destruct Hsame as (Hqt & Hh & Hid & Hs & Hss).
  destruct (String.eqb_spec (metricsDataQuery.QueryType mdq') timeSeriesQuery)
    as [Hts | Hts]; [| done].
  match goal with
  | |- context [validateAndSetDefaults _ ?c _ _ _ _ _ _ _ _] => set (cw0 := c)
  end.
  destruct (validateAndSetDefaults _ _ _ _ _ _ _ _ _ _) as [cw1 | |] eqn:Hv;
    [| done | done].
  unfold migrateLegacyQuery.
  destruct (getStatistic mdq') as [statistic | |] eqn:Hst; simpl; [| done | done].
  intros [= <-]. split; [congruence |].
  exists mdq', cw0, cw1, statistic. repeat split; done.
Qed.

(** C3: with no explicit id, a reference id matching
    [^[a-z][a-zA-Z0-9_]*$] gives the identifier "query" followed by
    the reference id; any other reference id gives "query" followed by
    a generated suffix that is not empty and has no hyphen; an explicit
    id is kept. *)
Theorem C3_identifier q dataQueries startTime endTime now entropy
    defaultRegionParam dyn cross mdq cw :
  json_Unmarshal (DataQuery.JSON q) = inr mdq ->
  ParseMetricDataQueries ParseDuration json_Unmarshal q dataQueries startTime
    endTime now entropy defaultRegionParam dyn cross = Ok cw ->
  (metricsDataQuery.Id mdq = "" ->
   Regexp.validMetricDataID (DataQuery.RefID q) = true ->
   CloudWatchQuery.Id cw = "query" +:+ DataQuery.RefID q)
  /\ (metricsDataQuery.Id mdq = "" ->
      Regexp.validMetricDataID (DataQuery.RefID q) = false ->
      exists suffix,
        CloudWatchQuery.Id cw = "query" +:+ suffix
        /\ suffix <> "" /\ occurs "-" suffix = false)
  /\ (metricsDataQuery.Id mdq <> "" ->
      CloudWatchQuery.Id cw = metricsDataQuery.Id mdq).
Proof.
  intros Hdec Hok.
  destruct (ParseMetricDataQueries_Ok _ _ _ _ _ _ _ _ _ _ _ Hdec Hok)
    as (_ & mdq' & cw0 & cw1 & statistic & _ & _ & Hid & _ & _ & Hid0 & Hv & _ & ->).
  apply validateAndSetDefaults_Ok in Hv as (_ & _ & Hkeep & Hnew).
  rewrite Hid in Hkeep, Hnew. simpl. repeat split.
  - intros He Hm. specialize (Hnew He). by rewrite Hm in Hnew.
  - intros He Hm. specialize (Hnew He). rewrite Hm in Hnew.
    destruct Hnew as (newUUID & Hu & ->).
    eexists. split; [reflexivity |]. by apply (random_suffix entropy).
  - intros Hne. rewrite (Hkeep Hne). exact Hid0.
Qed.

(** C5, as amended: a decoded query whose [queryType] is not the marker
    "timeSeriesQuery" yields no resolved query but the plain error
    "its not a time series query"; that error, which is not wrapped in
    a [QueryError], is returned in no other case. *)
Theorem C5_not_time_series q dataQueries startTime endTime now entropy
    defaultRegionParam dyn cross mdq :
  json_Unmarshal (DataQuery.JSON q) = inr mdq ->
  ParseMetricDataQueries ParseDuration json_Unmarshal q dataQueries startTime
    endTime now entropy defaultRegionParam dyn cross
  = Err (errorString "its not a time series query")
  <-> metricsDataQuery.QueryType mdq <> timeSeriesQuery.
Proof.
  intros Hdec. unfold ParseMetricDataQueries. rewrite Hdec.
  set (mdq' := if String.eqb (metricsDataQuery.Region mdq) "" then _ else _).
  assert (Hqt : metricsDataQuery.QueryType mdq' = metricsDataQuery.QueryType mdq).
  { subst mdq'. by region_cases mdq. }
  rewrite Hqt.
  destruct (String.eqb_spec (metricsDataQuery.QueryType mdq) timeSeriesQuery)
    as [Hts | Hts]; [| done].
  split; [| done].
  destruct (validateAndSetDefaults _ _ _ _ _ _ _ _ _ _) as [cw1 | |].
  2,3: intros H; discriminate H.
  unfold migrateLegacyQuery, getStatistic.
  destruct (metricsDataQuery.Statistic mdq');
    [| destruct (metricsDataQuery.Statistics mdq') as [[| [] ?] |]];
    simpl; intros H; discriminate H.
Qed.

(** For a resolved query, ReturnData is false exactly when [hide] is
    explicitly true. *)
Lemma ParseMetricDataQueries_ReturnData q dataQueries startTime endTime now
    entropy defaultRegionParam dyn cross mdq cw :
  json_Unmarshal (DataQuery.JSON q) = inr mdq ->
  ParseMetricDataQueries ParseDuration json_Unmarshal q dataQueries startTime
    endTime now entropy defaultRegionParam dyn cross = Ok cw ->
  CloudWatchQuery.ReturnData cw
  = negb (default false (metricsDataQuery.Hide mdq)).
Proof.
  intros Hdec Hok.
  destruct (ParseMetricDataQueries_Ok _ _ _ _ _ _ _ _ _ _ _ Hdec Hok)
    as (Hts & mdq' & cw0 & cw1 & statistic & Hqt & Hh & _ & _ & _ & _ & Hv & _ & ->).
  apply validateAndSetDefaults_Ok in Hv as (Hrd & _).
  simpl. rewrite Hrd, Hqt, Hh, Hts. done.
Qed.

(** C10: a query that has only an empty [statistics] list passes the
    presence check, and yet no statistic is defined for it: the lookup
    of the first element is out of range, so that the call never
    returns a resolved query, nor the error of the presence check. *)
Theorem C10_empty_statistics q dataQueries startTime endTime now entropy
    defaultRegionParam dyn cross mdq :
  json_Unmarshal (DataQuery.JSON q) = inr mdq ->
  metricsDataQuery.QueryType mdq = timeSeriesQuery ->
  metricsDataQuery.Statistic mdq = None ->
  metricsDataQuery.Statistics mdq = Some [] ->
  getStatistic mdq = Panic "index out of range [0] with length 0"
  /\ match ParseMetricDataQueries ParseDuration json_Unmarshal q dataQueries
             startTime endTime now entropy defaultRegionParam dyn cross with
     | Ok _ => False
     | Err e =>
         e <> QueryError
                (errorString "query must have either statistic or statistics field")
                (DataQuery.RefID q)
     | Panic _ => True
     end.
Proof.
  intros Hdec Hts Hs Hss. split.
  { unfold getStatistic. by rewrite Hs, Hss. }
  unfold ParseMetricDataQueries. rewrite Hdec.
  set (mdq' := if String.eqb (metricsDataQuery.Region mdq) "" then _ else _).
  assert (Hsame : metricsDataQuery.QueryType mdq' = metricsDataQuery.QueryType mdq
                  /\ metricsDataQuery.Statistic mdq' = metricsDataQuery.Statistic mdq
                  /\ metricsDataQuery.Statistics mdq' = metricsDataQuery.Statistics mdq).
  { subst mdq'. by region_cases mdq. }
  destruct Hsame as (Hqt & Hs' & Hss').
  rewrite Hqt, Hts. simpl.
  unfold validateAndSetDefaults, migrateLegacyQuery, getStatistic.
  rewrite Hs', Hss', Hs, Hss. simpl.
  unfold getPeriod.
  destruct (_ || _); simpl.
  2: destruct (Strconv.Atoi _); simpl;
       [| destruct (ParseDuration _); simpl; [intros [=] |]].
  all: destruct (parseDimensions _) as [dims | e |]; simpl; [| | done].
  all: try (intros [=]; done).
  all: destruct (String.eqb (metricsDataQuery.Id mdq') ""); simpl; [| done].
  all: destruct (Regexp.validMetricDataID _); simpl; [done |].
  all: unfold UUID.NewString; by destruct (length entropy <? 16)%nat.
Qed.
End Normalization.

Section NormalizationExamples.
Import Go Models Spec.

Lemma C3_identifier_witness :
  exists cw, parseExample "myRef" [] plainQuery = Ok cw
             /\ CloudWatchQuery.Id cw = "querymyRef".
Proof.
  eexists. split; [vm_compute; reflexivity |].
  apply (proj1 (C3_identifier noDuration (decodeAs plainQuery)
                  (DataQuery.mk "myRef" "{}") [] 0%Z (4000 * Time.Second)%Z
                  (4000 * Time.Second)%Z [] "us-east-1" true false
                  plainQuery _ eq_refl eq_refl) eq_refl eq_refl).
Defined.

(** With the reference id "A1", which does not match the pattern, and
    sixteen random bytes 0xab the identifier is "query" followed by the
    32 hexadecimal digits of the UUID. *)
Example identifier_generated :
  CloudWatchQuery.Id <$>
    (match parseExample "A1" (repeat "171"%char 16) plainQuery with
     | Ok cw => Some cw
     | _ => None
     end)
  = Some "queryabababababab4bababababababababab".
Proof. vm_compute. reflexivity. Qed.

(** C5, as stated, fails: for the [queryType] "logAction" the call
    returns a non-nil error, not a value that is no error. *)
Lemma C5_counterexample :
  metricsDataQuery.QueryType logsQuery <> timeSeriesQuery
  /\ exists err, parseExample "a" [] logsQuery = Err err.
Proof. split; [discriminate |]. eexists. vm_compute. reflexivity. Qed.

Lemma C5_not_time_series_witness :
  parseExample "a" [] logsQuery = Err (errorString "its not a time series query").
Proof.
  apply (proj2 (C5_not_time_series noDuration (decodeAs logsQuery)
                  (DataQuery.mk "a" "{}") [] 0%Z (4000 * Time.Second)%Z
                  (4000 * Time.Second)%Z [] "us-east-1" true false
                  logsQuery eq_refl)).
  discriminate.
Defined.

(** C7: a query without [queryType] and with [hide] true is rejected by
    [ParseMetricDataQueries], so that no ReturnData is forced for it,
    although [validateAndSetDefaults], given the same decoded query,
    sets ReturnData to true as its comment requires. *)
Theorem C7_absent_marker_rejected :
  parseExample "a" [] hiddenUntyped
  = Err (errorString "its not a time series query")
  /\ exists cw,
      validateAndSetDefaults noDuration (freshQuery "a" hiddenUntyped) "a"
        hiddenUntyped 0%Z (4000 * Time.Second)%Z (4000 * Time.Second)%Z []
        "us-east-1" false = Ok cw
      /\ CloudWatchQuery.ReturnData cw = true.
Proof.
  split; [vm_compute; reflexivity |].
  eexists. split; [vm_compute; reflexivity | reflexivity].
Qed.

Lemma C10_empty_statistics_witness :
  getStatistic emptyStatistics = Panic "index out of range [0] with length 0".
Proof.
  apply (proj1 (C10_empty_statistics noDuration (decodeAs emptyStatistics)
                  (DataQuery.mk "a" "{}") [] 0%Z (4000 * Time.Second)%Z
                  (4000 * Time.Second)%Z [] "us-east-1" true false
                  emptyStatistics eq_refl eq_refl eq_refl eq_refl)).
Defined.

(** The whole call on
    [{"queryType":"timeSeriesQuery","period":"300","statistics":[]}]. *)
Example empty_statistics_panic :
  parseExample "a" [] emptyStatistics
  = Panic "index out of range [0] with length 0".
Proof. vm_compute. reflexivity. Qed.

(** A null first element of [statistics] is dereferenced as well. *)
Example null_statistic_panic :
  parseExample "a" []
    (rawQuery "" "300" timeSeriesQuery "" None (Some [None]) None ∅)
  = Panic "invalid memory address or nil pointer dereference".
Proof. vm_compute. reflexivity. Qed.
End NormalizationExamples.

(** ** The framing pipeline *)

Section Framing.
Import Go Infinity.
Variable Field : Type.
Variable QueryTypeTSV : string.
Variable CsvStringToFrame :
  string -> CSVFramerOptions -> option (Frame Field) * option error.
Variable evalComputedColumns :
  list Field -> list InfinityColumn -> error + list Field.
Variable evalFilter : list Field -> string -> error + list Field.
Variable GetSummaryFrame :
  Frame Field -> string -> string -> option (Frame Field) * option error.
Variable TimeSeriesSchemaType : Frame Field -> TimeSeriesType.
Variable LongToWide : Frame Field -> option (Frame Field) * option error.

Local Abbreviation pipeline :=
  (GetCSVBackendResponse Field QueryTypeTSV CsvStringToFrame
     evalComputedColumns evalFilter GetSummaryFrame TimeSeriesSchemaType
     LongToWide).
Local Abbreviation fails :=
  (stageFails Field QueryTypeTSV CsvStringToFrame evalComputedColumns
     evalFilter).
Local Abbreviation yield :=
  (stagesYield Field QueryTypeTSV CsvStringToFrame evalComputedColumns
     evalFilter).

(** Both modelled stages hand back a frame with the metadata pointer of
    the frame they were given. *)
Lemma GetFrameWithComputedColumns_Meta frame columns frame' err :
  GetFrameWithComputedColumns Field evalComputedColumns frame columns
  = (frame', err) ->
  Meta Field frame' = Meta Field frame.
Proof.
  unfold GetFrameWithComputedColumns.
  destruct (evalComputedColumns _ _); by intros [= <- <-].
Qed.

Lemma ApplyFilter_Meta frame expression frame' err :
  ApplyFilter Field evalFilter frame expression = (frame', err) ->
  Meta Field frame' = Meta Field frame.
Proof.
  unfold ApplyFilter. destruct (String.eqb expression ""); [by intros [= <- <-] |].
  destruct (evalFilter _ _); by intros [= <- <-].
Qed.

Lemma parsedFrame_Meta query newFrame :
  Meta Field (parsedFrame Field query newFrame)
  = Some (mkFrameMeta (Some (mkCustomMeta query ""))).
Proof. unfold parsedFrame. by destruct newFrame. Qed.

Lemma assignCustom_Some custom frame meta :
  Meta Field frame = Some meta ->
  assignCustom Field custom frame
  = Ok (mkFrame Field (Fields Field frame) (Some (mkFrameMeta (Some custom)))).
Proof. unfold assignCustom. by intros ->. Qed.

(** C8: when the delimited parse, the computed columns or the row filter
    fails with the error [e], the pipeline returns a non-nil error (the
    error [e], wrapped in the case of the filter) and, with it, a frame
    whose metadata holds the query and the text of [e]. *)
Theorem C8_partial_failure responseString query e returned :
  fails responseString query e returned ->
  exists frame,
    pipeline responseString query = Ok (Some frame, Some returned)
    /\ Meta Field frame
       = Some (mkFrameMeta (Some (mkCustomMeta query (Error e)))).
Proof.
  intros Hfail. unfold GetCSVBackendResponse.
  destruct Hfail as [newFrame e Hcsv | newFrame frame e Hcsv Hcc
                    | newFrame frame frame' e Hcsv Hcc Hf]; rewrite Hcsv.
  - erewrite assignCustom_Some by apply parsedFrame_Meta.
    eexists. split; reflexivity.
  - rewrite Hcc. apply GetFrameWithComputedColumns_Meta in Hcc.
    rewrite parsedFrame_Meta in Hcc.
    erewrite assignCustom_Some by exact Hcc.
    eexists. split; reflexivity.
  - rewrite Hcc, Hf. apply GetFrameWithComputedColumns_Meta in Hcc.
    apply ApplyFilter_Meta in Hf. rewrite Hcc, parsedFrame_Meta in Hf.
    erewrite assignCustom_Some by exact Hf.
    eexists. split; reflexivity.
Qed.

(** C9: once the three stages have yielded [frame], a summarize
    expression that is not blank gives the result of the summarizer,
    whatever the reshape would do; a blank one gives the reshaped frame
    when the format is "timeseries", the shape is long and the reshape
    succeeds, and the frame itself with no error when the reshape fails
    or is not called for. *)
Theorem C9_summarize_or_reshape responseString query frame :
  yield responseString query frame ->
  let blank := Strings.TrimSpaceIsEmpty (SummarizeExpression query) in
  let long :=
    String.eqb (Format query) "timeseries"
    && match TimeSeriesSchemaType frame with
       | TimeSeriesTypeLong => true
       | _ => false
       end in
  (blank = false ->
   pipeline responseString query
   = Ok (GetSummaryFrame frame (SummarizeExpression query) (SummarizeBy query)))
  /\ (blank = true -> long = true ->
      forall wFrame, LongToWide frame = (wFrame, None) ->
      pipeline responseString query = Ok (wFrame, None))
  /\ (blank = true -> long = true ->
      forall wFrame err, LongToWide frame = (wFrame, Some err) ->
      pipeline responseString query = Ok (Some frame, None))
  /\ (blank = true -> long = false ->
      pipeline responseString query = Ok (Some frame, None)).
Proof.
  intros [newFrame frame0 frame' Hcsv Hcc Hf]. simpl.
  unfold GetCSVBackendResponse. rewrite Hcsv, Hcc, Hf.
  unfold summarizeOrReshape.
  repeat split.
  - by intros ->.
  - intros -> -> wFrame ->. done.
  - intros -> -> wFrame err ->. done.
  - by intros -> ->.
Qed.
End Framing.

Section FramingExamples.
Import Go Infinity Spec.

Lemma C8_partial_failure_witness :
  exists frame,
    toyPipeline "" toyQuery = Ok (Some frame, Some (errorString "empty input"))
    /\ Meta string frame
       = Some (mkFrameMeta (Some (mkCustomMeta toyQuery "empty input"))).
Proof.
  apply (C8_partial_failure string "tsv" toyCsv toyColumns toyFilter
           toySummary toyShape toyReshape "" toyQuery
           (errorString "empty input") (errorString "empty input")).
  apply (parseFails string "tsv" toyCsv toyColumns toyFilter "" toyQuery None).
  reflexivity.
Defined.

(** A filter that fails: the error is wrapped, the metadata keeps the
    text of the filter's own error, and the parsed column stays in the
    frame. *)
Example filter_failure :
  toyPipeline "a,b" (toyQueryWith "bad" "" "table")
  = Ok (Some (mkFrame string ["a,b"]
                (Some (mkFrameMeta
                         (Some (mkCustomMeta (toyQueryWith "bad" "" "table")
                                  "cannot evaluate"))))),
        Some (wrapError "error applying filter. cannot evaluate"
                (errorString "cannot evaluate"))).
Proof. reflexivity. Qed.

Lemma C9_summarize_or_reshape_witness :
  toyPipeline "a,b" (toyQueryWith "" " sum(a) " "timeseries")
  = Ok (toySummary (toyFrame ["a,b"] (toyQueryWith "" " sum(a) " "timeseries"))
          " sum(a) " "").
Proof.
  apply (proj1 (C9_summarize_or_reshape string "tsv" toyCsv toyColumns
                  toyFilter toySummary toyShape toyReshape "a,b"
                  (toyQueryWith "" " sum(a) " "timeseries")
                  (toyFrame ["a,b"] (toyQueryWith "" " sum(a) " "timeseries"))
                  (allStages string "tsv" toyCsv toyColumns toyFilter "a,b"
                     (toyQueryWith "" " sum(a) " "timeseries")
                     (Some (mkFrame string ["a,b"] None)) _ _
                     eq_refl eq_refl eq_refl))).
  reflexivity.
Defined.

(** With a blank summarize expression the long frame is reshaped. *)
Example reshape_applied :
  toyPipeline "a,b" (toyQueryWith "" "  " "timeseries")
  = Ok (Some (mkFrame string ["wide"] None), None).
Proof. reflexivity. Qed.
End FramingExamples.

(** ** The target of the automatic period in float64 *)

Section FloatTarget.
Import Go Models Spec.
Local Open Scope Z_scope.

Lemma digits2_size (p : positive) : digits2_pos p = Pos.size p.
Proof. induction p as [p IH | p IH |]; simpl; by rewrite ?IH. Qed.

Lemma size_range (p : positive) :
  2 ^ Z.pos (Pos.size p) <= 2 * Z.pos p /\ Z.pos p < 2 ^ Z.pos (Pos.size p).
Proof.
  pose proof (Pos.size_gt p) as Hgt. pose proof (Pos.size_le p) as Hle.
  apply Pos2Z.pos_lt_pos in Hgt. apply Pos2Z.pos_le_pos in Hle.
  rewrite Pos2Z.inj_pow in Hgt, Hle.
  change (Z.pos p~0) with (2 * Z.pos p) in Hle. done.
Qed.

Lemma size_bounds (p : positive) (d : Z) :
  2 ^ (d - 1) <= Z.pos p < 2 ^ d -> 0 < d -> Z.pos (Pos.size p) = d.
Proof.
  intros [Hlo Hhi] Hd. destruct (size_range p) as [Hle Hgt].
  remember (Z.pos (Pos.size p)) as n eqn:En.
  assert (Hn : 0 < n) by lia.
  assert (Hpow : forall x, 0 < x -> 2 ^ x = 2 * 2 ^ (x - 1)).
  { intros x Hx. replace x with (Z.succ (x - 1)) at 1 by lia.
    apply Z.pow_succ_r. lia. }
  destruct (Z.lt_trichotomy n d) as [Hlt | [Heq | Hgt']]; [| done |]; exfalso.
  - assert (2 ^ n <= 2 ^ (d - 1)) by (apply Z.pow_le_mono_r; lia). lia.
  - assert (2 ^ d <= 2 ^ (n - 1)) by (apply Z.pow_le_mono_r; lia).
    rewrite (Hpow n Hn) in Hle. lia.
Qed.

Lemma iter_xO (p j : positive) :
  Z.pos (Pos.iter xO p j) = Z.pos p * 2 ^ Z.pos j.
Proof.
  induction j as [| j IH] using Pos.peano_ind.
  - simpl. lia.
  - rewrite Pos.iter_succ, Pos2Z.inj_xO, IH, Pos2Z.inj_succ, Z.pow_succ_r by lia.
    lia.
Qed.

(** A mantissa of 53 bits with an exponent in range is not rounded. *)
Lemma round_aux_exact (s : bool) (m : positive) (e : Z) :
  2 ^ 52 <= Z.pos m < 2 ^ 53 -> -1074 <= e <= 971 ->
  binary_round_aux Float64.prec Float64.emax s (Z.pos m) e loc_Exact
  = S754_finite s m e.
Proof.
  intros Hm He.
  assert (Hd : Zdigits2 (Z.pos m) = 53).
  { cbn [Zdigits2]. rewrite digits2_size. by apply size_bounds. }
  unfold binary_round_aux, shr_fexp. rewrite Hd.
  unfold fexp, emin, Float64.prec, Float64.emax.
  replace (Z.max (53 + e - 53) (3 - 1024 - 53) - e) with 0 by lia.
  cbn [shr shr_record_of_loc shr_m loc_of_shr_record round_nearest_even].
  rewrite Hd.
  replace (Z.max (53 + e - 53) (3 - 1024 - 53) - e) with 0 by lia.
  cbn [shr shr_m]. destruct (Z.leb_spec e (1024 - 53)); [done | lia].
Qed.

(** The conversion of a positive integer below 2^53 is exact. *)
Lemma ofInt_pos (k : Z) :
  0 < k < 2 ^ 53 ->
  exists m e,
    Float64.ofInt k = S754_finite false m e
    /\ 2 ^ 52 <= Z.pos m < 2 ^ 53 /\ -52 <= e <= 0
    /\ Z.pos m = k * 2 ^ (- e).
Proof.
  intros Hk. destruct k as [| p |]; [lia | | lia].
  unfold Float64.ofInt, binary_normalize, binary_round.
  rewrite digits2_size. destruct (size_range p) as [Hle Hgt].
  remember (Z.pos (Pos.size p)) as d eqn:Ed.
  assert (Hd0 : 0 < d) by lia.
  assert (Hpow2 : 2 ^ d = 2 * 2 ^ (d - 1)).
  { replace d with (Z.succ (d - 1)) at 1 by lia. apply Z.pow_succ_r. lia. }
  assert (Hr : 2 ^ (d - 1) <= Z.pos p < 2 ^ d) by lia.
  assert (Hd : 0 < d <= 53).
  { split; [lia |].
    destruct (Z.le_gt_cases d 53) as [? | Hgt53]; [done |].
    assert (2 ^ 53 <= 2 ^ (d - 1)) by (apply Z.pow_le_mono_r; lia). lia. }
  unfold fexp, emin, Float64.prec, Float64.emax.
  replace (Z.max (d + 0 - 53) (3 - 1024 - 53)) with (d - 53) by lia.
  unfold shl_align.
  destruct (d - 53 - 0) as [| j | j] eqn:Hj; [| lia |].
  - exists p, 0. rewrite round_aux_exact; [| | lia].
    + replace (d - 53) with 0 by lia. repeat split; try lia.
      all: replace d with 53 in Hr by lia; simpl in *; lia.
    + replace d with 53 in Hr by lia. simpl in *. lia.
  - assert (Hpow : 2 ^ (d - 1) * 2 ^ Z.pos j = 2 ^ 52).
    { rewrite <- Z.pow_add_r by lia. f_equal. lia. }
    assert (Hpow' : 2 ^ d * 2 ^ Z.pos j = 2 ^ 53).
    { rewrite <- Z.pow_add_r by lia. f_equal. lia. }
    assert (Hj0 : 0 < 2 ^ Z.pos j) by (apply Z.pow_pos_nonneg; lia).
    exists (Pos.iter xO p j), (d - 53).
    rewrite round_aux_exact; rewrite ?iter_xO; [| nia | lia].
    repeat split; try nia; try lia.
    f_equal. f_equal. lia.
Qed.

Lemma pow2_split (a b : Z) : 0 <= a -> 0 <= b -> 2 ^ (a + b) = 2 ^ a * 2 ^ b.
Proof. intros. by apply Z.pow_add_r. Qed.

(** The last step of the rounding: a mantissa of 53 bits is kept, the
    mantissa 2^53 is halved. *)
Lemma renormalize (m1 e : Z) :
  2 ^ 52 <= m1 <= 2 ^ 53 -> -1074 <= e <= 970 ->
  exists M E,
    (let '(mrs, e') := shr_fexp Float64.prec Float64.emax m1 e loc_Exact in
     match shr_m mrs with
     | Z0 => S754_zero false
     | Z.pos m => if e' <=? Float64.emax - Float64.prec
                  then S754_finite false m e' else S754_infinity false
     | Z.neg _ => S754_nan
     end) = S754_finite false M E
    /\ e <= E <= e + 1 /\ Z.pos M * 2 ^ (E - e) = m1.
Proof.
  intros Hm He. destruct m1 as [| p |]; [lia | | lia].
  destruct (Z.lt_ge_cases (Z.pos p) (2 ^ 53)) as [Hlt | Hge].
  - assert (Hd : Zdigits2 (Z.pos p) = 53).
    { cbn [Zdigits2]. rewrite digits2_size. apply size_bounds; lia. }
    unfold shr_fexp. rewrite Hd. unfold fexp, emin, Float64.prec, Float64.emax.
    replace (Z.max (53 + e - 53) (3 - 1024 - 53) - e) with 0 by lia.
    cbn [shr shr_record_of_loc shr_m].
    exists p, e. destruct (Z.leb_spec e (1024 - 53)); [| lia].
    repeat split; try lia. replace (e - e) with 0 by lia. lia.
  - assert (p = 9007199254740992%positive) as -> by lia.
    exists 4503599627370496%positive, (e + 1).
    unfold shr_fexp.
    change (Zdigits2 (Z.pos 9007199254740992)) with 54.
    unfold fexp, emin, Float64.prec, Float64.emax.
    replace (Z.max (54 + e - 53) (3 - 1024 - 53) - e) with 1 by lia.
    cbn [shr iter_pos shr_record_of_loc shr_1 shr_m orb].
    destruct (Z.leb_spec (e + 1) (1024 - 53)); [| lia].
    repeat split; try lia. replace (e + 1 - e) with 1 by lia. done.
Qed.

Lemma round_aux_near (q e : Z) (l : location) :
  2 ^ 52 <= q < 2 ^ 54 -> -1074 <= e <= 900 ->
  exists M E,
    binary_round_aux Float64.prec Float64.emax false q e l
    = S754_finite false M E
    /\ e <= E <= e + 2
    /\ q - 2 <= Z.pos M * 2 ^ (E - e) <= q + 2
    /\ (l = loc_Exact -> Z.even q = true -> Z.pos M * 2 ^ (E - e) = q).
Proof.
  intros Hq He. destruct q as [| p |]; [lia | | lia].
  unfold binary_round_aux.
  destruct (Z.lt_ge_cases (Z.pos p) (2 ^ 53)) as [Hlt | Hge].
  - assert (Hd : Zdigits2 (Z.pos p) = 53).
    { cbn [Zdigits2]. rewrite digits2_size. apply size_bounds; lia. }
    unfold shr_fexp at 1. rewrite Hd. unfold fexp, emin, Float64.prec, Float64.emax.
    replace (Z.max (53 + e - 53) (3 - 1024 - 53) - e) with 0 by lia.
    cbn [shr].
    set (m1 := round_nearest_even _ _).
    assert (Hm1 : (m1 = Z.pos p \/ m1 = Z.pos p + 1)
                  /\ (l = loc_Exact -> m1 = Z.pos p)).
    { subst m1.
      destruct l as [| []];
        cbn [round_nearest_even loc_of_shr_record shr_record_of_loc shr_m];
        try destruct (Z.even (Z.pos p)).
      all: split; [auto | try (intros [=]); try done]. }
    destruct Hm1 as [Hm1 Hex].
    destruct (renormalize m1 e) as (M & E & Hr & HE & HV); [lia | lia |].
    exists M, E. split; [exact Hr |]. split; [lia |]. split; [lia |].
    intros Hl _. rewrite HV. by apply Hex.
  - assert (Hd : Zdigits2 (Z.pos p) = 54).
    { cbn [Zdigits2]. rewrite digits2_size. apply size_bounds; lia. }
    unfold shr_fexp at 1. rewrite Hd. unfold fexp, emin, Float64.prec, Float64.emax.
    replace (Z.max (54 + e - 53) (3 - 1024 - 53) - e) with 1 by lia.
    cbn [shr iter_pos].
    set (m1 := round_nearest_even _ _).
    assert (Hm1 : (Z.pos p - 1 <= 2 * m1 <= Z.pos p + 2)
                  /\ (l = loc_Exact -> Z.even (Z.pos p) = true ->
                      2 * m1 = Z.pos p)).
    { subst m1. destruct p as [p | p |]; [| | lia];
        destruct l as [| []]; cbn;
        (split; [try lia | try done]);
        try (destruct p; lia). }
    destruct Hm1 as [Hm1 Hex].
    destruct (renormalize m1 (e + 1)) as (M & E & Hr & HE & HV); [lia | lia |].
    exists M, E. split; [exact Hr |]. split; [lia |].
    assert (HVe : Z.pos M * 2 ^ (E - e) = 2 * m1).
    { replace (E - e) with (E - (e + 1) + 1) by lia.
      rewrite pow2_split by lia. change (2 ^ 1) with 2. lia. }
    rewrite HVe. split; [lia |]. intros Hl Hev. by apply Hex.
Qed.

Lemma ofInt_2000 :
  Float64.ofInt 2000 = S754_finite false 8796093022208000 (-42).
Proof. by vm_compute. Qed.

(** The integer of the conversion of a positive integer below 2^53. *)
Lemma toInt_ofInt (c : Z) :
  0 < c < 2 ^ 53 -> Float64.toInt (Float64.ofInt c) = c.
Proof.
  intros Hc. destruct (ofInt_pos c Hc) as (m & e & -> & Hm & He & Hv).
  unfold Float64.toInt, Float64.minInt64. cbn [cond_Zopp].
  assert (H2 : 0 < 2 ^ (- e)) by (apply Z.pow_pos_nonneg; lia).
  assert (Hval : (if 0 <=? e then Z.pos m * 2 ^ e else Z.pos m ÷ 2 ^ (- e)) = c).
  { destruct (Z.leb_spec 0 e).
    - replace e with 0 in * by lia. simpl in Hv. simpl. lia.
    - rewrite Hv. apply Z.quot_mul. lia. }
  rewrite Hval.
  destruct (Z.leb_spec (- 2 ^ 63) c); [| lia].
  destruct (Z.ltb_spec c (2 ^ 63)); [done | lia].
Qed.

Lemma ceiling_unique (M D T : Z) :
  0 < D -> (T - 1) * D < M <= T * D -> - ((- M) / D) = T.
Proof.
  intros HD HM.
  rewrite <- (Z.div_unique_pos (- M) D (- T) (T * D - M)); lia.
Qed.

(** [int(math.Ceil(x))] of a positive float64 with a fraction. *)
Lemma toInt_Ceil (M : positive) (E c : Z) :
  E < 0 -> - ((- Z.pos M) / 2 ^ (- E)) = c -> 0 < c < 2 ^ 53 ->
  Float64.toInt (Float64.Ceil (S754_finite false M E)) = c.
Proof.
  intros HE Hc Hr. unfold Float64.Ceil.
  destruct (Z.leb_spec 0 E); [lia |].
  rewrite Hc. by apply toInt_ofInt.
Qed.

(** The division by 2000 of a float64 with a full mantissa: the quotient
    of the mantissas, eleven binary places further down, then rounded. *)
Lemma div_2000 (m : positive) (e : Z) :
  2 ^ 52 <= Z.pos m < 2 ^ 53 -> -52 <= e <= 0 ->
  exists q l,
    0 <= 2048 * Z.pos m - 2000 * q < 2000
    /\ (2048 * Z.pos m = 2000 * q -> l = loc_Exact)
    /\ Float64.div (S754_finite false m e) (Float64.ofInt 2000)
       = binary_round_aux Float64.prec Float64.emax false q (e - 11) l.
Proof.
  intros Hm He. rewrite ofInt_2000.
  unfold Float64.div, SFdiv, SFdiv_core_binary.
  assert (Hd : Zdigits2 (Z.pos m) = 53).
  { cbn [Zdigits2]. rewrite digits2_size. by apply size_bounds. }
  rewrite Hd. change (Zdigits2 (Z.pos 8796093022208000)) with 53.
  unfold fexp, emin, Float64.prec, Float64.emax.
  replace (Z.min (Z.max (53 + e - (53 + -42) - 53) (3 - 1024 - 53)) (e - -42))
    with (e - 11) by lia.
  replace (e - -42 - (e - 11)) with 53 by lia.
  rewrite Z.shiftl_mul_pow2 by lia.
  pose proof (Z_div_mod (Z.pos m * 2 ^ 53) (Z.pos 8796093022208000) eq_refl)
    as Hdm.
  destruct (Z.div_eucl (Z.pos m * 2 ^ 53) (Z.pos 8796093022208000))
    as [q r] eqn:Hqr.
  destruct Hdm as [Hdm Hr].
  exists q, (new_location (Z.pos 8796093022208000) r).
  split; [lia |]. split; [| done].
  intros Hex. assert (r = 0) as -> by lia. done.
Qed.

(** The seconds of a whole number of seconds. *)
Lemma Seconds_whole (k : Z) :
  0 < k < 2 ^ 53 -> Time.Seconds (k * Time.Second) = Float64.ofInt k.
Proof.
  intros Hk. unfold Time.Seconds.
  rewrite Z.quot_mul, Z.rem_mul by done.
  by destruct (ofInt_pos k Hk) as (m & e & -> & _).
Qed.

(** For a range of a whole number of seconds the float64 computation of
    the target is exact: it gives the ceiling of the seconds over 2000. *)
Lemma datapoints_whole_seconds (k : Z) :
  0 <= k < 2 ^ 51 -> datapointsOf (k * Time.Second) = - ((- k) / 2000).
Proof.
  intros Hk. destruct (Z.eq_dec k 0) as [-> | Hk0]; [by vm_compute |].
  unfold datapointsOf. rewrite Seconds_whole by lia.
  destruct (ofInt_pos k ltac:(lia)) as (m & e & -> & Hm & He & Hv).
  set (A := 2 ^ (- e)) in *.
  assert (HA : 4 <= A).
  { destruct (Z.le_gt_cases e (-2)) as [Hle | Hgt].
    - change 4 with (2 ^ 2). apply Z.pow_le_mono_r; lia.
    - exfalso. assert (e = 0 \/ e = -1) as [-> | ->] by lia;
        subst A; simpl in Hv; lia. }
  assert (He2 : e <= -2).
  { destruct (Z.le_gt_cases e (-2)) as [Hle | Hgt]; [done |].
    exfalso. assert (e = 0 \/ e = -1) as [-> | ->] by lia;
      subst A; simpl in HA; lia. }
  destruct (div_2000 m e Hm He) as (q & l & Hq & Hl & ->).
  destruct (round_aux_near q (e - 11) l ltac:(lia) ltac:(lia))
    as (M & E & -> & HE & HW & Hex).
  set (T := - ((- k) / 2000)).
  assert (HT : (T - 1) * 2000 < k <= T * 2000).
  { subst T. pose proof (Z.div_mod (- k) 2000 ltac:(lia)).
    pose proof (Z.mod_pos_bound (- k) 2000 ltac:(lia)). lia. }
  assert (HN : 2 ^ (E - (e - 11)) * 2 ^ (- E) = 2048 * A).
  { rewrite <- pow2_split by lia. subst A.
    replace (E - (e - 11) + - E) with (11 + - e) by lia.
    by rewrite pow2_split by lia. }
  set (D := 2 ^ (- E)) in *. set (G := 2 ^ (E - (e - 11))) in *.
  assert (HD : 0 < D) by (apply Z.pow_pos_nonneg; lia).
  assert (HG : G = 1 \/ G = 2 \/ G = 4).
  { subst G. assert (E - (e - 11) = 0 \/ E - (e - 11) = 1 \/ E - (e - 11) = 2)
      as [-> | [-> | ->]] by lia; auto. }
  assert (HMD : (T - 1) * D < Z.pos M <= T * D).
  { assert (HW' : (T - 1) * (2048 * A) < Z.pos M * G <= T * (2048 * A)).
    { destruct (Z.eq_dec k (T * 2000)) as [Heq | Hne].
      - assert (Hm' : Z.pos m = 2000 * (T * A)) by (rewrite Hv, Heq; lia).
        assert (Hq' : q = 2 * (1024 * (T * A))) by lia.
        rewrite Hex; [nia | apply Hl; lia |].
        rewrite Hq', Z.even_mul. done.
      - assert (Hlo : (2000 * (T - 1) + 1) * A <= Z.pos m) by nia.
        assert (Hhi : Z.pos m <= (2000 * T - 1) * A) by nia.
        lia. }
    destruct HG as [HG | [HG | HG]]; rewrite HG in *.
    - assert (D = 2048 * A) as -> by lia. lia.
    - assert (D = 1024 * A) as -> by lia. lia.
    - assert (D = 512 * A) as -> by lia. lia. }
  apply toInt_Ceil; [lia | by apply ceiling_unique | nia].
Qed.
End FloatTarget.

(** ** Period resolution *)

Section PeriodResolution.
Import Go Models Spec.
Variable ParseDuration : string -> error + Time.Duration.

Local Ltac byte_cases c :=
  destruct c as [[] [] [] [] [] [] [] []]; vm_compute; intros [=]; auto.

Lemma lowerByte_a c :
  Strings.lowerByte c = "a"%char <-> (c = "a" \/ c = "A")%char.
Proof. split; [byte_cases c | by intros [-> | ->]]. Qed.

Lemma lowerByte_u c :
  Strings.lowerByte c = "u"%char <-> (c = "u" \/ c = "U")%char.
Proof. split; [byte_cases c | by intros [-> | ->]]. Qed.

Lemma lowerByte_t c :
  Strings.lowerByte c = "t"%char <-> (c = "t" \/ c = "T")%char.
Proof. split; [byte_cases c | by intros [-> | ->]]. Qed.

Lemma lowerByte_o c :
  Strings.lowerByte c = "o"%char <-> (c = "o" \/ c = "O")%char.
Proof. split; [byte_cases c | by intros [-> | ->]]. Qed.

(** The test at the head of [getPeriod] holds exactly for the automatic
    period specifications. *)
Lemma isAuto_test (periodSpec : string) :
  String.eqb (Strings.ToLower periodSpec) "auto" || String.eqb periodSpec ""
  = true <-> isAuto periodSpec.
Proof.
  rewrite orb_true_iff, !String.eqb_eq. unfold isAuto. split.
  - intros [H | H]; [right | by left].
    destruct periodSpec as [| a [| u [| t [| o [| ? ?]]]]]; try discriminate H.
    cbn [Strings.ToLower] in H. injection H as Ho Ht Hu Ha.
    exists a, u, t, o. split; [done |].
    by rewrite <- lowerByte_a, <- lowerByte_u, <- lowerByte_t, <- lowerByte_o.
  - intros [-> | (a & u & t & o & -> & Ha & Hu & Ht & Ho)]; [by right | left].
    cbn [Strings.ToLower].
    apply lowerByte_a in Ha. apply lowerByte_u in Hu.
    apply lowerByte_t in Ht. apply lowerByte_o in Ho.
    by rewrite Ha, Hu, Ht, Ho.
Qed.

(** The saturation of [time.Since] does not move an age across a tier. *)
Lemma getRetainedPeriods_table (startTime now : Time.Time) :
  getRetainedPeriods (Time.Since now startTime)
  = retentionCandidates (now - startTime).
Proof.
  unfold getRetainedPeriods, retentionCandidates, Time.Since, Time.Sub,
    Time.minDuration, Time.maxDuration, Time.Hour, Time.Second, day.
  change (2 ^ 63)%Z with 9223372036854775808%Z.
  cbv zeta. set (d := (now - startTime)%Z).
  match goal with
  | |- context [Z.ltb d ?b] => destruct (Z.ltb_spec d b)
  end;
    [| match goal with
       | |- context [Z.ltb ?a d] => destruct (Z.ltb_spec a d)
       end];
    repeat match goal with
           | |- context [Z.ltb ?a ?b] => destruct (Z.ltb_spec a b)
           end; try reflexivity; lia.
Qed.

(** On each list of the table the loop picks the smallest candidate not
    below the number of datapoints, and the largest when there is none. *)
Lemma firstAtLeast_smallest (datapoints age : Z) :
  let candidates := retentionCandidates age in
  firstAtLeast datapoints candidates (List.last candidates 0%Z)
  = smallestAtLeast datapoints candidates.
Proof.
  unfold retentionCandidates, smallestAtLeast.
  repeat match goal with
         | |- context [Z.ltb ?a ?b] => destruct (Z.ltb a b)
         end;
    cbn [firstAtLeast List.last List.filter];
    repeat match goal with
           | |- context [Z.leb ?a ?b] => destruct (Z.leb_spec a b)
           end;
    cbn [foldr List.filter]; lia.
Qed.

Lemma digits_positional (s : string) (acc : Z) :
  Strconv.digits acc s
  = match positional s with
    | Some v => Some (acc * 10 ^ Z.of_nat (String.length s) + v)%Z
    | None => None
    end.
Proof.
  revert acc. induction s as [| c s IH]; intros acc; cbn [Strconv.digits positional].
  - f_equal. cbn. lia.
  - destruct (Strconv.digitOf c) as [d |]; [| done].
    rewrite IH. destruct (positional s) as [v |]; [| done].
    f_equal. cbn [String.length]. rewrite Nat2Z.inj_succ, Z.pow_succ_r by lia.
    lia.
Qed.

Lemma digit_plain (c : ascii) (d : Z) :
  Strconv.digitOf c = Some d ->
  Ascii.eqb c "-" = false /\ Ascii.eqb c "+" = false
  /\ Ascii.eqb (Strings.lowerByte c) "a" = false.
Proof.
  destruct c as [[] [] [] [] [] [] [] []]; vm_compute; intros [=]; auto.
Qed.

Lemma positional_head (body : string) (v : Z) :
  body <> "" -> positional body = Some v ->
  exists c rest d, body = String c rest /\ Strconv.digitOf c = Some d.
Proof.
  destruct body as [| c rest]; [done |]. intros _. cbn [positional].
  destruct (Strconv.digitOf c) as [d |] eqn:Hd; [| done].
  intros _. by exists c, rest, d.
Qed.

Lemma Atoi_integerString (s : string) (n : Z) :
  integerString s n -> (- 2 ^ 63 <= n < 2 ^ 63)%Z -> Strconv.Atoi s = Some n.
Proof.
  intros (body & v & Hne & Hv & Hs) Hrange.
  assert (Hd : Strconv.digits 0 body = Some v).
  { rewrite digits_positional, Hv. f_equal; lia. }
  assert (Hfit : forall m, (- 2 ^ 63 <= m < 2 ^ 63)%Z ->
                 (- 2 ^ 63 <=? m)%Z && (m <? 2 ^ 63)%Z = true).
  { intros m Hm. apply andb_true_iff. split; [apply Z.leb_le | apply Z.ltb_lt]; lia. }
  destruct (positional_head body v Hne Hv) as (c & rest & d & -> & Hc).
  destruct (digit_plain c d Hc) as (Hminus & Hplus & _).
  destruct Hs as [[-> ->] | [[-> ->] | [-> ->]]]; unfold Strconv.Atoi.
  - cbv zeta. rewrite Hminus, Hplus. cbv beta iota delta [orb].
    rewrite Hd. by rewrite Hfit.
  - change (Ascii.eqb "+" "-") with false. change (Ascii.eqb "+" "+") with true.
    cbv beta iota zeta delta [orb]. rewrite Hd. by rewrite Hfit.
  - change (Ascii.eqb "-" "-") with true.
    cbv beta iota zeta delta [orb]. rewrite Hd. rewrite Hfit; [done | lia].
Qed.

Lemma integerString_not_auto (s : string) (n : Z) :
  integerString s n ->
  String.eqb (Strings.ToLower s) "auto" || String.eqb s "" = false.
Proof.
  intros (body & v & Hne & Hv & Hs).
  destruct (positional_head body v Hne Hv) as (c & rest & d & -> & Hc).
  destruct (digit_plain c d Hc) as (_ & _ & Ha).
  destruct Hs as [[-> _] | [[-> _] | [-> _]]];
    cbn [Strings.ToLower String.eqb]; [by rewrite Ha | done | done].
Qed.

(** The exact target of a range of a whole number of seconds. *)
Lemma exactTarget_whole (startTime endTime : Time.Time) (k : Z) :
  (endTime - startTime = k * Time.Second)%Z ->
  exactTarget startTime endTime = (- ((- k) / 2000))%Z.
Proof.
  intros Hk. unfold exactTarget.
  replace (startTime - endTime)%Z with ((- k) * 1000000000)%Z
    by (unfold Time.Second in Hk; lia).
  by rewrite Z.div_mul_cancel_r.
Qed.

(** C2, as amended: for an empty or case-insensitively "auto" period the
    result is the smallest candidate of the retention tier of the age of
    the start that is not below the target, or the largest candidate when
    there is none, where the target is the ceiling of the seconds of the
    range over 2000 computed in float64 as the code does
    ([datapointsOf]); when the range is a whole number of seconds, not
    negative and within an int64 of nanoseconds, that target is the exact
    ceiling and the result is the one of the specification; and an
    integer string that fits an int64 gives its value, whatever the time
    range. *)
Theorem C2_period (query : metricsDataQuery.t) (startTime endTime now : Time.Time) :
  (isAuto (metricsDataQuery.Period query) ->
   getPeriod ParseDuration query startTime endTime now
   = Ok (smallestAtLeast (datapointsOf (Time.Sub endTime startTime))
           (retentionCandidates (now - startTime))))
  /\ (forall k, isAuto (metricsDataQuery.Period query) ->
                (endTime - startTime = k * Time.Second)%Z ->
                (0 <= k)%Z -> (k * Time.Second <= Time.maxDuration)%Z ->
                getPeriod ParseDuration query startTime endTime now
                = Ok (specAutoPeriod startTime endTime now))
  /\ (forall n, integerString (metricsDataQuery.Period query) n ->
                (- 2 ^ 63 <= n < 2 ^ 63)%Z ->
                getPeriod ParseDuration query startTime endTime now = Ok n).
Proof.
  assert (Hfloat : isAuto (metricsDataQuery.Period query) ->
    getPeriod ParseDuration query startTime endTime now
    = Ok (smallestAtLeast (datapointsOf (Time.Sub endTime startTime))
            (retentionCandidates (now - startTime)))).
  { intros Hauto. unfold getPeriod.
    apply isAuto_test in Hauto. rewrite Hauto.
    rewrite getRetainedPeriods_table. f_equal. apply firstAtLeast_smallest. }
  split; [exact Hfloat |]. split.
  - intros k Hauto Hk Hk0 Hmax. rewrite (Hfloat Hauto).
    unfold specAutoPeriod. rewrite (exactTarget_whole _ _ k Hk).
    assert (Hsub : Time.Sub endTime startTime = (k * Time.Second)%Z).
    { unfold Time.Sub. rewrite Hk.
      unfold Time.minDuration, Time.maxDuration, Time.Second in *.
      destruct (Z.ltb_spec (k * 1000000000) (- 2 ^ 63)); [lia |].
      destruct (Z.ltb_spec (2 ^ 63 - 1) (k * 1000000000)); [lia | done]. }
    rewrite Hsub, datapoints_whole_seconds; [done |].
    unfold Time.maxDuration, Time.Second in Hmax. lia.
  - intros n Hint Hrange. unfold getPeriod.
    rewrite (integerString_not_auto _ _ Hint).
    by rewrite (Atoi_integerString _ _ Hint Hrange).
Qed.
End PeriodResolution.

Section PeriodExamples.
Import Go Models Spec.

(** C2, as stated, fails: for a range of 500 days and one nanosecond the
    exact ceiling of the seconds over 2000 is 21601, so that the smallest
    candidate not below it is 86400; in float64 the nanosecond is lost,
    the target is 21600, and the code answers 21600. *)
Lemma C2_counterexample :
  let startTime := 0%Z in
  let endTime := (43200000 * Time.Second + 1)%Z in
  getPeriod noDuration (periodQuery "auto") startTime endTime endTime = Ok 21600%Z
  /\ exactTarget startTime endTime = 21601%Z
  /\ specAutoPeriod startTime endTime endTime = 86400%Z
  /\ getPeriod noDuration (periodQuery "auto") startTime endTime endTime
     <> Ok (specAutoPeriod startTime endTime endTime).
Proof. vm_compute. repeat split; (reflexivity || discriminate). Qed.

Lemma C2_period_witness :
  getPeriod noDuration (periodQuery "AuTo") 0%Z (4000 * Time.Second)%Z
    (4000 * Time.Second)%Z
  = Ok (smallestAtLeast 2%Z [60; 300; 900; 3600; 21600; 86400]%Z)
  /\ getPeriod noDuration (periodQuery "auto") 0%Z (4000 * Time.Second)%Z
       (4000 * Time.Second)%Z
     = Ok (specAutoPeriod 0%Z (4000 * Time.Second)%Z (4000 * Time.Second)%Z)
  /\ getPeriod noDuration (periodQuery "-300") 0%Z 1%Z 2%Z = Ok (- 300)%Z.
Proof.
  split; [| split].
  - apply (proj1 (C2_period noDuration (periodQuery "AuTo") 0%Z
                    (4000 * Time.Second)%Z (4000 * Time.Second)%Z)).
    right. exists "A"%char, "u"%char, "T"%char, "o"%char. auto 10.
  - apply (proj1 (proj2 (C2_period noDuration (periodQuery "auto") 0%Z
                           (4000 * Time.Second)%Z (4000 * Time.Second)%Z))
             4000%Z).
    + right. exists "a"%char, "u"%char, "t"%char, "o"%char. auto 10.
    + reflexivity.
    + lia.
    + vm_compute. discriminate.
  - apply (proj2 (proj2 (C2_period noDuration (periodQuery "-300") 0%Z 1%Z 2%Z))).
    + exists "300", 300%Z. repeat split; [discriminate | auto].
    + lia.
Defined.

(** A range of 4000 s that starts within the last 15 days resolves to 60. *)
Example auto_4000_seconds :
  getPeriod noDuration (periodQuery "") 0%Z (4000 * Time.Second)%Z
    (14 * day)%Z = Ok 60%Z.
Proof. vm_compute. reflexivity. Qed.

(** On these whole numbers of seconds the float64 target is the exact
    ceiling. *)
Example datapoints_exact :
  map (fun s => datapointsOf (s * Time.Second)%Z)
    [0; 1; 2000; 2001; 120000; 120001; 172800000; 172800001]%Z
  = map (fun s => exactTarget 0%Z (s * Time.Second)%Z)
      [0; 1; 2000; 2001; 120000; 120001; 172800000; 172800001]%Z.
Proof. vm_compute. reflexivity. Qed.

(** An integer that does not fit an int64 is no period: [strconv.Atoi]
    fails and the duration parser is asked. *)
Example period_out_of_range :
  getPeriod noDuration (periodQuery "9223372036854775808") 0%Z 1%Z 2%Z
  = Err (errorString
           "failed to parse period as duration: time: invalid duration").
Proof. vm_compute. reflexivity. Qed.
End PeriodExamples.

(** ** Dimension normalization *)

Section DimensionNormalization.
Import Go Models Spec.
Implicit Types (parsed : gmap string (list string)) (k : string).

Lemma appendValues_strings k (ss : list string) parsed :
  appendValues k (JString <$> ss) parsed
  = Ok (match ss with
        | [] => parsed
        | _ :: _ => <[k := (default [] (parsed !! k) ++ ss)%list]> parsed
        end).
Proof.
  revert parsed. induction ss as [| s ss IH]; intros parsed; [done |].
  cbn [fmap list_fmap appendValues]. rewrite IH.
  destruct ss as [| s' ss]; [done |].
  rewrite lookup_insert_eq, insert_insert_eq. cbn [default]. unfold id.
  by rewrite <- (assoc_L (++)).
Qed.

Lemma stringsOf_Some (values : list JSONValue) (ss : list string) :
  stringsOf values = Some ss -> values = JString <$> ss.
Proof.
  unfold stringsOf. revert ss. induction values as [| v values IH]; intros ss.
  - by intros [= <-].
  - rewrite mapM_Some. intros Hall. inversion Hall as [| v' s vs ss' Hs Hrest]; subst.
    destruct v; try discriminate Hs. injection Hs as ->.
    cbn [fmap list_fmap]. f_equal. apply IH. by apply mapM_Some.
Qed.

Lemma stringsOf_strings (ss : list string) :
  stringsOf (JString <$> ss) = Some ss.
Proof.
  unfold stringsOf. apply mapM_Some. induction ss as [| s ss IH]; by constructor.
Qed.

(** The entries written by the outer loop when every value is a string
    or a list of strings. *)
Lemma parseEntries_Ok (order : list (string * JSONValue)) parsed :
  Forall (fun kv => is_Some (normalValue kv.2)) order ->
  NoDup order.*1 ->
  (forall k, k ∈ order.*1 -> parsed !! k = None) ->
  exists parsed',
    parseEntries order parsed = Ok parsed'
    /\ forall k, parsed' !! k
                 = match (list_to_map order : gmap string JSONValue) !! k with
                   | Some v => entryOf v
                   | None => parsed !! k
                   end.
Proof.
  revert parsed. induction order as [| [k0 v] order IH]; intros parsed Hall Hnd Hfresh.
  { exists parsed. split; [done |]. intros k. simpl. by rewrite lookup_empty. }
  apply Forall_cons in Hall as [[l Hv] Hall].
  cbn [fmap list_fmap fst] in Hnd, Hfresh. apply NoDup_cons in Hnd as [Hk0 Hnd].
  assert (Hnone : (list_to_map order : gmap string JSONValue) !! k0 = None)
    by by apply not_elem_of_list_to_map.
  assert (Hstep : forall parsed1,
             parsed1 !! k0 = entryOf v ->
             (forall k, k <> k0 -> parsed1 !! k = parsed !! k) ->
             parseEntries order parsed1
             = parseEntries ((k0, v) :: order) parsed ->
             exists parsed',
               parseEntries ((k0, v) :: order) parsed = Ok parsed'
               /\ forall k, parsed' !! k
                    = match (list_to_map ((k0, v) :: order)
                             : gmap string JSONValue) !! k with
                      | Some v => entryOf v
                      | None => parsed !! k
                      end).
  { intros parsed1 Hat Hother <-.
    destruct (IH parsed1 Hall Hnd) as (parsed' & Hrun & Hlook).
    { intros k Hk. rewrite Hother; [apply Hfresh; by right |].
      intros ->. done. }
    exists parsed'. split; [done |]. intros k. rewrite Hlook.
    cbn [list_to_map foldr uncurry]. simpl.
    destruct (decide (k = k0)) as [-> | Hne].
    - by rewrite Hnone, lookup_insert_eq.
    - rewrite lookup_insert_ne by done. by rewrite Hother. }
  destruct v as [| | | s | values |]; try discriminate Hv.
  - apply (Hstep (<[k0 := [s]]> parsed)).
    + by rewrite lookup_insert_eq.
    + intros k Hne. by rewrite lookup_insert_ne.
    + done.
  - cbn [normalValue] in Hv. apply stringsOf_Some in Hv as ->.
    assert (Hk : parsed !! k0 = None) by (apply Hfresh; by left).
    destruct l as [| s l].
    + apply (Hstep parsed); [by rewrite Hk | done | done].
    + apply (Hstep (<[k0 := s :: l]> parsed)).
      * rewrite lookup_insert_eq. unfold entryOf. cbn [normalValue].
        by rewrite stringsOf_strings.
      * intros k Hne. by rewrite lookup_insert_ne.
      * cbn [parseEntries]. rewrite appendValues_strings, Hk. done.
Qed.

(** A value of another shape stops the loop with the error, wherever it
    stands in the iteration order, provided no list before it has an
    element that is not a string. *)
Lemma parseEntries_Err (order : list (string * JSONValue)) parsed :
  Forall (fun kv => forall values, kv.2 = JArray values ->
                                    is_Some (stringsOf values)) order ->
  Exists (fun kv => otherShape kv.2 = true) order ->
  parseEntries order parsed
  = Err (errorString "unknown type as dimension value").
Proof.
  revert parsed. induction order as [| [k0 v] order IH]; intros parsed Hall Hex.
  { by apply Exists_nil in Hex. }
  apply Forall_cons in Hall as [Hv Hall].
  destruct v as [| | | s | values |]; try done; cbn [parseEntries].
  - apply IH; [done |]. apply Exists_cons in Hex as [Hex | Hex]; done.
  - destruct (Hv values eq_refl) as [l Hl]. apply stringsOf_Some in Hl as ->.
    rewrite appendValues_strings. cbn.
    apply IH; [done |]. apply Exists_cons in Hex as [Hex | Hex]; done.
Qed.

Lemma foldl_insert_lookup (f : string -> list string) (keys : list string)
    parsed k :
  foldl (fun sorted k' => <[k' := f k']> sorted) parsed keys !! k
  = if decide (k ∈ keys) then Some (f k) else parsed !! k.
Proof.
  revert parsed. induction keys as [| k0 keys IH]; intros parsed; cbn [foldl].
  { by rewrite decide_False by apply not_elem_of_nil. }
  rewrite IH. destruct (decide (k ∈ keys)) as [Hin | Hnin].
  - by rewrite decide_True by by right.
  - destruct (decide (k = k0)) as [-> | Hne].
    + rewrite lookup_insert_eq. by rewrite decide_True by by left.
    + rewrite lookup_insert_ne by done.
      rewrite decide_False; [done |]. by intros [? | ?]%elem_of_cons.
Qed.

(** As a map, the result of [sortDimensions] is its argument: a Go map
    keeps no trace of the order of insertion. *)
Lemma sortDimensions_id parsed : sortDimensions parsed = parsed.
Proof.
  apply map_eq. intros k. unfold sortDimensions. rewrite foldl_insert_lookup.
  destruct (parsed !! k) as [l |] eqn:Hk.
  - rewrite decide_True; [done |].
    rewrite merge_sort_Permutation. apply list_elem_of_fmap.
    exists (k, l). split; [done |]. by apply elem_of_map_to_list.
  - rewrite decide_False; [done |].
    rewrite merge_sort_Permutation. intros ([k' l] & -> & Hin)%list_elem_of_fmap.
    apply elem_of_map_to_list in Hin. simpl in Hk. congruence.
Qed.

(** C4, as amended: in whatever order the map is ranged over, when every
    value is a string or a list of strings the result maps each key to
    the one-element list of its string, or to its list in the same order
    (a key with an empty list gets no entry); and when some value is
    neither a string nor a list, no list having an element that is not a
    string, the result is the error "unknown type as dimension value",
    which does not name the key. *)
Theorem C4_dimensions (dimensions : gmap string JSONValue)
    (order : list (string * JSONValue)) :
  order ≡ₚ map_to_list dimensions ->
  ((forall k v, dimensions !! k = Some v -> is_Some (normalValue v)) ->
   exists parsed,
     parseDimensionsIn order = Ok parsed
     /\ forall k, parsed !! k = dimensions !! k ≫= entryOf)
  /\ ((forall k values, dimensions !! k = Some (JArray values) ->
                        is_Some (stringsOf values)) ->
      (exists k v, dimensions !! k = Some v /\ otherShape v = true) ->
      parseDimensionsIn order
      = Err (errorString "unknown type as dimension value")).
Proof.
  intros Hperm. unfold parseDimensionsIn. split.
  - intros Hshape.
    destruct (parseEntries_Ok order ∅) as (parsed & Hrun & Hlook).
    + apply Forall_forall. intros [k v] Hin. rewrite Hperm in Hin.
      apply elem_of_map_to_list in Hin. by apply (Hshape k).
    + rewrite Hperm. apply NoDup_fst_map_to_list.
    + intros k _. apply lookup_empty.
    + exists parsed. rewrite Hrun. cbn. rewrite sortDimensions_id.
      split; [done |]. intros k. rewrite Hlook.
      rewrite (list_to_map_proper order (map_to_list dimensions)), list_to_map_to_list;
        [| rewrite Hperm; apply NoDup_fst_map_to_list | done].
      destruct (dimensions !! k); [done | apply lookup_empty].
  - intros Harr (k & v & Hk & Hv).
    rewrite (parseEntries_Err order ∅); [done | |].
    + apply Forall_forall. intros [k' v'] Hin values Hv'. simpl in Hv'. subst v'.
      rewrite Hperm in Hin.
      apply elem_of_map_to_list in Hin. by apply (Harr k').
    + apply Exists_exists. exists (k, v). split; [| done].
      rewrite Hperm. by apply elem_of_map_to_list.
Qed.
End DimensionNormalization.

Section DimensionExamples.
Import Go Models Spec.

(** C4, as stated, fails: a number as the value of "InstanceId" gives an
    error whose text does not name that key. *)
Lemma C4_counterexample :
  exists text,
    parseDimensions {[ "InstanceId" := JNumber (Float64.ofInt 5) ]}
    = Err (errorString text)
    /\ contains text "InstanceId" = false.
Proof. eexists. split; [vm_compute; reflexivity | vm_compute; reflexivity]. Qed.

Lemma C4_dimensions_witness :
  exists parsed,
    parseDimensions
      {[ "InstanceId" := JString "i-1";
         "Zone" := JArray [JString "b"; JString "a"] ]}
    = Ok parsed
    /\ parsed !! "InstanceId" = Some ["i-1"]
    /\ parsed !! "Zone" = Some ["b"; "a"].
Proof.
  destruct (proj1 (C4_dimensions
                     {[ "InstanceId" := JString "i-1";
                        "Zone" := JArray [JString "b"; JString "a"] ]}
                     (map_to_list _) (reflexivity _)))
    as (parsed & Hrun & Hlook).
  - intros k v Hk. apply lookup_insert_Some in Hk as [[_ <-] | [_ Hk]]; [done |].
    apply lookup_singleton_Some in Hk as [_ <-]. done.
  - exists parsed. split; [exact Hrun |]. rewrite !Hlook. split; reflexivity.
Defined.

(** A list with an element that is not a string is not rejected with an
    error: the type assertion panics. *)
Example dimension_list_panic :
  parseDimensions {[ "InstanceId" := JArray [JString "i-1"; JBool true] ]}
  = Panic "interface conversion: interface {} is not string".
Proof. vm_compute. reflexivity. Qed.

(** An empty list leaves no entry for its key. *)
Example dimension_empty_list :
  parseDimensions {[ "InstanceId" := JArray [] ]} = Ok ∅.
Proof. vm_compute. reflexivity. Qed.

(** Through [ParseMetricDataQueries] the error is wrapped with the
    reference id, not with the key. *)
Example dimension_error_wrapped :
  parseExample "a" []
    (rawQuery "" "300" timeSeriesQuery "" (Some "Average") None None
       {[ "InstanceId" := JNull ]})
  = Err (QueryError
           (errorString
              "failed to parse dimensions: unknown type as dimension value")
           "a").
Proof. vm_compute. reflexivity. Qed.
End DimensionExamples.

(** ** Label migration *)

Section Texts.
Import Go Spec.
Implicit Types (s p u rest : string) (c : ascii).

Lemma app_cons_s c s p : String c s +:+ p = String c (s +:+ p).
Proof. reflexivity. Qed.

Lemma app_nil_l_s s : "" +:+ s = s.
Proof. reflexivity. Qed.

Lemma app_assoc_s s p u : (s +:+ p) +:+ u = s +:+ (p +:+ u).
Proof.
  induction s as [| c s IH]; [reflexivity |]. rewrite !app_cons_s. by f_equal.
Qed.

Lemma app_nil_s s : s +:+ "" = s.
Proof.
  induction s as [| c s IH]; [reflexivity |]. rewrite app_cons_s. by f_equal.
Qed.

Lemma length_app_s s p :
  String.length (s +:+ p) = String.length s + String.length p.
Proof.
  induction s as [| c s IH]; [reflexivity |].
  rewrite app_cons_s. cbn [String.length]. by rewrite IH.
Qed.

Lemma HasPrefix_app p rest : Strings.HasPrefix (p +:+ rest) p = true.
Proof.
  induction p as [| c p IH]; [reflexivity |].
  rewrite app_cons_s. cbn [Strings.HasPrefix]. by rewrite Ascii.eqb_refl, IH.
Qed.

Lemma HasPrefix_inv s p :
  Strings.HasPrefix s p = true -> exists rest, s = p +:+ rest.
Proof.
  revert s. induction p as [| c p IH]; intros s; [by exists s |].
  destruct s as [| c' s]; cbn [Strings.HasPrefix]; [done |].
  intros [Hc Hp]%andb_true_iff. apply Ascii.eqb_eq in Hc as ->.
  destruct (IH s Hp) as [rest ->]. by exists rest.
Qed.

Lemma HasPrefix_cons c c' s p :
  Strings.HasPrefix (String c s) (String c' p)
  = Ascii.eqb c' c && Strings.HasPrefix s p.
Proof. done. Qed.

(** The three equations of [replaceFrom] at the head of a text. *)
Lemma replaceFrom_skip old new pre s :
  Strings.replaceFrom old new (String.length pre) (pre +:+ s)
  = Strings.replaceFrom old new 0 s.
Proof.
  induction pre as [| c pre IH]; [by destruct s |].
  rewrite app_cons_s. cbn [String.length Strings.replaceFrom]. exact IH.
Qed.

Lemma replaceFrom_found c old new rest :
  Strings.replaceFrom (String c old) new 0 (String c old +:+ rest)
  = new +:+ Strings.replaceFrom (String c old) new 0 rest.
Proof.
  pose proof (HasPrefix_app (String c old) rest) as Hp.
  rewrite app_cons_s in *. cbn [Strings.replaceFrom]. rewrite Hp.
  cbn [String.length].
  replace (S (String.length old) - 1) with (String.length old) by lia.
  by rewrite replaceFrom_skip.
Qed.

Lemma replaceFrom_next c old new s :
  Strings.HasPrefix (String c s) old = false ->
  Strings.replaceFrom old new 0 (String c s)
  = String c (Strings.replaceFrom old new 0 s).
Proof. intros H. cbn [Strings.replaceFrom]. by rewrite H. Qed.

(** No occurrence of a text that begins with two opening braces starts
    inside an inert text. *)
Lemma replaceFrom_inert old new p rest :
  inert p = true ->
  Strings.replaceFrom (String "{" (String "{" old)) new 0 (p +:+ rest)
  = p +:+ Strings.replaceFrom (String "{" (String "{" old)) new 0 rest.
Proof.
  induction p as [| c p IH]; [done |]. intros Hp.
  rewrite !app_cons_s. rewrite replaceFrom_next.
  - f_equal. apply IH. destruct p as [| c' p]; [done |].
    cbn [inert] in Hp. by apply andb_true_iff in Hp as [_ ?].
  - rewrite HasPrefix_cons. destruct (Ascii.eqb_spec "{" c) as [<- | Hc]; [| done].
    destruct p as [| c' p]; [done |].
    rewrite app_cons_s, HasPrefix_cons.
    cbn [inert] in Hp. apply andb_true_iff in Hp as [Hcc _].
    unfold isOpen in Hcc. cbn in Hcc.
    destruct (Ascii.eqb_spec "{" c') as [<- | Hc']; [done | done].
Qed.
End Texts.

Section Matcher.
Import Go Spec.
Implicit Types (s p u rest w t name tail : string) (c : ascii).

Lemma closeAt_sound s tail :
  Regexp.closeAt s = Some tail ->
  exists t rest,
    tail = t +:+ "}}" /\ s = tail +:+ rest /\ allBytes Regexp.isSpace t = true.
Proof.
  revert tail. induction s as [| c s IH]; intros tail; [done |].
  cbn [Regexp.closeAt]. destruct (Regexp.isSpace c) eqn:Hc.
  - destruct (Regexp.closeAt s) as [tail' |]; [| done].
    intros [= <-]. destruct (IH tail' eq_refl) as (t & rest & -> & -> & Ht).
    exists (String c t), rest. rewrite !(app_cons_s c). cbn [allBytes].
    by rewrite Hc, Ht.
  - destruct (Strings.HasPrefix (String c s) "}}") eqn:Hp; [| done].
    intros [= <-]. apply HasPrefix_inv in Hp as [rest ->].
    by exists "", rest.
Qed.

Lemma closeAt_complete t rest :
  allBytes Regexp.isSpace t = true ->
  Regexp.closeAt (t +:+ "}}" +:+ rest) = Some (t +:+ "}}").
Proof.
  induction t as [| c t IH]; [done |].
  cbn [allBytes]. intros [Hc Ht]%andb_true_iff.
  rewrite !(app_cons_s c). cbn [Regexp.closeAt]. by rewrite Hc, IH.
Qed.

Lemma lazyGroup_sound s name tail :
  Regexp.lazyGroup s = Some (name, tail) ->
  name <> ""
  /\ allBytes (fun c => negb (Regexp.isNewline c)) name = true
  /\ exists t rest,
      tail = t +:+ "}}" /\ s = name +:+ tail +:+ rest
      /\ allBytes Regexp.isSpace t = true.
Proof.
  revert name tail. induction s as [| c s IH]; intros name tail; [done |].
  cbn [Regexp.lazyGroup]. destruct (Regexp.isNewline c) eqn:Hc; [done |].
  destruct (Regexp.closeAt s) as [tail' |] eqn:Hclose.
  - intros [= <- <-]. apply closeAt_sound in Hclose as (t & rest & -> & -> & Ht).
    split; [done |]. split; [cbn [allBytes]; by rewrite Hc |].
    exists t, rest. by rewrite !(app_cons_s c), app_assoc_s.
  - destruct (Regexp.lazyGroup s) as [[name' tail'] |]; [| done].
    intros [= <- <-].
    destruct (IH name' tail' eq_refl) as (_ & Hnl & t & rest & -> & -> & Ht).
    split; [done |]. split; [cbn [allBytes]; by rewrite Hc, Hnl |].
    by exists t, rest.
Qed.

Lemma lazyGroup_complete name t rest :
  name <> "" ->
  allBytes (fun c => negb (Regexp.isNewline c)) name = true ->
  allBytes Regexp.isSpace t = true ->
  Regexp.lazyGroup (name +:+ t +:+ "}}" +:+ rest) <> None.
Proof.
  intros Hne Hnl Ht. induction name as [| c name IH]; [done |].
  cbn [allBytes] in Hnl. apply andb_true_iff in Hnl as [Hc Hnl].
  apply negb_true_iff in Hc.
  rewrite (app_cons_s c). cbn [Regexp.lazyGroup]. rewrite Hc.
  destruct (Regexp.closeAt _) eqn:Hclose; [done |].
  destruct name as [| c' name].
  - rewrite app_nil_l_s, closeAt_complete in Hclose; done.
  - destruct (Regexp.lazyGroup _) as [[? ?] |] eqn:Hl; [done |].
    by apply IH.
Qed.

Lemma openAt_sound s w name tail :
  Regexp.openAt s = Some (w, name, tail) ->
  allBytes Regexp.isSpace w = true
  /\ name <> ""
  /\ allBytes (fun c => negb (Regexp.isNewline c)) name = true
  /\ exists t rest,
      tail = t +:+ "}}" /\ s = w +:+ name +:+ tail +:+ rest
      /\ allBytes Regexp.isSpace t = true.
Proof.
  assert (Hlazy : forall s w name tail,
             match Regexp.lazyGroup s with
             | Some (name', tail') => Some ("", name', tail')
             | None => None
             end = Some (w, name, tail) ->
             allBytes Regexp.isSpace w = true
             /\ name <> ""
             /\ allBytes (fun c => negb (Regexp.isNewline c)) name = true
             /\ exists t rest,
                 tail = t +:+ "}}" /\ s = w +:+ name +:+ tail +:+ rest
                 /\ allBytes Regexp.isSpace t = true).
  { intros s' w' name' tail'.
    destruct (Regexp.lazyGroup s') as [[n' t'] |] eqn:Hl; [| done].
    intros [= <- <- <-]. apply lazyGroup_sound in Hl as (? & ? & t & rest & ? & ? & ?).
    split; [done |]. split; [done |]. split; [done |]. by exists t, rest. }
  revert w name tail. induction s as [| c s IH]; intros w name tail; [done |].
  cbn [Regexp.openAt]. destruct (Regexp.isSpace c) eqn:Hc; [| apply Hlazy].
  destruct (Regexp.openAt s) as [[[w' name'] tail'] |] eqn:Ho; [| apply Hlazy].
  intros [= <- <- <-].
  destruct (IH w' name' tail' eq_refl) as (Hw & Hne & Hnl & t & rest & -> & -> & Ht).
  split; [cbn [allBytes]; by rewrite Hc, Hw |].
  split; [done |]. split; [done |]. by exists t, rest.
Qed.

Lemma openAt_complete w name t rest :
  allBytes Regexp.isSpace w = true ->
  name <> "" ->
  allBytes (fun c => negb (Regexp.isNewline c)) name = true ->
  allBytes Regexp.isSpace t = true ->
  Regexp.openAt (w +:+ name +:+ t +:+ "}}" +:+ rest) <> None.
Proof.
  intros Hw Hne Hnl Ht.
  assert (Hbase : forall s,
             Regexp.lazyGroup s <> None ->
             match s with
             | String c r' =>
                 if Regexp.isSpace c
                 then match Regexp.openAt r' with
                      | Some (ws, sub, tail) => Some (String c ws, sub, tail)
                      | None =>
                          match Regexp.lazyGroup s with
                          | Some (sub, tail) => Some ("", sub, tail)
                          | None => None
                          end
                      end
                 else match Regexp.lazyGroup s with
                      | Some (sub, tail) => Some ("", sub, tail)
                      | None => None
                      end
             | EmptyString => None
             end <> None).
  { intros s Hs. destruct s as [| c r']; [done |].
    destruct (Regexp.lazyGroup (String c r')) as [[? ?] |]; [| done].
    destruct (Regexp.isSpace c); [| done].
    by destruct (Regexp.openAt r') as [[[? ?] ?] |]. }
  induction w as [| c w IH].
  - rewrite app_nil_l_s.
    pose proof (lazyGroup_complete name t rest Hne Hnl Ht) as Hl.
    destruct (name +:+ t +:+ "}}" +:+ rest) as [| c r'] eqn:Hs; [done |].
    by apply (Hbase (String c r')).
  - cbn [allBytes] in Hw. apply andb_true_iff in Hw as [Hc Hw].
    rewrite (app_cons_s c). cbn [Regexp.openAt]. rewrite Hc.
    specialize (IH Hw).
    by destruct (Regexp.openAt _) as [[[? ?] ?] |].
Qed.

(** Soundness and completeness of the matcher with respect to the shape
    of a placeholder. *)
Lemma matchAt_sound s full name :
  Regexp.matchAt s = Some (full, name) ->
  placeholder full name /\ exists rest, s = full +:+ rest.
Proof.
  unfold Regexp.matchAt.
  destruct s as [| c1 s]; [done |].
  destruct c1 as [[] [] [] [] [] [] [] []]; try done.
  destruct s as [| c2 r]; [done |].
  destruct c2 as [[] [] [] [] [] [] [] []]; try done.
  destruct (Regexp.openAt r) as [[[w name'] tail] |] eqn:Ho; [| done].
  intros [= <- <-].
  apply openAt_sound in Ho as (Hw & Hne & Hnl & t & rest & -> & -> & Ht).
  split.
  - exists w, t. repeat split; done.
  - exists rest. rewrite !(app_cons_s "{"), !app_nil_l_s.
    by rewrite !app_assoc_s.
Qed.

Lemma matchAt_complete full name rest :
  placeholder full name -> Regexp.matchAt (full +:+ rest) <> None.
Proof.
  intros (w & t & -> & Hw & Ht & Hne & Hnl).
  pose proof (openAt_complete w name t rest Hw Hne Hnl Ht) as Ho.
  rewrite !(app_cons_s "{"), !app_nil_l_s, !app_assoc_s.
  rewrite !(app_cons_s "}"), !app_nil_l_s in *.
  cbn [Regexp.matchAt].
  by destruct (Regexp.openAt _) as [[[? ?] ?] |].
Qed.
End Matcher.

Section Scanning.
Import Go Spec.
Implicit Types (s p u rest w t name full : string) (c : ascii).

Lemma placeholder_head full name :
  placeholder full name -> exists body, full = String "{" (String "{" body).
Proof. intros (w & t & -> & _). by eexists. Qed.

Lemma scanFrom_skip pre s :
  scanFrom (String.length pre) (pre +:+ s) = scanFrom 0 s.
Proof.
  induction pre as [| c pre IH]; [by destruct s |].
  rewrite (app_cons_s c). cbn [String.length scanFrom]. exact IH.
Qed.

Lemma findAllFrom_skip pre s :
  Regexp.findAllFrom (String.length pre) (pre +:+ s) = Regexp.findAllFrom 0 s.
Proof.
  induction pre as [| c pre IH]; [by destruct s |].
  rewrite (app_cons_s c). cbn [String.length Regexp.findAllFrom]. exact IH.
Qed.

(** The scan of a text is a scan in the sense of [Scanned]. *)
Lemma scanFrom_Scanned s : Scanned s (scanFrom 0 s).
Proof.
  remember (String.length s) as n eqn:Hn.
  revert s Hn. induction n as [n IH] using lt_wf_ind. intros s ->.
  destruct s as [| c s]; [constructor |].
  cbn [scanFrom]. destruct (Regexp.matchAt (String c s)) as [[full name] |] eqn:Hm.
  - destruct (matchAt_sound _ _ _ Hm) as [Hshape [rest Hs]].
    destruct (placeholder_head _ _ Hshape) as [body ->].
    rewrite (app_cons_s "{") in Hs. injection Hs as -> ->.
    replace (String.length (String "{" (String "{" body)) - 1)
      with (String.length (String "{" body)) by (cbn [String.length]; lia).
    rewrite scanFrom_skip. rewrite <- !(app_cons_s "{") in *.
    apply scanned_hole; [done |].
    apply (IH (String.length rest)); [| done].
    rewrite !length_app_s. cbn [String.length]. lia.
  - apply scanned_lit; [done |]. apply (IH (String.length s)); [cbn; lia | done].
Qed.

(** The matches reported by [FindAllStringSubmatch] are the placeholders
    of the scan. *)
Lemma findAll_holes s segs :
  Scanned s segs -> Regexp.findAllFrom 0 s = holes segs.
Proof.
  induction 1 as [| c s segs Hm _ IH | full name rest segs Hm _ IH]; [done | |].
  - cbn [Regexp.findAllFrom]. by rewrite Hm.
  - destruct (matchAt_sound _ _ _ Hm) as [Hshape _].
    destruct (placeholder_head _ _ Hshape) as [body ->].
    rewrite (app_cons_s "{") in *. cbn [Regexp.findAllFrom]. rewrite Hm.
    replace (String.length (String "{" (String "{" body)) - 1)
      with (String.length (String "{" body)) by (cbn [String.length]; lia).
    rewrite findAllFrom_skip. cbn. by rewrite IH.
Qed.

Lemma Forall_holes (P : string -> string -> Prop) s segs :
  Scanned s segs ->
  Forall (fun m => P m.1 m.2) (holes segs) ->
  Forall (fun seg => match seg with
                     | Lit _ => True
                     | Hole full name => P full name
                     end) segs.
Proof.
  induction 1 as [| c s segs Hm _ IH | full name rest segs Hm _ IH]; intros Hall.
  - constructor.
  - constructor; [done |]. by apply IH.
  - cbn in Hall. apply Forall_cons in Hall as [Hp Hall].
    constructor; [done |]. by apply IH.
Qed.
End Scanning.

Section Names.
Import Go Spec.
Implicit Types (s p u rest w t name full : string) (c : ascii).

Lemma allBytes_app (q : ascii -> bool) s p :
  allBytes q (s +:+ p) = allBytes q s && allBytes q p.
Proof.
  induction s as [| c s IH]; [done |].
  rewrite (app_cons_s c). cbn [allBytes]. by rewrite IH, andb_assoc.
Qed.

Lemma allBytes_impl (q q' : ascii -> bool) s :
  (forall c, q c = true -> q' c = true) ->
  allBytes q s = true -> allBytes q' s = true.
Proof.
  intros Himpl. induction s as [| c s IH]; [done |]. cbn [allBytes].
  intros [Hc Hs]%andb_true_iff. by rewrite (Himpl c Hc), IH.
Qed.

Lemma isSpace_noBrace c : Regexp.isSpace c = true -> negb (isBrace c) = true.
Proof. destruct c as [[] [] [] [] [] [] [] []]; done. Qed.

(** Inside the braces of a placeholder with a plain name there is no
    brace. *)
Lemma placeholder_plain full name :
  placeholder full name -> plainName name = true ->
  exists c inner,
    full = "{{" +:+ String c inner +:+ "}}"
    /\ noBrace (String c inner) = true.
Proof.
  intros (w & t & -> & Hw & Ht & Hne & _) Hplain.
  unfold plainName in Hplain.
  apply andb_true_iff in Hplain as [[Hnb _]%andb_true_iff _].
  assert (Hall : noBrace (w +:+ name +:+ t) = true).
  { unfold noBrace in *. rewrite !allBytes_app, Hnb.
    rewrite (allBytes_impl Regexp.isSpace _ w isSpace_noBrace Hw).
    by rewrite (allBytes_impl Regexp.isSpace _ t isSpace_noBrace Ht). }
  destruct (w +:+ name +:+ t) as [| c inner] eqn:Hinner.
  - destruct w; [| done]. by destruct name.
  - exists c, inner. split; [| done]. rewrite <- Hinner.
    by rewrite !app_assoc_s.
Qed.

Lemma span_unique w1 w2 a1 a2 :
  allBytes Regexp.isSpace w1 = true -> allBytes Regexp.isSpace w2 = true ->
  startsPlain a1 = true -> startsPlain a2 = true ->
  w1 +:+ a1 = w2 +:+ a2 -> w1 = w2 /\ a1 = a2.
Proof.
  revert w2. induction w1 as [| c w1 IH]; intros [| c' w2] Hw1 Hw2 Ha1 Ha2 Heq.
  - done.
  - rewrite app_nil_l_s, (app_cons_s c') in Heq. subst a1.
    cbn [allBytes startsPlain] in *. apply andb_true_iff in Hw2 as [Hc _].
    by rewrite Hc in Ha1.
  - rewrite app_nil_l_s, (app_cons_s c) in Heq. subst a2.
    cbn [allBytes startsPlain] in *. apply andb_true_iff in Hw1 as [Hc _].
    by rewrite Hc in Ha2.
  - rewrite (app_cons_s c), (app_cons_s c') in Heq. injection Heq as -> Heq.
    cbn [allBytes] in *.
    apply andb_true_iff in Hw1 as [_ Hw1]. apply andb_true_iff in Hw2 as [_ Hw2].
    destruct (IH w2 Hw1 Hw2 Ha1 Ha2 Heq) as [-> ->]. done.
Qed.

Lemma ends_conflict name :
  allBytes (fun c => Regexp.isSpace c || isBrace c) name = true ->
  noBrace name = true -> endsPlain name = false.
Proof.
  unfold noBrace. induction name as [| c name IH]; [done |].
  cbn [allBytes endsPlain].
  intros [Hc Hall]%andb_true_iff [Hb Hnb]%andb_true_iff.
  destruct name as [| c' name]; [| by apply IH].
  apply negb_true_iff in Hb. rewrite Hb, orb_false_r in Hc. by rewrite Hc.
Qed.

Lemma name_unique n1 n2 y1 y2 :
  noBrace n1 = true -> noBrace n2 = true ->
  endsPlain n1 = true -> endsPlain n2 = true ->
  allBytes (fun c => Regexp.isSpace c || isBrace c) y1 = true ->
  allBytes (fun c => Regexp.isSpace c || isBrace c) y2 = true ->
  n1 +:+ y1 = n2 +:+ y2 -> n1 = n2.
Proof.
  revert n2. induction n1 as [| c n1 IH]; intros [| c' n2]; try done.
  intros Hb1 Hb2 He1 He2 Hy1 Hy2 Heq.
  rewrite (app_cons_s c), (app_cons_s c') in Heq. injection Heq as -> Heq.
  f_equal. unfold noBrace in Hb1, Hb2. cbn [allBytes] in Hb1, Hb2.
  apply andb_true_iff in Hb1 as [_ Hb1]. apply andb_true_iff in Hb2 as [_ Hb2].
  destruct n1 as [| d1 n1], n2 as [| d2 n2]; [done | | |].
  - exfalso. rewrite app_nil_l_s in Heq. subst y1.
    rewrite allBytes_app in Hy1. apply andb_true_iff in Hy1 as [Hy1 _].
    change (endsPlain (String d2 n2) = true) in He2.
    by rewrite (ends_conflict _ Hy1 Hb2) in He2.
  - exfalso. rewrite app_nil_l_s in Heq. subst y2.
    rewrite allBytes_app in Hy2. apply andb_true_iff in Hy2 as [Hy2 _].
    change (endsPlain (String d1 n1) = true) in He1.
    by rewrite (ends_conflict _ Hy2 Hb1) in He1.
  - by apply (IH (String d2 n2)).
Qed.

Lemma startsPlain_app name rest :
  startsPlain name = true -> startsPlain (name +:+ rest) = true.
Proof. by destruct name. Qed.

(** The text of a placeholder determines its name, for plain names. *)
Lemma placeholder_name full n1 n2 :
  placeholder full n1 -> placeholder full n2 ->
  plainName n1 = true -> plainName n2 = true -> n1 = n2.
Proof.
  intros (w1 & t1 & -> & Hw1 & Ht1 & _) (w2 & t2 & Heq & Hw2 & Ht2 & _) Hp1 Hp2.
  unfold plainName in *.
  apply andb_true_iff in Hp1 as [[Hb1 Hs1]%andb_true_iff He1].
  apply andb_true_iff in Hp2 as [[Hb2 Hs2]%andb_true_iff He2].
  rewrite !(app_cons_s "{"), !app_nil_l_s in Heq. injection Heq as Heq.
  apply span_unique in Heq as [_ Heq]; try done; try by apply startsPlain_app.
  assert (Htail : forall t, allBytes Regexp.isSpace t = true ->
                 allBytes (fun c => Regexp.isSpace c || isBrace c) (t +:+ "}}")
                 = true).
  { intros t Ht. rewrite allBytes_app, (allBytes_impl Regexp.isSpace _ t); try done.
    intros c ->. done. }
  by apply (name_unique n1 n2 (t1 +:+ "}}") (t2 +:+ "}}")); try apply Htail.
Qed.
End Names.

Section Rendering.
Import Go Models Spec.
Implicit Types (s p u rest name full f g : string) (c : ascii)
  (seen : list string) (segs : list segment).

Lemma render_cons seen seg segs :
  render seen (seg :: segs) = rendered seen seg +:+ render seen segs.
Proof. reflexivity. Qed.

Lemma token_cases name :
  token name ∈ ["${PROP('MetricName')}"; "${PROP('Namespace')}";
                "${PROP('Period')}"; "${PROP('Region')}"; "${PROP('Stat')}";
                "${LABEL}"]
  \/ token name = "${PROP('Dim." +:+ name +:+ "')}".
Proof.
  unfold token. destruct (aliasPatterns !! name) as [dynamicLabel |] eqn:Hl;
    [left | by right].
  unfold aliasPatterns in Hl. apply elem_of_list_to_map_2 in Hl.
  apply (list_elem_of_fmap_2 snd) in Hl. exact Hl.
Qed.

Lemma token_head name : exists body, token name = String "$" (String "{" body).
Proof.
  destruct (token_cases name) as [Hin | ->]; [| by eexists].
  repeat (apply elem_of_cons in Hin as [-> | Hin]; [by eexists |]).
  by apply elem_of_nil in Hin.
Qed.

Lemma inert_noOpen u :
  allBytes (fun c => negb (isOpen c)) u = true -> inert u = true.
Proof.
  induction u as [| c u IH]; [done |]. cbn [allBytes inert].
  intros [Hc Hu]%andb_true_iff. destruct u as [| c' u]; [done |].
  rewrite (IH Hu). apply negb_true_iff in Hc. by rewrite Hc.
Qed.

Lemma noBrace_noOpen u :
  noBrace u = true -> allBytes (fun c => negb (isOpen c)) u = true.
Proof.
  apply allBytes_impl. intros c. unfold isBrace, isOpen.
  by destruct (Ascii.eqb c "{").
Qed.

Lemma token_inert name : noBrace name = true -> inert (token name) = true.
Proof.
  intros Hnb. destruct (token_cases name) as [Hin | ->].
  - repeat (apply elem_of_cons in Hin as [-> | Hin]; [done |]).
    by apply elem_of_nil in Hin.
  - change ("${PROP('Dim." +:+ name +:+ "')}")
      with (String "$" (String "{" ("PROP('Dim." +:+ name +:+ "')}"))).
    assert (Hbody : allBytes (fun c => negb (isOpen c))
                      ("PROP('Dim." +:+ name +:+ "')}") = true).
    { rewrite !allBytes_app. by rewrite (noBrace_noOpen name Hnb). }
    apply inert_noOpen in Hbody.
    destruct ("PROP('Dim." +:+ name +:+ "')}") as [| c u] eqn:Hb; [done |].
    injection Hb as <- _. cbn [inert] in *. done.
Qed.

Lemma closedText_close u : noBrace u = true -> closedText (u +:+ "}}") = true.
Proof.
  unfold noBrace. induction u as [| c u IH]; [done |].
  cbn [allBytes]. intros [Hc Hu]%andb_true_iff.
  rewrite (app_cons_s c). cbn [closedText].
  assert (Ho : negb (isOpen c) = true).
  { unfold isBrace, isOpen in *. by destruct (Ascii.eqb c "{"). }
  rewrite Ho. destruct u as [| c' u]; [done |].
  rewrite (app_cons_s c') in *. by apply IH.
Qed.

Lemma closedText_tail c u : closedText (String c u) = true -> closedText u = true.
Proof. cbn [closedText]. intros [_ H]%andb_true_iff. by destruct u. Qed.

(** A closed text that is read at the head of a rendering lies in the
    bytes outside the placeholders, and is read in the original text as
    well. *)
Lemma closed_prefix seen s segs u :
  Scanned s segs -> closedText u = true ->
  Strings.HasPrefix (render seen segs) u = true ->
  Strings.HasPrefix s u = true.
Proof.
  intros Hscan. revert u.
  induction Hscan as [| c s segs Hm _ IH | full name rest segs Hm _ IH];
    intros [| c' u] Hu; try done.
  - rewrite render_cons. cbn [rendered]. rewrite (app_cons_s c), app_nil_l_s.
    rewrite !HasPrefix_cons. intros [-> Hp]%andb_true_iff.
    rewrite (IH u); [done | by apply (closedText_tail c') | done].
  - rewrite render_cons. cbn [rendered].
    destruct (matchAt_sound _ _ _ Hm) as [Hshape _].
    destruct (placeholder_head _ _ Hshape) as [body ->].
    destruct (token_head name) as [body' ->].
    cbn [closedText] in Hu. apply andb_true_iff in Hu as [Hc Hu].
    destruct (bool_decide _); rewrite !app_cons_s, HasPrefix_cons.
    + intros [Heq Hp]%andb_true_iff. apply Ascii.eqb_eq in Heq as ->.
      destruct u as [| c2 u]; [done |].
      rewrite HasPrefix_cons in Hp. apply andb_true_iff in Hp as [Heq _].
      apply Ascii.eqb_eq in Heq as ->. done.
    + intros [Heq _]%andb_true_iff. apply Ascii.eqb_eq in Heq as ->. done.
Qed.

Lemma open_prefix seen s segs u :
  Scanned s segs -> closedText u = true -> u <> "" ->
  Strings.HasPrefix (render seen segs) (String "{" u) = true ->
  Strings.HasPrefix s (String "{" u) = true.
Proof.
  intros Hscan Hu Hne.
  destruct Hscan as [| c s segs Hm Hscan | full name rest segs Hm Hscan]; [done | |].
  - rewrite render_cons. cbn [rendered]. rewrite (app_cons_s c), app_nil_l_s.
    rewrite !HasPrefix_cons. intros [-> Hp]%andb_true_iff.
    by rewrite (closed_prefix seen s segs u).
  - rewrite render_cons. cbn [rendered].
    destruct (matchAt_sound _ _ _ Hm) as [Hshape _].
    destruct (placeholder_head _ _ Hshape) as [body ->].
    destruct (token_head name) as [body' ->].
    destruct (bool_decide _); rewrite !app_cons_s, HasPrefix_cons; [done |].
    intros [_ Hp]%andb_true_iff. destruct u as [| c2 u]; [done |].
    rewrite HasPrefix_cons in Hp. apply andb_true_iff in Hp as [Heq _].
    apply Ascii.eqb_eq in Heq as ->. done.
Qed.

Lemma brace_align a b rest :
  noBrace a = true -> noBrace b = true ->
  Strings.HasPrefix (a +:+ "}}" +:+ rest) (b +:+ "}}") = true -> b = a.
Proof.
  unfold noBrace. revert a.
  induction b as [| c b IH]; intros [| c' a] Ha Hb; cbn [allBytes] in *.
  - done.
  - rewrite (app_cons_s c'), app_nil_l_s, HasPrefix_cons.
    intros [Heq _]%andb_true_iff. apply Ascii.eqb_eq in Heq as <-. done.
  - rewrite (app_cons_s c), app_nil_l_s. rewrite (app_cons_s "}"), HasPrefix_cons.
    intros [Heq _]%andb_true_iff. apply Ascii.eqb_eq in Heq as ->. done.
  - rewrite (app_cons_s c), (app_cons_s c'), HasPrefix_cons.
    intros [Heq Hp]%andb_true_iff. apply Ascii.eqb_eq in Heq as ->.
    apply andb_true_iff in Ha as [_ Ha]. apply andb_true_iff in Hb as [_ Hb].
    f_equal. by apply (IH a).
Qed.

(** One turn of the loop: replacing the text [f] of a plain placeholder
    in the rendering marks [f] as done, and changes nothing else. *)
Lemma replace_render seen s segs f nf :
  Scanned s segs -> plainHoles segs ->
  placeholder f nf -> plainName nf = true ->
  Strings.replaceFrom f (token nf) 0 (render seen segs)
  = render (f :: seen) segs.
Proof.
  intros Hscan Hplain Hf Hnf.
  destruct (placeholder_plain f nf Hf Hnf) as (cf & inner & Hfull & Hnbf).
  induction Hscan as [| c s segs Hm Hscan IH | g n rest segs Hm Hscan IH].
  - by destruct f.
  - apply Forall_cons in Hplain as [_ Hplain].
    rewrite !render_cons. cbn [rendered]. rewrite !(app_cons_s c), !app_nil_l_s.
    rewrite replaceFrom_next; [by rewrite IH |].
    destruct (Strings.HasPrefix _ f) eqn:Hp; [exfalso | done].
    rewrite Hfull in Hp. rewrite !(app_cons_s "{"), !app_nil_l_s in Hp.
    rewrite HasPrefix_cons in Hp. apply andb_true_iff in Hp as [Hc Hp].
    apply Ascii.eqb_eq in Hc as <-.
    apply (open_prefix seen s segs) in Hp;
      [| done | by apply closedText_close | by rewrite (app_cons_s cf)].
    assert (Hwhole : Strings.HasPrefix (String "{" s) f = true).
    { rewrite Hfull, !(app_cons_s "{"), !app_nil_l_s, HasPrefix_cons. done. }
    apply HasPrefix_inv in Hwhole as [rest Hrest]. rewrite Hrest in Hm.
    by apply (matchAt_complete f nf rest) in Hm.
  - apply Forall_cons in Hplain as [Hn Hplain].
    destruct (matchAt_sound _ _ _ Hm) as [Hg _].
    rewrite !render_cons. cbn [rendered].
    destruct (decide (g ∈ seen)) as [Hin | Hnin].
    + rewrite !bool_decide_eq_true_2; [| by right | done].
      rewrite Hfull at 1. rewrite !(app_cons_s "{"), !app_nil_l_s.
      rewrite replaceFrom_inert.
      * f_equal. rewrite <- IH by done. by rewrite Hfull, !(app_cons_s "{").
      * apply token_inert. unfold plainName in Hn.
        by apply andb_true_iff in Hn as [[? _]%andb_true_iff _].
    + rewrite (bool_decide_eq_false_2 (g ∈ seen)) by done.
      destruct (decide (g = f)) as [-> | Hne].
      * rewrite bool_decide_eq_true_2 by by left.
        rewrite (placeholder_name f n nf Hg Hf Hn Hnf).
        destruct (placeholder_head f nf Hf) as [body Hbody].
        rewrite Hbody at 1 2. rewrite replaceFrom_found.
        rewrite <- Hbody. by rewrite IH.
      * rewrite bool_decide_eq_false_2.
        2: { intros [? | ?]%elem_of_cons; done. }
        destruct (placeholder_plain g n Hg Hn) as (cg & inner' & Hgfull & Hnbg).
        rewrite <- IH by done.
        assert (Hno : Strings.HasPrefix (g +:+ render seen segs) f = false).
        { destruct (Strings.HasPrefix _ f) eqn:Hp; [exfalso | done].
          rewrite Hfull, Hgfull in Hp.
          rewrite !(app_cons_s "{"), !app_nil_l_s, !HasPrefix_cons in Hp.
          cbn [Ascii.eqb Bool.eqb andb] in Hp. rewrite app_assoc_s in Hp.
          apply brace_align in Hp; [| done | done].
          apply Hne. by rewrite Hfull, Hgfull, Hp. }
        rewrite Hgfull in Hno |- *.
        rewrite !(app_cons_s "{"), !app_nil_l_s in Hno |- *.
        rewrite replaceFrom_next by done. f_equal.
        rewrite Hfull at 1. rewrite !(app_cons_s "{"), !app_nil_l_s.
        rewrite <- (app_cons_s "{" (String cg inner' +:+ "}}") (render seen segs)).
        rewrite replaceFrom_inert.
        -- by rewrite Hfull, !(app_cons_s "{").
        -- rewrite (app_cons_s cg).
           change (inert (String "{" (String cg (inner' +:+ "}}"))))
             with (negb (isOpen "{" && isOpen cg)
                   && inert (String cg (inner' +:+ "}}"))).
           assert (Hopen : allBytes (fun c => negb (isOpen c))
                             (String cg (inner' +:+ "}}")) = true).
           { rewrite <- (app_cons_s cg), allBytes_app.
             by rewrite (noBrace_noOpen _ Hnbg). }
           rewrite (inert_noOpen _ Hopen). cbn [allBytes] in Hopen.
           apply andb_true_iff in Hopen as [Hcg _].
           apply negb_true_iff in Hcg. by rewrite Hcg, andb_false_r.
Qed.

Lemma Hole_holes segs f n : Hole f n ∈ segs <-> (f, n) ∈ holes segs.
Proof.
  unfold holes. rewrite list_elem_of_omap. split.
  - intros Hin. by exists (Hole f n).
  - intros ([c | f' n'] & Hin & Heq); [done |]. by injection Heq as -> ->.
Qed.

Lemma holes_placeholder s segs f n :
  Scanned s segs -> (f, n) ∈ holes segs -> placeholder f n.
Proof.
  intros Hscan Hin. apply Hole_holes in Hin.
  induction Hscan as [| c s segs Hm _ IH | g n' rest segs Hm _ IH].
  - by apply elem_of_nil in Hin.
  - apply elem_of_cons in Hin as [? | Hin]; [done | by apply IH].
  - apply elem_of_cons in Hin as [[= -> ->] | Hin]; [| by apply IH].
    by destruct (matchAt_sound _ _ _ Hm).
Qed.

Lemma migrateMatch_token full (m : string * string) :
  migrateMatch full m = Strings.ReplaceAll full m.1 (token m.2).
Proof. unfold migrateMatch, token. by destruct (aliasPatterns !! m.2). Qed.

(** The loop of [getLabel] over any matches of the scan. *)
Lemma fold_render s segs (matches : list (string * string)) seen :
  Scanned s segs -> plainHoles segs ->
  (forall m, m ∈ matches -> m ∈ holes segs) ->
  foldl migrateMatch (render seen segs) matches
  = render (foldl (fun d m => m.1 :: d) seen matches) segs.
Proof.
  intros Hscan Hplain. revert seen.
  induction matches as [| [f nf] matches IH]; intros seen Hsub; [done |].
  cbn [foldl]. rewrite migrateMatch_token. cbn [fst snd].
  assert (Hin : (f, nf) ∈ holes segs) by (apply Hsub; by left).
  pose proof (holes_placeholder s segs f nf Hscan Hin) as Hf.
  assert (Hnf : plainName nf = true).
  { apply Hole_holes in Hin. unfold plainHoles in Hplain.
    rewrite Forall_forall in Hplain. by apply (Hplain (Hole f nf)). }
  destruct (placeholder_head f nf Hf) as [body Hbody].
  replace (Strings.ReplaceAll (render seen segs) f (token nf))
    with (Strings.replaceFrom f (token nf) 0 (render seen segs))
    by (rewrite Hbody; reflexivity).
  rewrite (replace_render seen s segs f nf) by done.
  apply IH. intros m Hm. apply Hsub. by right.
Qed.

Lemma foldl_done (matches : list (string * string)) seen f :
  f ∈ foldl (fun d m => m.1 :: d) seen matches
  <-> f ∈ matches.*1 \/ f ∈ seen.
Proof.
  revert seen. induction matches as [| m matches IH]; intros seen; cbn [foldl].
  - split; [by right | intros [Hin | ?]; [by apply elem_of_nil in Hin | done]].
  - rewrite IH. cbn [fmap list_fmap]. rewrite !elem_of_cons. tauto.
Qed.

Lemma render_nil s segs : Scanned s segs -> render [] segs = s.
Proof.
  induction 1 as [| c s segs Hm _ IH | full name rest segs Hm _ IH]; [done | |];
    rewrite render_cons, IH; cbn [rendered]; [done |].
  rewrite bool_decide_eq_false_2; [done | apply not_elem_of_nil].
Qed.

Lemma render_all seen segs :
  (forall f n, Hole f n ∈ segs -> f ∈ seen) ->
  render seen segs = joined (substituted <$> segs).
Proof.
  induction segs as [| seg segs IH]; intros Hall; [done |].
  rewrite render_cons, IH.
  - destruct seg as [c | f n]; [done |]. cbn [rendered].
    rewrite bool_decide_eq_true_2; [done |]. apply (Hall f n). by left.
  - intros f n Hin. apply (Hall f n). by right.
Qed.

(** The loop of [getLabel] computes the simultaneous substitution when
    the names of the placeholders are plain. *)
Lemma migrate_spec (alias : string) :
  Forall (fun m => plainName m.2 = true)
    (Regexp.legacyAliasRegexp_FindAllStringSubmatch alias) ->
  foldl migrateMatch alias
    (Regexp.legacyAliasRegexp_FindAllStringSubmatch alias)
  = specLabel alias.
Proof.
  unfold Regexp.legacyAliasRegexp_FindAllStringSubmatch, specLabel.
  pose proof (scanFrom_Scanned alias) as Hscan.
  rewrite (findAll_holes _ _ Hscan). intros Hplain.
  rewrite <- (render_nil _ _ Hscan) at 1.
  rewrite (fold_render alias) ; [| done | | done].
  - apply render_all. intros f n Hin. apply foldl_done. left.
    apply Hole_holes in Hin. by apply (list_elem_of_fmap_2 fst) in Hin.
  - by apply (Forall_holes (fun _ n => plainName n = true) alias).
Qed.

(** C6, as amended: an explicit label is returned as it is; without one
    an empty alias gives the empty label, and so does any alias when
    dynamic labels are disabled; otherwise, provided the name of every
    placeholder the pattern finds in the alias has no brace and no white
    space at its ends, every placeholder is replaced by the fixed-table
    token of its name or else by the dimension-lookup token of that name,
    and the bytes outside the placeholders are kept. *)
Theorem C6_label (query : metricsDataQuery.t) (dynamicLabelsEnabled : bool) :
  (forall label, metricsDataQuery.Label query = Some label ->
                 getLabel query dynamicLabelsEnabled = label)
  /\ (metricsDataQuery.Label query = None ->
      metricsDataQuery.Alias query = "" ->
      getLabel query dynamicLabelsEnabled = "")
  /\ (metricsDataQuery.Label query = None ->
      dynamicLabelsEnabled = false ->
      getLabel query dynamicLabelsEnabled = "")
  /\ (metricsDataQuery.Label query = None ->
      dynamicLabelsEnabled = true ->
      Forall (fun m => plainName m.2 = true)
        (Regexp.legacyAliasRegexp_FindAllStringSubmatch
           (metricsDataQuery.Alias query)) ->
      getLabel query dynamicLabelsEnabled
      = specLabel (metricsDataQuery.Alias query)).
Proof.
  unfold getLabel. repeat split.
  - by intros label ->.
  - by intros -> ->.
  - intros -> ->. by destruct (String.eqb _ "").
  - intros -> -> Hplain.
    destruct (String.eqb_spec (metricsDataQuery.Alias query) "") as [-> | _];
      [done |].
    by apply migrate_spec.
Qed.
End Rendering.

Section LabelExamples.
Import Go Models Spec.

(** C6, as stated, fails: the first placeholder of this alias has the
    name "a{{b"; once its token is written, the text of the second
    placeholder also occurs across the end of that token, and the loop
    replaces it there too. *)
Lemma C6_counterexample :
  getLabel (aliasQuery "{{a{{b}}}{{b')}}") true
  = "${PROP('Dim.a${PROP('Dim.b')')}${PROP('Dim.b')')}"
  /\ specLabel "{{a{{b}}}{{b')}}"
     = "${PROP('Dim.a{{b')}}${PROP('Dim.b')')}"
  /\ getLabel (aliasQuery "{{a{{b}}}{{b')}}") true
     <> specLabel "{{a{{b}}}{{b')}}".
Proof. repeat split; vm_compute; (reflexivity || discriminate). Qed.

Lemma C6_label_witness :
  getLabel (aliasQuery "x {{ metric }} y {{InstanceId}}") true
  = specLabel "x {{ metric }} y {{InstanceId}}".
Proof.
  apply (proj2 (proj2 (proj2 (C6_label
           (aliasQuery "x {{ metric }} y {{InstanceId}}") true)))
           eq_refl eq_refl).
  vm_compute. repeat constructor.
Defined.

(** The substitution of the specification on that alias. *)
Example label_migrated :
  specLabel "x {{ metric }} y {{InstanceId}}"
  = "x ${PROP('MetricName')} y ${PROP('Dim.InstanceId')}".
Proof. vm_compute. reflexivity. Qed.

(** Two placeholders with plain names can still differ only in white
    space; each is replaced. *)
Example label_spacing :
  getLabel (aliasQuery "{{stat}}/{{  stat }}/{{label}}") true
  = "${PROP('Stat')}/${PROP('Stat')}/${LABEL}".
Proof. vm_compute. reflexivity. Qed.
End LabelExamples.

(** ** Kinds of expression *)

Section ExpressionKinds.
Import Go Models Spec.

Local Ltac kinds q :=
  destruct q as [? ? ? ? ? ? expression ? ? dims ? ? ? exact ? ? qt em acc];
  unfold GetGMDAPIMode, IsMathExpression, isSearchExpression,
    IsUserDefinedSearchExpression;
  cbn [CloudWatchQuery.MetricQueryType CloudWatchQuery.MetricEditorMode
       CloudWatchQuery.Expression];
  destruct qt as [| [qt | qt |]], em as [| [em | em |]];
  cbn [N.eqb Pos.eqb andb orb negb MetricQueryTypeSearch
       MetricQueryTypeQuery MetricEditorModeBuilder MetricEditorModeRaw].

(** X1: a Search query in Raw mode is a user-defined search expression
    when its expression contains "SEARCH(" and a math expression when it
    does not, never both; one of the two holds exactly when the API mode
    is MathExpression. *)
Theorem raw_search_kinds (q : CloudWatchQuery.t) :
  (GetGMDAPIMode q = GMDApiModeMathExpression
   <-> IsMathExpression q || IsUserDefinedSearchExpression q = true)
  /\ IsMathExpression q && IsUserDefinedSearchExpression q = false
  /\ (IsUserDefinedSearchExpression q = true
      <-> GetGMDAPIMode q = GMDApiModeMathExpression
          /\ Strings.Contains (CloudWatchQuery.Expression q) "SEARCH(" = true)
  /\ (IsMathExpression q = true
      <-> GetGMDAPIMode q = GMDApiModeMathExpression
          /\ Strings.Contains (CloudWatchQuery.Expression q) "SEARCH(" = false).
Proof.
  kinds q;
    try destruct (IsInferredSearchExpression _);
    try destruct (Strings.Contains expression "SEARCH(");
    cbn [andb orb negb]; intuition congruence.
Qed.

Lemma IsInferredSearchExpression_mode (q : CloudWatchQuery.t) :
  IsInferredSearchExpression q = true
  <-> GetGMDAPIMode q = GMDApiModeInferredSearchExpression.
Proof.
  unfold GetGMDAPIMode.
  destruct (IsInferredSearchExpression q) eqn:Hi.
  - unfold IsInferredSearchExpression in Hi.
    destruct (CloudWatchQuery.MetricQueryType q =? MetricQueryTypeSearch)%N;
      [| done].
    destruct (CloudWatchQuery.MetricEditorMode q =? MetricEditorModeBuilder)%N;
      done.
  - repeat match goal with
           | |- context [if ?b then _ else _] => destruct b
           end; split; congruence.
Qed.

(** X2: [isSearchExpression] holds exactly for the user-defined and the
    inferred search expressions; it never holds for a math expression;
    and a query is an inferred search expression exactly when its API
    mode is InferredSearchExpression. *)
Theorem search_expression_kinds (q : CloudWatchQuery.t) :
  isSearchExpression q
  = IsUserDefinedSearchExpression q || IsInferredSearchExpression q
  /\ IsMathExpression q && isSearchExpression q = false
  /\ (IsInferredSearchExpression q = true
      <-> GetGMDAPIMode q = GMDApiModeInferredSearchExpression).
Proof.
  split; [| split; [| apply IsInferredSearchExpression_mode]].
  - unfold isSearchExpression, IsUserDefinedSearchExpression,
      IsInferredSearchExpression.
    destruct (CloudWatchQuery.MetricQueryType q =? MetricQueryTypeSearch)%N;
      done.
  - unfold isSearchExpression, IsMathExpression, IsInferredSearchExpression.
    destruct (CloudWatchQuery.MetricQueryType q =? MetricQueryTypeSearch)%N;
      [| done].
    destruct (N.eqb_spec (CloudWatchQuery.MetricEditorMode q) MetricEditorModeRaw)
      as [-> | _]; [| done].
    cbn. by destruct (IsUserDefinedSearchExpression q).
Qed.

(** The loop answers true only at an entry with more than one value. *)
Lemma rangeMultiValued_true (entries : list (string * list string)) :
  rangeMultiValued entries = true ->
  exists kv, kv ∈ entries /\ 1 < length kv.2.
Proof.
  induction entries as [| [k values] entries IH]; [done |].
  cbn [rangeMultiValued].
  destruct (existsb _ values); [done |].
  destruct (Nat.ltb_spec 1 (length values)) as [Hlt | _].
  - intros _. exists (k, values). split; [by left | done].
  - intros (kv & Hin & Hlen)%IH. exists kv. split; [by right | done].
Qed.

(** X3: in whatever order the dimensions are ranged over, a query for
    which [IsMultiValuedDimensionExpression] holds is an inferred search
    expression, and its API mode is InferredSearchExpression. *)
Theorem multi_valued_is_inferred (q : CloudWatchQuery.t)
    (order : list (string * list string)) :
  order ≡ₚ map_to_list (CloudWatchQuery.Dimensions q) ->
  IsMultiValuedDimensionExpressionIn order q = true ->
  IsInferredSearchExpression q = true
  /\ GetGMDAPIMode q = GMDApiModeInferredSearchExpression.
Proof.
  intros Hperm Hmulti.
  assert (Hi : IsInferredSearchExpression q = true);
    [| split; [done | by apply IsInferredSearchExpression_mode]].
  unfold IsMultiValuedDimensionExpressionIn in Hmulti.
  unfold IsInferredSearchExpression.
  destruct (negb _ || negb _); [done |].
  apply rangeMultiValued_true in Hmulti as ([k values] & Hin & Hlen).
  rewrite Hperm in Hin. apply elem_of_map_to_list in Hin.
  destruct (match CloudWatchQuery.AccountId q with
            | Some a => String.eqb a "all"
            | None => false
            end); [done |].
  destruct (Nat.eqb_spec (size (CloudWatchQuery.Dimensions q)) 0) as [Hsz | _].
  { apply map_size_empty_iff in Hsz. rewrite Hsz in Hin.
    by rewrite lookup_empty in Hin. }
  destruct (CloudWatchQuery.MatchExact q); [| done]. cbn [negb].
  apply rangeSearch_spec. exists k, values. split; [done | by left].
Qed.

Lemma wildcard_test (values : list string) :
  existsb (fun v => String.eqb v "*") values = true <-> "*" ∈ values.
Proof.
  rewrite existsb_exists. split.
  - intros (v & Hin & ->%String.eqb_eq). by apply list_elem_of_In.
  - intros Hin. exists "*". split; [by apply list_elem_of_In | done].
Qed.

Lemma rangeMultiValued_plain (entries : list (string * list string)) :
  Forall (fun kv => "*" ∉ kv.2) entries ->
  rangeMultiValued entries = true
  <-> exists kv, kv ∈ entries /\ 1 < length kv.2.
Proof.
  intros Hplain. split; [apply rangeMultiValued_true |].
  induction Hplain as [| [k values] entries Hv Hrest IH].
  { by intros (kv & Hin%elem_of_nil & _). }
  cbn [rangeMultiValued].
  destruct (existsb _ values) eqn:Hstar.
  { apply wildcard_test in Hstar. done. }
  destruct (Nat.ltb_spec 1 (length values)) as [Hlt | Hle]; [done |].
  intros (kv & [-> | Hin]%elem_of_cons & Hlen); [simpl in Hlen; lia |].
  apply IH. by exists kv.
Qed.

(** X4: when no dimension has the value "*", a Search query in Builder
    mode is a multi-valued dimension expression exactly when some
    dimension has more than one value, in whatever order the dimensions
    are ranged over. *)
Theorem multi_valued_without_wildcard (q : CloudWatchQuery.t)
    (order : list (string * list string)) :
  order ≡ₚ map_to_list (CloudWatchQuery.Dimensions q) ->
  CloudWatchQuery.MetricQueryType q = MetricQueryTypeSearch ->
  CloudWatchQuery.MetricEditorMode q = MetricEditorModeBuilder ->
  (forall k values, CloudWatchQuery.Dimensions q !! k = Some values ->
                    "*" ∉ values) ->
  IsMultiValuedDimensionExpressionIn order q = true
  <-> exists k values, CloudWatchQuery.Dimensions q !! k = Some values
                       /\ 1 < length values.
Proof.
  intros Hperm Hqt Hem Hplain. unfold IsMultiValuedDimensionExpressionIn.
  rewrite Hqt, Hem. cbn [N.eqb negb orb MetricQueryTypeSearch
                         MetricEditorModeBuilder].
  rewrite rangeMultiValued_plain.
  - split.
    + intros ([k values] & Hin & Hlen). exists k, values. split; [| done].
      rewrite Hperm in Hin. by apply elem_of_map_to_list.
    + intros (k & values & Hk & Hlen). exists (k, values). split; [| done].
      rewrite Hperm. by apply elem_of_map_to_list.
  - apply Forall_forall. intros [k values] Hin. rewrite Hperm in Hin.
    apply elem_of_map_to_list in Hin. by apply (Hplain k).
Qed.

(** X5: the answer of [IsMultiValuedDimensionExpression] depends on the
    order in which the map is ranged over: when one dimension has the
    value "*" and another one has more than one value, none of them
    "*", one order of the dimensions gives false and another gives
    true. *)
Theorem multi_valued_order_dependent (q : CloudWatchQuery.t)
    (k1 k2 : string) (values1 values2 : list string) :
  CloudWatchQuery.MetricQueryType q = MetricQueryTypeSearch ->
  CloudWatchQuery.MetricEditorMode q = MetricEditorModeBuilder ->
  CloudWatchQuery.Dimensions q !! k1 = Some values1 -> "*" ∈ values1 ->
  CloudWatchQuery.Dimensions q !! k2 = Some values2 -> "*" ∉ values2 ->
  1 < length values2 ->
  exists order1 order2,
    order1 ≡ₚ map_to_list (CloudWatchQuery.Dimensions q)
    /\ order2 ≡ₚ map_to_list (CloudWatchQuery.Dimensions q)
    /\ IsMultiValuedDimensionExpressionIn order1 q = false
    /\ IsMultiValuedDimensionExpressionIn order2 q = true.
Proof.
  intros Hqt Hem Hk1 Hstar Hk2 Hplain Hlen.
  apply elem_of_map_to_list, elem_of_Permutation in Hk1 as [rest1 Hp1].
  apply elem_of_map_to_list, elem_of_Permutation in Hk2 as [rest2 Hp2].
  exists ((k1, values1) :: rest1), ((k2, values2) :: rest2).
  split; [done |]. split; [done |].
  unfold IsMultiValuedDimensionExpressionIn. rewrite Hqt, Hem.
  cbn [N.eqb negb orb MetricQueryTypeSearch MetricEditorModeBuilder
       rangeMultiValued].
  split.
  - apply wildcard_test in Hstar. by rewrite Hstar.
  - destruct (existsb _ values2) eqn:Hs.
    { apply wildcard_test in Hs. done. }
    by apply Nat.ltb_lt in Hlen as ->.
Qed.
End ExpressionKinds.

Section ExpressionKindExamples.
Import Go Models Spec.

Lemma multi_valued_is_inferred_witness :
  IsInferredSearchExpression
    (builderSearch {[ "InstanceId" := ["i-1"; "i-2"] ]} true None) = true
  /\ GetGMDAPIMode
       (builderSearch {[ "InstanceId" := ["i-1"; "i-2"] ]} true None)
     = GMDApiModeInferredSearchExpression.
Proof.
  apply (multi_valued_is_inferred
           (builderSearch {[ "InstanceId" := ["i-1"; "i-2"] ]} true None)
           (map_to_list {[ "InstanceId" := ["i-1"; "i-2"] ]})).
  - reflexivity.
  - vm_compute. reflexivity.
Defined.

Lemma multi_valued_without_wildcard_witness :
  IsMultiValuedDimensionExpression
    (builderSearch {[ "InstanceId" := ["i-1"; "i-2"] ]} true None) = true
  <-> exists k values,
        ({[ "InstanceId" := ["i-1"; "i-2"] ]} : gmap string (list string)) !! k
        = Some values
        /\ 1 < length values.
Proof.
  assert (Hplain : forall k values,
             ({[ "InstanceId" := ["i-1"; "i-2"] ]}
              : gmap string (list string)) !! k = Some values ->
             "*" ∉ values).
  { intros k values [_ <-]%lookup_singleton_Some Hin.
    apply elem_of_cons in Hin as [Hin | Hin]; [discriminate Hin |].
    apply elem_of_cons in Hin as [Hin | Hin]; [discriminate Hin |].
    by apply elem_of_nil in Hin. }
  exact (multi_valued_without_wildcard
           (builderSearch {[ "InstanceId" := ["i-1"; "i-2"] ]} true None)
           (map_to_list {[ "InstanceId" := ["i-1"; "i-2"] ]})
           (reflexivity _) eq_refl eq_refl Hplain).
Defined.

Lemma multi_valued_order_dependent_witness :
  exists order1 order2,
    order1 ≡ₚ map_to_list ({[ "InstanceId" := ["*"]; "Zone" := ["a"; "b"] ]}
                           : gmap string (list string))
    /\ order2 ≡ₚ map_to_list ({[ "InstanceId" := ["*"]; "Zone" := ["a"; "b"] ]}
                              : gmap string (list string))
    /\ IsMultiValuedDimensionExpressionIn order1
         (builderSearch {[ "InstanceId" := ["*"]; "Zone" := ["a"; "b"] ]}
            true None) = false
    /\ IsMultiValuedDimensionExpressionIn order2
         (builderSearch {[ "InstanceId" := ["*"]; "Zone" := ["a"; "b"] ]}
            true None) = true.
Proof.
  assert (H1 : ({[ "InstanceId" := ["*"]; "Zone" := ["a"; "b"] ]}
                : gmap string (list string)) !! "InstanceId" = Some ["*"])
    by apply lookup_insert_eq.
  assert (H2 : ({[ "InstanceId" := ["*"]; "Zone" := ["a"; "b"] ]}
                : gmap string (list string)) !! "Zone" = Some ["a"; "b"]).
  { rewrite lookup_insert_ne by discriminate. apply lookup_singleton_eq. }
  assert (H3 : "*" ∉ ["a"; "b"]).
  { intros Hin.
    apply elem_of_cons in Hin as [Hin | Hin]; [discriminate Hin |].
    apply elem_of_cons in Hin as [Hin | Hin]; [discriminate Hin |].
    by apply elem_of_nil in Hin. }
  exact (multi_valued_order_dependent
           (builderSearch {[ "InstanceId" := ["*"]; "Zone" := ["a"; "b"] ]}
              true None)
           "InstanceId" "Zone" ["*"] ["a"; "b"] eq_refl eq_refl H1
           (list_elem_of_here _ _) H2 H3 (le_n 2)).
Defined.
End ExpressionKindExamples.

(** ** Dimensions: invariants of the result *)

Section DimensionInvariants.
Import Go Models Spec.
Implicit Types (parsed : gmap string (list string)) (k : string).

(** The type assertion of the inner loop fails on the first element that
    is not a string. *)
Lemma appendValues_Panic k (values : list JSONValue) parsed :
  stringsOf values = None ->
  appendValues k values parsed
  = Panic "interface conversion: interface {} is not string".
Proof.
  revert parsed. induction values as [| v values IH]; intros parsed; [done |].
  unfold stringsOf. cbn [mapM]. fold (stringsOf values).
  destruct v as [| | | s | |]; try done. cbn [stringOf mbind option_bind].
  destruct (stringsOf values) as [ss |] eqn:Hss; [done |].
  intros _. cbn [appendValues]. by apply IH.
Qed.

(** The outer loop ends without error or panic only when every value is
    a string or a list of strings. *)
Lemma parseEntries_normal (order : list (string * JSONValue)) parsed parsed' :
  parseEntries order parsed = Ok parsed' ->
  Forall (fun kv => is_Some (normalValue kv.2)) order.
Proof.
  revert parsed. induction order as [| [k v] order IH]; intros parsed; [done |].
  cbn [parseEntries].
  destruct v as [| | | s | values |]; try done.
  - intros H. constructor; [by eexists | by eapply IH].
  - destruct (stringsOf values) as [ss |] eqn:Hss.
    + destruct (appendValues k values parsed) as [p | |]; [| done | done].
      cbn. intros H. constructor; [by exists ss | by eapply IH].
    + by rewrite appendValues_Panic.
Qed.

Lemma parseDimensionsIn_Ok (dimensions : gmap string JSONValue)
    (order : list (string * JSONValue)) parsed :
  order ≡ₚ map_to_list dimensions ->
  parseDimensionsIn order = Ok parsed ->
  forall k, parsed !! k = dimensions !! k ≫= entryOf.
Proof.
  intros Hperm. unfold parseDimensionsIn.
  destruct (parseEntries order ∅) as [parsed0 | |] eqn:Hrun; [| done | done].
  cbn. rewrite sortDimensions_id. intros [= <-].
  destruct (parseEntries_Ok order ∅) as (parsed1 & Hrun1 & Hlook).
  - by eapply parseEntries_normal.
  - rewrite Hperm. apply NoDup_fst_map_to_list.
  - intros k _. apply lookup_empty.
  - rewrite Hrun in Hrun1. injection Hrun1 as <-. intros k. rewrite Hlook.
    rewrite (list_to_map_proper order (map_to_list dimensions)), list_to_map_to_list;
      [| rewrite Hperm; apply NoDup_fst_map_to_list | done].
    destruct (dimensions !! k); [done | apply lookup_empty].
Qed.

(** X6: whenever [parseDimensions] returns a map, no key of it has an
    empty list of values, and every key of it is a key of the input, in
    whatever order the input is ranged over. *)
Theorem parseDimensions_nonempty (dimensions : gmap string JSONValue)
    (order : list (string * JSONValue)) parsed k (values : list string) :
  order ≡ₚ map_to_list dimensions ->
  parseDimensionsIn order = Ok parsed ->
  parsed !! k = Some values ->
  values <> [] /\ is_Some (dimensions !! k).
Proof.
  intros Hperm Hrun Hk.
  rewrite (parseDimensionsIn_Ok dimensions order parsed Hperm Hrun) in Hk.
  destruct (dimensions !! k) as [v |]; [| done]. split; [| by eexists].
  cbn in Hk. unfold entryOf in Hk.
  destruct (normalValue v) as [[| s l] |]; [done | | done].
  by injection Hk as <-.
Qed.

(** X7: [sortDimensions] returns a map equal to its argument: inserting
    the entries again in the order of the sorted keys changes nothing
    that can be read from a map. *)
Theorem sortDimensions_same_map parsed : sortDimensions parsed = parsed.
Proof.
  apply map_eq. intros k. unfold sortDimensions. rewrite foldl_insert_lookup.
  destruct (decide (k ∈ merge_sort String.le (map_to_list parsed).*1))
    as [Hin | Hnin].
  - rewrite merge_sort_Permutation in Hin.
    apply list_elem_of_fmap in Hin as ([k' l] & -> & Hin).
    apply elem_of_map_to_list in Hin. simpl. by rewrite Hin.
  - rewrite lookup_empty. symmetry. apply eq_None_not_Some.
    intros [l Hl]. apply Hnin. rewrite merge_sort_Permutation.
    apply list_elem_of_fmap. exists (k, l). split; [done |].
    by apply elem_of_map_to_list.
Qed.

Lemma parseEntries_bad_list (order : list (string * JSONValue)) parsed :
  Forall (fun kv => otherShape kv.2 = false) order ->
  Exists (fun kv => exists values, kv.2 = JArray values
                                   /\ stringsOf values = None) order ->
  parseEntries order parsed
  = Panic "interface conversion: interface {} is not string".
Proof.
  revert parsed. induction order as [| [k v] order IH]; intros parsed Hall Hex.
  { by apply Exists_nil in Hex. }
  apply Forall_cons in Hall as [Hv Hall].
  apply Exists_cons in Hex.
  destruct v as [| | | s | values |]; try done; cbn [parseEntries].
  - apply IH; [done |]. destruct Hex as [(values & Hv' & _) | Hex]; done.
  - destruct (stringsOf values) as [ss |] eqn:Hss.
    + apply stringsOf_Some in Hss as ->. rewrite appendValues_strings. cbn.
      apply IH; [done |].
      destruct Hex as [(values & [= <-] & Hnone) | Hex]; [| done].
      by rewrite stringsOf_strings in Hnone.
    + by rewrite appendValues_Panic.
Qed.

(** X8: a list with an element that is not a string never gives a map
    of dimensions, nor always an error: when every value is a string or
    a list the call panics on the type assertion, in whatever order the
    map is ranged over. *)
Theorem parseDimensions_bad_list (dimensions : gmap string JSONValue)
    (order : list (string * JSONValue)) k (values : list JSONValue) :
  order ≡ₚ map_to_list dimensions ->
  dimensions !! k = Some (JArray values) ->
  stringsOf values = None ->
  (forall parsed, parseDimensionsIn order <> Ok parsed)
  /\ ((forall k' v, dimensions !! k' = Some v -> otherShape v = false) ->
      exists msg, parseDimensionsIn order = Panic msg).
Proof.
  intros Hperm Hk Hnone. split.
  - intros parsed Hrun. unfold parseDimensionsIn in Hrun.
    destruct (parseEntries order ∅) as [parsed0 | |] eqn:Hrun0; [| done | done].
    apply parseEntries_normal in Hrun0.
    rewrite Forall_forall in Hrun0.
    destruct (Hrun0 (k, JArray values)) as [ss Hss].
    + rewrite Hperm. by apply elem_of_map_to_list.
    + cbn in Hss. congruence.
  - intros Hshape. eexists. unfold parseDimensionsIn.
    rewrite (parseEntries_bad_list order ∅); [done | |].
    + apply Forall_forall. intros [k' v] Hin. rewrite Hperm in Hin.
      apply elem_of_map_to_list in Hin. by apply (Hshape k').
    + apply Exists_exists. exists (k, JArray values). split.
      * rewrite Hperm. by apply elem_of_map_to_list.
      * by exists values.
Qed.
End DimensionInvariants.

(** ** Examples for the properties above *)

Section DimensionInvariantExamples.
Import Go Models Spec.

Lemma parseDimensions_nonempty_witness :
  ["a"] <> ([] : list string)
  /\ is_Some (({[ "Zone" := JString "a" ]} : gmap string JSONValue) !! "Zone").
Proof.
  assert (Hrun : parseDimensionsIn
                   (map_to_list ({[ "Zone" := JString "a" ]}
                                 : gmap string JSONValue))
                 = Ok {[ "Zone" := ["a"] ]})
    by (vm_compute; reflexivity).
  exact (parseDimensions_nonempty {[ "Zone" := JString "a" ]}
           (map_to_list {[ "Zone" := JString "a" ]}) {[ "Zone" := ["a"] ]}
           "Zone" ["a"] (reflexivity _) Hrun
           (lookup_singleton_eq "Zone" ["a"])).
Defined.

Lemma parseDimensions_bad_list_witness :
  (forall parsed,
     parseDimensions {[ "InstanceId" := JArray [JString "i-1"; JBool true] ]}
     <> Ok parsed)
  /\ ((forall k' v,
         ({[ "InstanceId" := JArray [JString "i-1"; JBool true] ]}
          : gmap string JSONValue) !! k' = Some v ->
         otherShape v = false) ->
      exists msg,
        parseDimensions
          {[ "InstanceId" := JArray [JString "i-1"; JBool true] ]}
        = Panic msg).
Proof.
  exact (parseDimensions_bad_list
           {[ "InstanceId" := JArray [JString "i-1"; JBool true] ]}
           (map_to_list {[ "InstanceId" := JArray [JString "i-1"; JBool true] ]})
           "InstanceId" [JString "i-1"; JBool true] (reflexivity _)
           (lookup_singleton_eq "InstanceId" _) eq_refl).
Defined.
End DimensionInvariantExamples.

(** ** Normalization: the fields of the resolved query *)

Section ResolvedQuery.
Import Go Models Spec.
Variable ParseDuration : string -> error + Time.Duration.
Variable json_Unmarshal : string -> error + metricsDataQuery.t.

Local Abbreviation validate := (validateAndSetDefaults ParseDuration).

Local Ltac tail_cases mdq cross :=
  destruct (metricsDataQuery.Hide mdq) as [[] |],
    (metricsDataQuery.MatchExact mdq) as [[] |],
    (String.eqb (metricsDataQuery.QueryType mdq) ""),
    (metricsDataQuery.MetricEditorMode mdq),
    (0 <? String.length (metricsDataQuery.Expression mdq))%nat, cross;
  simpl;
  match goal with
  | |- context [String.eqb ?r defaultRegion] =>
      destruct (String.eqb r defaultRegion)
  end;
  simpl.

(** The fields of the receiver after [validateAndSetDefaults] has
    returned nil. *)
Lemma validateAndSetDefaults_fields q refId mdq startTime endTime now entropy
    defaultRegionValue cross q' :
  validate q refId mdq startTime endTime now entropy defaultRegionValue cross
  = Ok q' ->
  getPeriod ParseDuration mdq startTime endTime now
  = Ok (CloudWatchQuery.Period q')
  /\ parseDimensions (metricsDataQuery.Dimensions mdq)
     = Ok (CloudWatchQuery.Dimensions q')
  /\ CloudWatchQuery.AccountId q'
     = (if cross then metricsDataQuery.AccountId mdq
        else CloudWatchQuery.AccountId q)
  /\ CloudWatchQuery.MetricEditorMode q'
     = match metricsDataQuery.MetricEditorMode mdq with
       | Some mode => mode
       | None =>
           if (0 <? String.length (metricsDataQuery.Expression mdq))%nat
           then MetricEditorModeRaw else MetricEditorModeBuilder
       end
  /\ CloudWatchQuery.Region q'
     = (if String.eqb (CloudWatchQuery.Region q) defaultRegion
        then defaultRegionValue else CloudWatchQuery.Region q)
  /\ (CloudWatchQuery.RefId q' = CloudWatchQuery.RefId q
      /\ CloudWatchQuery.Namespace q' = CloudWatchQuery.Namespace q
      /\ CloudWatchQuery.MetricName q' = CloudWatchQuery.MetricName q
      /\ CloudWatchQuery.Expression q' = CloudWatchQuery.Expression q
      /\ CloudWatchQuery.SqlExpression q' = CloudWatchQuery.SqlExpression q
      /\ CloudWatchQuery.Alias q' = CloudWatchQuery.Alias q
      /\ CloudWatchQuery.UsedExpression q' = CloudWatchQuery.UsedExpression q
      /\ CloudWatchQuery.TimezoneUTCOffset q'
         = CloudWatchQuery.TimezoneUTCOffset q
      /\ CloudWatchQuery.MetricQueryType q' = CloudWatchQuery.MetricQueryType q).
Proof.
  unfold validateAndSetDefaults.
  destruct (bool_decide _ && bool_decide _); [done |].
  destruct (getPeriod _ _ _ _ _) as [period | |]; simpl; [| done | done].
  destruct (parseDimensions _) as [dims | |]; [| done | done].
  destruct (String.eqb (metricsDataQuery.Id mdq) "").
  - destruct (Regexp.validMetricDataID refId); simpl.
    + intros [= <-]. tail_cases mdq cross; done.
    + destruct (UUID.NewString entropy) as [newUUID | |]; simpl; [| done | done].
      intros [= <-]. tail_cases mdq cross; done.
  - simpl. intros [= <-]. tail_cases mdq cross; done.
Qed.

(** The decoded query with the default region written into it. *)
Lemma ParseMetricDataQueries_steps q dataQueries startTime endTime now entropy
    defaultRegionParam dyn cross mdq cw :
  json_Unmarshal (DataQuery.JSON q) = inr mdq ->
  ParseMetricDataQueries ParseDuration json_Unmarshal q dataQueries startTime
    endTime now entropy defaultRegionParam dyn cross = Ok cw ->
  exists region cw1 statistic,
    region = (if String.eqb (metricsDataQuery.Region mdq) ""
              then defaultRegionParam else metricsDataQuery.Region mdq)
    /\ validate
         (freshQuery (DataQuery.RefID q) (metricsDataQuery.setRegion region mdq))
         (DataQuery.RefID q) (metricsDataQuery.setRegion region mdq)
         startTime endTime now entropy defaultRegionParam cross
       = Ok cw1
    /\ getStatistic mdq = Ok statistic
    /\ cw = CloudWatchQuery.setLabel (getLabel mdq dyn)
              (CloudWatchQuery.setStatistic statistic cw1).
Proof.
  intros Hdec. unfold ParseMetricDataQueries. rewrite Hdec.
  assert (Hsame : (if String.eqb (metricsDataQuery.Region mdq) ""
                   then metricsDataQuery.setRegion defaultRegionParam mdq
                   else mdq)
                  = metricsDataQuery.setRegion
                      (if String.eqb (metricsDataQuery.Region mdq) ""
                       then defaultRegionParam else metricsDataQuery.Region mdq)
                      mdq).
  { destruct (String.eqb (metricsDataQuery.Region mdq) ""); [done |].
    by destruct mdq. }
  rewrite Hsame. clear Hsame.
  set (region := if String.eqb (metricsDataQuery.Region mdq) "" then _ else _).
  destruct (String.eqb _ timeSeriesQuery); [| done].
  fold (freshQuery (DataQuery.RefID q) (metricsDataQuery.setRegion region mdq)).
  destruct (validateAndSetDefaults _ _ _ _ _ _ _ _ _ _) as [cw1 | |] eqn:Hv;
    [| done | done].
  unfold migrateLegacyQuery.
  change (getStatistic (metricsDataQuery.setRegion region mdq))
    with (getStatistic mdq).
  destruct (getStatistic mdq) as [statistic | |] eqn:Hst; simpl; [| done | done].
  intros [= <-]. exists region, cw1, statistic. repeat split; done.
Qed.

(** X10: in a resolved query MatchExact is the [matchExact] of the JSON
    and true without one, ReturnData is false exactly when [hide] is
    true, and the editor mode is the [metricEditorMode] of the JSON or,
    without one, Raw when there is an expression and Builder when there
    is none. *)
Theorem resolved_defaults q dataQueries startTime endTime now entropy
    defaultRegionParam dyn cross mdq cw :
  json_Unmarshal (DataQuery.JSON q) = inr mdq ->
  ParseMetricDataQueries ParseDuration json_Unmarshal q dataQueries startTime
    endTime now entropy defaultRegionParam dyn cross = Ok cw ->
  CloudWatchQuery.MatchExact cw = default true (metricsDataQuery.MatchExact mdq)
  /\ CloudWatchQuery.ReturnData cw
     = negb (default false (metricsDataQuery.Hide mdq))
  /\ CloudWatchQuery.MetricEditorMode cw
     = match metricsDataQuery.MetricEditorMode mdq with
       | Some mode => mode
       | None => if String.eqb (metricsDataQuery.Expression mdq) ""
                 then MetricEditorModeBuilder else MetricEditorModeRaw
       end.
Proof.
  intros Hdec Hok.
  destruct (ParseMetricDataQueries_Ok ParseDuration json_Unmarshal
              _ _ _ _ _ _ _ _ _ _ _ Hdec Hok) as [Hts _].
  destruct (ParseMetricDataQueries_steps _ _ _ _ _ _ _ _ _ _ _ Hdec Hok)
    as (region & cw1 & statistic & _ & Hv & _ & ->).
  pose proof (validateAndSetDefaults_Ok _ _ _ _ _ _ _ _ _ _ _ Hv)
    as (Hrd & Hme & _).
  apply validateAndSetDefaults_fields in Hv as (_ & _ & _ & Hmode & _).
  cbn in *. rewrite Hme, Hrd, Hmode, Hts. repeat split.
  destruct (metricsDataQuery.MetricEditorMode mdq); [done |].
  by destruct (metricsDataQuery.Expression mdq).
Qed.

(** X11: the region of a resolved query is the [region] of the JSON,
    except that an empty region and the region "default" give the
    default region handed to the call. *)
Theorem resolved_region q dataQueries startTime endTime now entropy
    defaultRegionParam dyn cross mdq cw :
  json_Unmarshal (DataQuery.JSON q) = inr mdq ->
  ParseMetricDataQueries ParseDuration json_Unmarshal q dataQueries startTime
    endTime now entropy defaultRegionParam dyn cross = Ok cw ->
  CloudWatchQuery.Region cw
  = if String.eqb (metricsDataQuery.Region mdq) ""
       || String.eqb (metricsDataQuery.Region mdq) "default"
    then defaultRegionParam
    else metricsDataQuery.Region mdq.
Proof.
  intros Hdec Hok.
  destruct (ParseMetricDataQueries_steps _ _ _ _ _ _ _ _ _ _ _ Hdec Hok)
    as (region & cw1 & statistic & -> & Hv & _ & ->).
  apply validateAndSetDefaults_fields in Hv as (_ & _ & _ & _ & Hr & _).
  cbn in *. rewrite Hr. unfold defaultRegion.
  destruct (String.eqb_spec (metricsDataQuery.Region mdq) "") as [He | He];
    cbn [orb].
  - by destruct (String.eqb defaultRegionParam "default").
  - done.
Qed.

(** X12: a resolved query carries the reference id of the data query and
    the namespace, metric name, expression, SQL expression, alias, time
    zone offset and query type of the JSON unchanged; its UsedExpression
    is empty; and it has the account id of the JSON when cross-account
    querying is enabled and none when it is not. *)
Theorem resolved_copies q dataQueries startTime endTime now entropy
    defaultRegionParam dyn cross mdq cw :
  json_Unmarshal (DataQuery.JSON q) = inr mdq ->
  ParseMetricDataQueries ParseDuration json_Unmarshal q dataQueries startTime
    endTime now entropy defaultRegionParam dyn cross = Ok cw ->
  CloudWatchQuery.RefId cw = DataQuery.RefID q
  /\ CloudWatchQuery.Namespace cw = metricsDataQuery.Namespace mdq
  /\ CloudWatchQuery.MetricName cw = metricsDataQuery.MetricName mdq
  /\ CloudWatchQuery.Expression cw = metricsDataQuery.Expression mdq
  /\ CloudWatchQuery.SqlExpression cw = metricsDataQuery.SqlExpression mdq
  /\ CloudWatchQuery.Alias cw = metricsDataQuery.Alias mdq
  /\ CloudWatchQuery.TimezoneUTCOffset cw
     = metricsDataQuery.TimezoneUTCOffset mdq
  /\ CloudWatchQuery.MetricQueryType cw = metricsDataQuery.MetricQueryType mdq
  /\ CloudWatchQuery.UsedExpression cw = ""
  /\ CloudWatchQuery.AccountId cw
     = if cross then metricsDataQuery.AccountId mdq else None.
Proof.
  intros Hdec Hok.
  destruct (ParseMetricDataQueries_steps _ _ _ _ _ _ _ _ _ _ _ Hdec Hok)
    as (region & cw1 & statistic & _ & Hv & _ & ->).
  apply validateAndSetDefaults_fields in Hv
    as (_ & _ & Hacc & _ & _ & H1 & H2 & H3 & H4 & H5 & H6 & H7 & H8 & H9).
  cbn in *. by rewrite H1, H2, H3, H4, H5, H6, H7, H8, H9, Hacc.
Qed.

(** X13: the statistic of a resolved query is the [statistic] of the
    JSON when there is one, whatever [statistics] holds, and otherwise
    the first element of [statistics]; its label is the one [getLabel]
    gives for the decoded query. *)
Theorem resolved_statistic q dataQueries startTime endTime now entropy
    defaultRegionParam dyn cross mdq cw :
  json_Unmarshal (DataQuery.JSON q) = inr mdq ->
  ParseMetricDataQueries ParseDuration json_Unmarshal q dataQueries startTime
    endTime now entropy defaultRegionParam dyn cross = Ok cw ->
  (forall statistic, metricsDataQuery.Statistic mdq = Some statistic ->
                     CloudWatchQuery.Statistic cw = statistic)
  /\ (metricsDataQuery.Statistic mdq = None ->
      exists rest,
        metricsDataQuery.Statistics mdq
        = Some (Some (CloudWatchQuery.Statistic cw) :: rest))
  /\ CloudWatchQuery.Label cw = getLabel mdq dyn.
Proof.
  intros Hdec Hok.
  destruct (ParseMetricDataQueries_steps _ _ _ _ _ _ _ _ _ _ _ Hdec Hok)
    as (region & cw1 & statistic & _ & _ & Hst & ->).
  cbn. unfold getStatistic in Hst. repeat split.
  - intros s Hs. rewrite Hs in Hst. by injection Hst.
  - intros Hnone. rewrite Hnone in Hst.
    destruct (metricsDataQuery.Statistics mdq) as [[| [s |] rest] |]; try done.
    injection Hst as <-. by exists rest.
Qed.

(** X14: the period and the dimensions of a resolved query are the ones
    [getPeriod] and [parseDimensions] return for the decoded query, so
    that no dimension of a resolved query has an empty list of values. *)
Theorem resolved_period_dimensions q dataQueries startTime endTime now entropy
    defaultRegionParam dyn cross mdq cw :
  json_Unmarshal (DataQuery.JSON q) = inr mdq ->
  ParseMetricDataQueries ParseDuration json_Unmarshal q dataQueries startTime
    endTime now entropy defaultRegionParam dyn cross = Ok cw ->
  getPeriod ParseDuration mdq startTime endTime now
  = Ok (CloudWatchQuery.Period cw)
  /\ parseDimensions (metricsDataQuery.Dimensions mdq)
     = Ok (CloudWatchQuery.Dimensions cw)
  /\ forall k, CloudWatchQuery.Dimensions cw !! k <> Some [].
Proof.
  intros Hdec Hok.
  destruct (ParseMetricDataQueries_steps _ _ _ _ _ _ _ _ _ _ _ Hdec Hok)
    as (region & cw1 & statistic & _ & Hv & _ & ->).
  apply validateAndSetDefaults_fields in Hv as (Hp & Hd & _).
  cbn in *. split; [done |]. split; [done |].
  intros k Hk.
  rewrite (parseDimensionsIn_Ok _ _ _ (reflexivity _) Hd) in Hk.
  destruct (metricsDataQuery.Dimensions mdq !! k) as [v |]; [| done].
  cbn in Hk. unfold entryOf in Hk.
  by destruct (normalValue v) as [[| ? ?] |].
Qed.

(** The inner loop returns no error, and [parseDimensions] has one
    error only. *)
Lemma appendValues_no_error (k : string) (values : list JSONValue)
    (parsed : gmap string (list string)) (err : error) :
  appendValues k values parsed <> Err err.
Proof.
  revert parsed. induction values as [| v values IH]; intros parsed; [done |].
  destruct v; try done. apply IH.
Qed.

Lemma parseEntries_error (order : list (string * JSONValue))
    (parsed : gmap string (list string)) (err : error) :
  parseEntries order parsed = Err err ->
  err = errorString "unknown type as dimension value".
Proof.
  revert parsed. induction order as [| [k v] order IH]; intros parsed; [done |].
  cbn [parseEntries]. destruct v as [| | | s | values |]; try by intros [= <-].
  - apply IH.
  - destruct (appendValues k values parsed) as [p | e | msg] eqn:Hp; cbn.
    + apply IH.
    + by apply appendValues_no_error in Hp.
    + done.
Qed.

Lemma parseDimensions_error (dimensions : gmap string JSONValue) (err : error) :
  parseDimensions dimensions = Err err ->
  err = errorString "unknown type as dimension value".
Proof.
  unfold parseDimensions, parseDimensionsIn.
  destruct (parseEntries _ ∅) as [p | e | msg] eqn:Hp; cbn; [done | | done].
  intros [= <-]. by eapply parseEntries_error.
Qed.

(** X15: for a time-series query every error of [ParseMetricDataQueries]
    is a [QueryError] with the reference id of the data query, around one
    of three errors: no statistic at all, a period that is no duration,
    or a dimension value of unknown type; and the first of the three is
    returned whatever the period and the dimensions are. *)
Theorem resolved_errors q dataQueries startTime endTime now entropy
    defaultRegionParam dyn cross mdq :
  json_Unmarshal (DataQuery.JSON q) = inr mdq ->
  metricsDataQuery.QueryType mdq = timeSeriesQuery ->
  (forall e,
     ParseMetricDataQueries ParseDuration json_Unmarshal q dataQueries
       startTime endTime now entropy defaultRegionParam dyn cross = Err e ->
     exists inner,
       e = QueryError inner (DataQuery.RefID q)
       /\ ((inner = errorString
                      "query must have either statistic or statistics field"
            /\ metricsDataQuery.Statistic mdq = None
            /\ metricsDataQuery.Statistics mdq = None)
           \/ (exists err,
                 ParseDuration (metricsDataQuery.Period mdq) = inl err
                 /\ inner = errorString
                              ("failed to parse period as duration: "
                               +:+ Error err))
           \/ inner = errorString
                        "failed to parse dimensions: unknown type as dimension value"))
  /\ (metricsDataQuery.Statistic mdq = None ->
      metricsDataQuery.Statistics mdq = None ->
      ParseMetricDataQueries ParseDuration json_Unmarshal q dataQueries
        startTime endTime now entropy defaultRegionParam dyn cross
      = Err (QueryError
               (errorString
                  "query must have either statistic or statistics field")
               (DataQuery.RefID q))).
Proof.
  intros Hdec Hts. unfold ParseMetricDataQueries. rewrite Hdec.
  set (mdq' := if String.eqb (metricsDataQuery.Region mdq) "" then _ else _).
  assert (Hsame : metricsDataQuery.QueryType mdq' = metricsDataQuery.QueryType mdq
                  /\ metricsDataQuery.Statistic mdq' = metricsDataQuery.Statistic mdq
                  /\ metricsDataQuery.Statistics mdq' = metricsDataQuery.Statistics mdq
                  /\ metricsDataQuery.Period mdq' = metricsDataQuery.Period mdq
                  /\ metricsDataQuery.Dimensions mdq'
                     = metricsDataQuery.Dimensions mdq).
  { subst mdq'. by destruct (String.eqb (metricsDataQuery.Region mdq) ""). }
  destruct Hsame as (Hqt & Hs & Hss & Hp & Hd).
  rewrite Hqt, Hts. cbn [String.eqb Ascii.eqb Bool.eqb timeSeriesQuery].
  unfold validateAndSetDefaults, migrateLegacyQuery. rewrite Hs, Hss.
  split.
  - intros e.
    destruct (bool_decide_reflect (metricsDataQuery.Statistic mdq = None))
      as [Hn1 | Hn1];
      destruct (bool_decide_reflect (metricsDataQuery.Statistics mdq = None))
      as [Hn2 | Hn2]; cbn [andb].
    1: { intros [= <-]. eexists; split; [reflexivity |]. by left. }
    all: unfold getPeriod at 1; rewrite Hp.
    all: destruct (String.eqb (Strings.ToLower _) "auto" || String.eqb _ "");
      [| destruct (Strconv.Atoi _);
         [| destruct (ParseDuration (metricsDataQuery.Period mdq)) as [err | d] eqn:Hpd]].
    all: cbn [mbind result_bind bind].
    all: try (intros [= <-]; eexists; split; [reflexivity |]; right; left;
              by exists err).
    all: rewrite Hd.
    all: destruct (parseDimensions (metricsDataQuery.Dimensions mdq))
           as [dims | err' | msg] eqn:Hdims;
      [| apply parseDimensions_error in Hdims as ->;
         intros [= <-]; eexists; split; [reflexivity |]; by do 2 right | done].
    all: destruct (String.eqb (metricsDataQuery.Id mdq') "");
      [destruct (Regexp.validMetricDataID (DataQuery.RefID q));
       [| unfold UUID.NewString;
          destruct (length entropy <? 16)%nat; [done |]] |].
    all: cbn [mbind result_bind bind].
    all: unfold getStatistic; rewrite Hs, Hss.
    all: by destruct (metricsDataQuery.Statistic mdq),
           (metricsDataQuery.Statistics mdq) as [[| [] ?] |].
  - intros -> ->. done.
Qed.

Lemma parseDimensions_succeeds (dimensions : gmap string JSONValue) :
  (exists parsed, parseDimensions dimensions = Ok parsed)
  <-> forall k v, dimensions !! k = Some v -> is_Some (normalValue v).
Proof.
  unfold parseDimensions, parseDimensionsIn. split.
  - intros [parsed Hrun] k v Hk.
    destruct (parseEntries _ ∅) as [parsed0 | |] eqn:Hrun0; [| done | done].
    apply parseEntries_normal in Hrun0. rewrite Forall_forall in Hrun0.
    by apply (Hrun0 (k, v)), elem_of_map_to_list.
  - intros Hshape.
    destruct (parseEntries_Ok (map_to_list dimensions) ∅)
      as (parsed & -> & _).
    + apply Forall_forall. intros [k v] Hin.
      apply elem_of_map_to_list in Hin. by apply (Hshape k).
    + apply NoDup_fst_map_to_list.
    + intros k _. apply lookup_empty.
    + by eexists.
Qed.

Lemma getStatistic_succeeds (mdq : metricsDataQuery.t) :
  (exists statistic, getStatistic mdq = Ok statistic)
  <-> is_Some (metricsDataQuery.Statistic mdq)
      \/ exists statistic rest,
           metricsDataQuery.Statistics mdq = Some (Some statistic :: rest).
Proof.
  unfold getStatistic.
  destruct (metricsDataQuery.Statistic mdq) as [s |].
  { split; [intros _; left; by eexists | intros _; by eexists]. }
  destruct (metricsDataQuery.Statistics mdq) as [[| [s |] rest] |].
  - split; [by intros [? ?] | by intros [[? ?] | (? & ? & ?)]].
  - split; [intros _; right; by eexists _, _ | intros _; by eexists].
  - split; [by intros [? ?] | by intros [[? ?] | (? & ? & ?)]].
  - split; [by intros [? ?] | by intros [[? ?] | (? & ? & ?)]].
Qed.

Lemma validateAndSetDefaults_succeeds q refId mdq startTime endTime now
    entropy defaultRegionValue cross :
  (exists q', validate q refId mdq startTime endTime now entropy
                defaultRegionValue cross = Ok q')
  <-> ~ (metricsDataQuery.Statistic mdq = None
         /\ metricsDataQuery.Statistics mdq = None)
      /\ (exists period,
            getPeriod ParseDuration mdq startTime endTime now = Ok period)
      /\ (exists parsed,
            parseDimensions (metricsDataQuery.Dimensions mdq) = Ok parsed)
      /\ (metricsDataQuery.Id mdq <> ""
          \/ Regexp.validMetricDataID refId = true
          \/ 16 <= length entropy).
Proof.
  unfold validateAndSetDefaults.
  destruct (bool_decide_reflect (metricsDataQuery.Statistic mdq = None))
    as [Hn1 | Hn1];
    destruct (bool_decide_reflect (metricsDataQuery.Statistics mdq = None))
    as [Hn2 | Hn2]; cbn [andb].
  1: { split; [by intros [? ?] | intros [H _]; by destruct H]. }
  all: destruct (getPeriod _ _ _ _ _) as [period | |]; cbn [mbind result_bind bind];
    [| split; [by intros [? ?] | by intros (_ & [? ?] & _)]
     | split; [by intros [? ?] | by intros (_ & [? ?] & _)]].
  all: destruct (parseDimensions _) as [dims | |];
    [| split; [by intros [? ?] | by intros (_ & _ & [? ?] & _)]
     | split; [by intros [? ?] | by intros (_ & _ & [? ?] & _)]].
  all: destruct (String.eqb_spec (metricsDataQuery.Id mdq) "") as [Hid | Hid];
    [destruct (Regexp.validMetricDataID refId);
     [| unfold UUID.NewString;
        destruct (Nat.ltb_spec (length entropy) 16) as [Hlen | Hlen]] |].
  all: cbn [mbind result_bind bind].
  all: split; [intros [q' Hq'] | intros (_ & _ & _ & Hcond)].
  all: try done.
  all: try (by eexists).
  all: try (split; [by intros [? ?] |]; split; [by eexists |];
            split; [by eexists |];
            first [by left | by right; left | by right; right]).
  all: destruct Hcond as [? | [? | ?]]; [done | done | lia].
Qed.

(** X16: [ParseMetricDataQueries] returns a resolved query exactly when
    the query type is "timeSeriesQuery", there is a [statistic] or a
    first element of [statistics] that is not null, [getPeriod] resolves
    the period, every dimension value is a string or a list of strings,
    and an identifier can be had: one is given, or the reference id is a
    valid one, or the random source delivers the 16 bytes of a UUID. *)
Theorem resolved_exactly q dataQueries startTime endTime now entropy
    defaultRegionParam dyn cross mdq :
  json_Unmarshal (DataQuery.JSON q) = inr mdq ->
  (exists cw,
     ParseMetricDataQueries ParseDuration json_Unmarshal q dataQueries
       startTime endTime now entropy defaultRegionParam dyn cross = Ok cw)
  <-> metricsDataQuery.QueryType mdq = timeSeriesQuery
      /\ (is_Some (metricsDataQuery.Statistic mdq)
          \/ exists statistic rest,
               metricsDataQuery.Statistics mdq
               = Some (Some statistic :: rest))
      /\ (exists period,
            getPeriod ParseDuration mdq startTime endTime now = Ok period)
      /\ (forall k v, metricsDataQuery.Dimensions mdq !! k = Some v ->
                      is_Some (normalValue v))
      /\ (metricsDataQuery.Id mdq <> ""
          \/ Regexp.validMetricDataID (DataQuery.RefID q) = true
          \/ 16 <= length entropy).
Proof.
  intros Hdec. rewrite <- parseDimensions_succeeds, <- getStatistic_succeeds.
  unfold ParseMetricDataQueries. rewrite Hdec.
  set (mdq' := if String.eqb (metricsDataQuery.Region mdq) "" then _ else _).
  assert (Hsame : metricsDataQuery.QueryType mdq' = metricsDataQuery.QueryType mdq
                  /\ metricsDataQuery.Statistic mdq' = metricsDataQuery.Statistic mdq
                  /\ metricsDataQuery.Statistics mdq' = metricsDataQuery.Statistics mdq
                  /\ metricsDataQuery.Id mdq' = metricsDataQuery.Id mdq
                  /\ getStatistic mdq' = getStatistic mdq
                  /\ getPeriod ParseDuration mdq' startTime endTime now
                     = getPeriod ParseDuration mdq startTime endTime now
                  /\ metricsDataQuery.Dimensions mdq'
                     = metricsDataQuery.Dimensions mdq).
  { subst mdq'. by destruct (String.eqb (metricsDataQuery.Region mdq) ""). }
  destruct Hsame as (Hqt & Hs & Hss & Hid & Hst & Hp & Hd).
  rewrite Hqt.
  destruct (String.eqb_spec (metricsDataQuery.QueryType mdq) timeSeriesQuery)
    as [Hts | Hts]; [| split; [by intros [? ?] | by intros [? _]]].
  match goal with
  | |- context [validateAndSetDefaults _ ?c ?r mdq' _ _ _ _ _ _] =>
      pose proof (validateAndSetDefaults_succeeds c r mdq' startTime endTime
                    now entropy defaultRegionParam cross) as Hv;
      set (v := validateAndSetDefaults ParseDuration c r mdq' startTime
                  endTime now entropy defaultRegionParam cross) in *
  end.
  clearbody v. rewrite Hs, Hss, Hid, Hp, Hd in Hv.
  destruct v as [cw1 | |].
  - destruct Hv as [(Hpres & Hper & Hdim & Hident) _]; [by eexists |].
    unfold migrateLegacyQuery. rewrite Hst.
    destruct (getStatistic mdq) as [statistic | |]; cbn [mbind result_bind bind].
    + split; [intros _ | intros _; by eexists].
      repeat split; try done. by eexists.
    + split; [by intros [? ?] | by intros (_ & [? ?] & _)].
    + split; [by intros [? ?] | by intros (_ & [? ?] & _)].
  - split; [by intros [? ?] |]. intros (_ & Hstat & Hper & Hdim & Hident).
    destruct Hv as [_ [? Hv]]; [| done].
    repeat split; try done.
    intros [Hn1 Hn2]. apply getStatistic_succeeds in Hstat.
    destruct Hstat as [[? Hh] | (? & ? & Hh)]; congruence.
  - split; [by intros [? ?] |]. intros (_ & Hstat & Hper & Hdim & Hident).
    destruct Hv as [_ [? Hv]]; [| done].
    repeat split; try done.
    intros [Hn1 Hn2]. apply getStatistic_succeeds in Hstat.
    destruct Hstat as [[? Hh] | (? & ? & Hh)]; congruence.
Qed.

(** The bytes of the text of a UUID are hexadecimal digits and hyphens. *)
Lemma hexDigit_id (b : ascii) :
  Regexp.isIdByte (UUID.hexDigit (N_of_ascii b / 16)) = true
  /\ Regexp.isIdByte (UUID.hexDigit (N_of_ascii b mod 16)) = true.
Proof. destruct b as [[] [] [] [] [] [] [] []]; by vm_compute. Qed.

Lemma hexEncode_id (bytes : list ascii) :
  allBytes (fun c => Regexp.isIdByte c || Ascii.eqb c "-")
    (UUID.hexEncode bytes) = true.
Proof.
  induction bytes as [| b bytes IH]; [done |].
  cbn [UUID.hexEncode allBytes]. destruct (hexDigit_id b) as [-> ->].
  by rewrite IH.
Qed.

Lemma replaceAll_hyphen_id (s : string) :
  allBytes (fun c => Regexp.isIdByte c || Ascii.eqb c "-") s = true ->
  Regexp.allIdBytes (Strings.ReplaceAll s "-" "") = true.
Proof.
  unfold Strings.ReplaceAll. induction s as [| c s IH]; [done |].
  cbn [allBytes Strings.replaceFrom Strings.HasPrefix String.length Nat.sub].
  intros [Hc Hs]%andb_true_iff.
  destruct (Ascii.eqb_spec "-" c) as [<- | Hne]; cbn [andb].
  - by apply IH.
  - cbn [Regexp.allIdBytes]. rewrite IH by done.
    destruct (Ascii.eqb_spec c "-") as [-> | _]; [done |].
    by rewrite orb_false_r in Hc; rewrite Hc.
Qed.

Lemma validMetricDataID_allIdBytes (s : string) :
  Regexp.validMetricDataID s = true -> Regexp.allIdBytes s = true.
Proof.
  destruct s as [| c s]; [done |]. cbn [Regexp.validMetricDataID Regexp.allIdBytes].
  intros [Hc ->]%andb_true_iff. unfold Regexp.isIdByte.
  unfold Regexp.isLower in Hc. by rewrite Hc.
Qed.

(** X17: the identifier made for a query without [id] is a valid one: it
    matches [^[a-z][a-zA-Z0-9_]*$], whether it is made of the reference
    id or of a UUID. *)
Theorem resolved_identifier_valid q dataQueries startTime endTime now entropy
    defaultRegionParam dyn cross mdq cw :
  json_Unmarshal (DataQuery.JSON q) = inr mdq ->
  ParseMetricDataQueries ParseDuration json_Unmarshal q dataQueries startTime
    endTime now entropy defaultRegionParam dyn cross = Ok cw ->
  metricsDataQuery.Id mdq = "" ->
  Regexp.validMetricDataID (CloudWatchQuery.Id cw) = true.
Proof.
  intros Hdec Hok Hid.
  destruct (ParseMetricDataQueries_Ok ParseDuration json_Unmarshal
              _ _ _ _ _ _ _ _ _ _ _ Hdec Hok)
    as (_ & mdq' & cw0 & cw1 & statistic & _ & _ & Hid' & _ & _ & _ & Hv & _ & ->).
  apply validateAndSetDefaults_Ok in Hv as (_ & _ & _ & Hgen).
  rewrite Hid', Hid in Hgen. specialize (Hgen eq_refl). cbn.
  assert (Hq : forall suffix,
             Regexp.allIdBytes suffix = true ->
             Regexp.validMetricDataID ("query" +:+ suffix) = true).
  { intros suffix Hs. rewrite !app_cons_s, app_nil_l_s.
    cbn [Regexp.validMetricDataID Regexp.allIdBytes]. by rewrite Hs. }
  destruct (Regexp.validMetricDataID (DataQuery.RefID q)) eqn:Hvalid.
  - rewrite Hgen. by apply Hq, validMetricDataID_allIdBytes.
  - destruct Hgen as (newUUID & Hnew & ->). apply Hq, replaceAll_hyphen_id.
    unfold UUID.NewString in Hnew.
    destruct (length entropy <? 16)%nat; [done |]. injection Hnew as <-.
    unfold UUID.String_. rewrite !allBytes_app, !hexEncode_id. done.
Qed.
End ResolvedQuery.

Section ResolvedQueryExamples.
Import Go Models Spec.

Lemma resolved_defaults_witness :
  exists cw,
    parseExample "a" [] hiddenQuery = Ok cw
    /\ CloudWatchQuery.MatchExact cw = true
    /\ CloudWatchQuery.ReturnData cw = false
    /\ CloudWatchQuery.MetricEditorMode cw = MetricEditorModeRaw.
Proof.
  destruct (parseExample "a" [] hiddenQuery) as [cw | e | msg] eqn:Hrun.
  - exists cw. split; [reflexivity |].
    exact (resolved_defaults noDuration (decodeAs hiddenQuery)
             (DataQuery.mk "a" "{}") [] 0%Z (4000 * Time.Second)%Z
             (4000 * Time.Second)%Z [] "us-east-1" true false hiddenQuery cw
             eq_refl Hrun).
  - vm_compute in Hrun. discriminate Hrun.
  - vm_compute in Hrun. discriminate Hrun.
Defined.

Lemma resolved_region_witness :
  exists cw,
    parseExample "a" [] hiddenQuery = Ok cw
    /\ CloudWatchQuery.Region cw = "us-east-1".
Proof.
  destruct (parseExample "a" [] hiddenQuery) as [cw | e | msg] eqn:Hrun.
  - exists cw. split; [reflexivity |].
    exact (resolved_region noDuration (decodeAs hiddenQuery)
             (DataQuery.mk "a" "{}") [] 0%Z (4000 * Time.Second)%Z
             (4000 * Time.Second)%Z [] "us-east-1" true false hiddenQuery cw
             eq_refl Hrun).
  - vm_compute in Hrun. discriminate Hrun.
  - vm_compute in Hrun. discriminate Hrun.
Defined.

Lemma resolved_copies_witness :
  exists cw,
    parseExample "a" [] plainQuery = Ok cw
    /\ CloudWatchQuery.RefId cw = "a"
    /\ CloudWatchQuery.Namespace cw = "AWS/EC2"
    /\ CloudWatchQuery.MetricName cw = "CPUUtilization"
    /\ CloudWatchQuery.Expression cw = ""
    /\ CloudWatchQuery.SqlExpression cw = ""
    /\ CloudWatchQuery.Alias cw = ""
    /\ CloudWatchQuery.TimezoneUTCOffset cw = ""
    /\ CloudWatchQuery.MetricQueryType cw = MetricQueryTypeSearch
    /\ CloudWatchQuery.UsedExpression cw = ""
    /\ CloudWatchQuery.AccountId cw = None.
Proof.
  destruct (parseExample "a" [] plainQuery) as [cw | e | msg] eqn:Hrun.
  - exists cw. split; [reflexivity |].
    exact (resolved_copies noDuration (decodeAs plainQuery)
             (DataQuery.mk "a" "{}") [] 0%Z (4000 * Time.Second)%Z
             (4000 * Time.Second)%Z [] "us-east-1" true false plainQuery cw
             eq_refl Hrun).
  - vm_compute in Hrun. discriminate Hrun.
  - vm_compute in Hrun. discriminate Hrun.
Defined.

Lemma resolved_statistic_witness :
  exists cw,
    parseExample "a" [] plainQuery = Ok cw
    /\ CloudWatchQuery.Statistic cw = "Average".
Proof.
  destruct (parseExample "a" [] plainQuery) as [cw | e | msg] eqn:Hrun.
  - exists cw. split; [reflexivity |].
    exact (proj1 (resolved_statistic noDuration (decodeAs plainQuery)
                    (DataQuery.mk "a" "{}") [] 0%Z (4000 * Time.Second)%Z
                    (4000 * Time.Second)%Z [] "us-east-1" true false
                    plainQuery cw eq_refl Hrun) "Average" eq_refl).
  - vm_compute in Hrun. discriminate Hrun.
  - vm_compute in Hrun. discriminate Hrun.
Defined.

Lemma resolved_period_dimensions_witness :
  exists cw,
    parseExample "a" [] dimensionQuery = Ok cw
    /\ getPeriod noDuration dimensionQuery 0%Z (4000 * Time.Second)%Z
         (4000 * Time.Second)%Z = Ok (CloudWatchQuery.Period cw)
    /\ parseDimensions (metricsDataQuery.Dimensions dimensionQuery)
       = Ok (CloudWatchQuery.Dimensions cw)
    /\ forall k, CloudWatchQuery.Dimensions cw !! k <> Some [].
Proof.
  destruct (parseExample "a" [] dimensionQuery) as [cw | e | msg] eqn:Hrun.
  - exists cw. split; [reflexivity |].
    exact (resolved_period_dimensions noDuration (decodeAs dimensionQuery)
             (DataQuery.mk "a" "{}") [] 0%Z (4000 * Time.Second)%Z
             (4000 * Time.Second)%Z [] "us-east-1" true false dimensionQuery
             cw eq_refl Hrun).
  - vm_compute in Hrun. discriminate Hrun.
  - vm_compute in Hrun. discriminate Hrun.
Defined.

Lemma resolved_errors_witness :
  ParseMetricDataQueries fiveMinutes (decodeAs brokenQuery)
    (DataQuery.mk "a" "{}") [] 0%Z (4000 * Time.Second)%Z
    (4000 * Time.Second)%Z [] "us-east-1" true false
  = Err (QueryError
           (errorString "query must have either statistic or statistics field")
           "a").
Proof.
  exact (proj2 (resolved_errors fiveMinutes (decodeAs brokenQuery)
                  (DataQuery.mk "a" "{}") [] 0%Z (4000 * Time.Second)%Z
                  (4000 * Time.Second)%Z [] "us-east-1" true false
                  brokenQuery eq_refl eq_refl) eq_refl eq_refl).
Defined.

Lemma resolved_exactly_witness :
  exists cw, parseExample "a" [] plainQuery = Ok cw.
Proof.
  apply (proj2 (resolved_exactly noDuration (decodeAs plainQuery)
                  (DataQuery.mk "a" "{}") [] 0%Z (4000 * Time.Second)%Z
                  (4000 * Time.Second)%Z [] "us-east-1" true false
                  plainQuery eq_refl)).
  split; [reflexivity |]. split; [left; by eexists |].
  split; [exists 300%Z; reflexivity |]. split.
  - intros k v Hk.
    change ((∅ : gmap string JSONValue) !! k = Some v) in Hk.
    by rewrite lookup_empty in Hk.
  - right. left. reflexivity.
Defined.

Lemma resolved_identifier_valid_witness :
  exists cw,
    parseExample "A1" (repeat "171"%char 16) plainQuery = Ok cw
    /\ Regexp.validMetricDataID (CloudWatchQuery.Id cw) = true.
Proof.
  destruct (parseExample "A1" (repeat "171"%char 16) plainQuery)
    as [cw | e | msg] eqn:Hrun.
  - exists cw. split; [reflexivity |].
    exact (resolved_identifier_valid noDuration (decodeAs plainQuery)
             (DataQuery.mk "A1" "{}") [] 0%Z (4000 * Time.Second)%Z
             (4000 * Time.Second)%Z (repeat "171"%char 16) "us-east-1" true
             false plainQuery cw eq_refl Hrun eq_refl).
  - vm_compute in Hrun. discriminate Hrun.
  - vm_compute in Hrun. discriminate Hrun.
Defined.
End ResolvedQueryExamples.

(** ** Deep link *)

Section DeepLinks.
Import Go Models Spec.
Variable ParseDuration : string -> error + Time.Duration.
Variable json_Unmarshal : string -> error + metricsDataQuery.t.
Variable formatRFC3339 : Time.Time -> string.
Variable json_Marshal : cloudWatchLink.t -> error + string.
Variable URL : Type.
Variable Values : Type.
Variable url_Parse : string -> error + URL.
Variable URL_Query : URL -> Values.
Variable Values_Set : string -> string -> Values -> Values.
Variable Values_Encode : Values -> string.
Variable URL_setRawQuery : string -> URL -> URL.
Variable URL_String : URL -> string.

Local Abbreviation deepLinkIn :=
  (BuildDeepLinkIn formatRFC3339 json_Marshal URL Values url_Parse URL_Query
     Values_Set Values_Encode URL_setRawQuery URL_String).

(** The loop over the dimensions panics exactly when it meets an entry
    without values. *)
Lemma appendDimensions_Panic (entries : list (string * list string))
    (metricStat : list linkValue) :
  (exists msg, appendDimensions entries metricStat = Panic msg)
  <-> exists k, (k, []) ∈ entries.
Proof.
  revert metricStat.
  induction entries as [| [k values] entries IH]; intros metricStat.
  { split; [by intros [? ?] | by intros [? ?%elem_of_nil]]. }
  cbn [appendDimensions]. destruct values as [| value values].
  - split; [intros _; exists k; by left | intros _; by eexists].
  - rewrite IH. split; intros [k' Hin]; exists k'.
    + by right.
    + by apply elem_of_cons in Hin as [[= _ ?] | Hin].
Qed.

Lemma appendDimensions_result (entries : list (string * list string))
    (metricStat : list linkValue) :
  (exists msg, appendDimensions entries metricStat = Panic msg)
  \/ exists items, appendDimensions entries metricStat = Ok items.
Proof.
  revert metricStat.
  induction entries as [| [k values] entries IH]; intros metricStat.
  { right. by eexists. }
  cbn [appendDimensions]. destruct values as [| value values]; [| apply IH].
  left. by eexists.
Qed.

Lemma BuildDeepLinkIn_Panic (q : CloudWatchQuery.t)
    (order : list (string * list string)) (startTime endTime : Time.Time)
    (dynamicLabelEnabled : bool) :
  (exists msg,
     deepLinkIn order q startTime endTime dynamicLabelEnabled = Panic msg)
  <-> IsMathExpression q = false
      /\ CloudWatchQuery.MetricQueryType q <> MetricQueryTypeQuery
      /\ isSearchExpression q = false
      /\ exists k, (k, []) ∈ order.
Proof.
  unfold BuildDeepLinkIn, linkMetrics.
  destruct (IsMathExpression q).
  { split; [by intros [? ?] | by intros [? _]]. }
  destruct (N.eqb_spec (CloudWatchQuery.MetricQueryType q) MetricQueryTypeQuery)
    as [Hq | Hq]; cbn [orb].
  { split; [by intros [? ?] | by intros (_ & ? & _)]. }
  destruct (isSearchExpression q).
  { cbn. split; [| by intros (_ & _ & ? & _)].
    intros [msg Hp]. destruct (json_Marshal _); [done |].
    by destruct (url_Parse _). }
  rewrite <- (appendDimensions_Panic order
                [LinkString (CloudWatchQuery.Namespace q);
                 LinkString (CloudWatchQuery.MetricName q)]).
  destruct (appendDimensions_result order
              [LinkString (CloudWatchQuery.Namespace q);
               LinkString (CloudWatchQuery.MetricName q)])
    as [[msg ->] | [items ->]]; cbn.
  - split; [intros _; repeat split; try done; by eexists | intros _; by eexists].
  - split; [| by intros (_ & _ & _ & ? & ?)].
    intros [msg Hp]. destruct (json_Marshal _); [done |].
    by destruct (url_Parse _).
Qed.

(** X9: [BuildDeepLink] panics exactly when the query is neither a math
    expression, nor a SQL query, nor a search expression, and one of its
    dimensions has an empty list of values, in whatever order the
    dimensions are ranged over. *)
Theorem BuildDeepLink_panics (q : CloudWatchQuery.t)
    (order : list (string * list string)) (startTime endTime : Time.Time)
    (dynamicLabelEnabled : bool) :
  order ≡ₚ map_to_list (CloudWatchQuery.Dimensions q) ->
  (exists msg,
     deepLinkIn order q startTime endTime dynamicLabelEnabled = Panic msg)
  <-> IsMathExpression q = false
      /\ CloudWatchQuery.MetricQueryType q <> MetricQueryTypeQuery
      /\ isSearchExpression q = false
      /\ exists k, CloudWatchQuery.Dimensions q !! k = Some [].
Proof.
  intros Hperm. rewrite BuildDeepLinkIn_Panic.
  assert (Hempty : (exists k, (k, []) ∈ order)
                   <-> exists k, CloudWatchQuery.Dimensions q !! k = Some []).
  { split; intros [k Hk]; exists k.
    - rewrite Hperm in Hk. by apply elem_of_map_to_list.
    - rewrite Hperm. by apply elem_of_map_to_list. }
  by rewrite Hempty.
Qed.

(** X18: [BuildDeepLink] does not panic on a query resolved by
    [ParseMetricDataQueries]: it returns a link or an error, in whatever
    order the dimensions are ranged over. *)
Theorem resolved_deep_link q dataQueries startTime endTime now entropy
    defaultRegionParam dyn cross mdq cw
    (order : list (string * list string)) (linkStart linkEnd : Time.Time)
    (dynamicLabelEnabled : bool) :
  json_Unmarshal (DataQuery.JSON q) = inr mdq ->
  ParseMetricDataQueries ParseDuration json_Unmarshal q dataQueries startTime
    endTime now entropy defaultRegionParam dyn cross = Ok cw ->
  order ≡ₚ map_to_list (CloudWatchQuery.Dimensions cw) ->
  (exists link,
     deepLinkIn order cw linkStart linkEnd dynamicLabelEnabled = Ok link)
  \/ exists e,
       deepLinkIn order cw linkStart linkEnd dynamicLabelEnabled = Err e.
Proof.
  intros Hdec Hok Hperm.
  destruct (deepLinkIn order cw linkStart linkEnd dynamicLabelEnabled)
    as [link | e | msg] eqn:Hlink; [left; by eexists | right; by eexists |].
  exfalso.
  destruct (proj1 (BuildDeepLinkIn_Panic cw order linkStart linkEnd
                     dynamicLabelEnabled)) as (_ & _ & _ & k & Hk);
    [by eexists |].
  rewrite Hperm in Hk. apply elem_of_map_to_list in Hk.
  destruct (ParseMetricDataQueries_steps ParseDuration json_Unmarshal
              _ _ _ _ _ _ _ _ _ _ _ Hdec Hok)
    as (region & cw1 & statistic & _ & Hv & _ & ->).
  apply validateAndSetDefaults_fields in Hv as (_ & Hd & _).
  cbn in Hk, Hd.
  rewrite (parseDimensionsIn_Ok _ _ _ (reflexivity _) Hd) in Hk.
  destruct (metricsDataQuery.Dimensions mdq !! k) as [v |]; [| done].
  cbn in Hk. unfold entryOf in Hk.
  by destruct (normalValue v) as [[| ? ?] |].
Qed.
End DeepLinks.

(** ** Period: range, durations, monotonicity *)

Section PeriodBounds.
Import Go Models Spec.
Variable ParseDuration : string -> error + Time.Duration.

Lemma firstAtLeast_member (datapoints : Z) (periods : list Z) :
  periods <> [] ->
  firstAtLeast datapoints periods (List.last periods 0%Z) ∈ periods.
Proof.
  intros Hne. induction periods as [| value rest IH]; [done |].
  cbn [firstAtLeast]. destruct (datapoints <=? value)%Z; [by left |].
  destruct rest as [| value' rest]; [by left |].
  right. by apply IH.
Qed.

Lemma getRetainedPeriods_subset (timeSince : Time.Duration) (period : Z) :
  period ∈ getRetainedPeriods timeSince ->
  period ∈ [60; 300; 900; 3600; 21600; 86400]%Z.
Proof.
  unfold getRetainedPeriods.
  repeat destruct (_ <? _)%Z; intros Hin;
    repeat (apply elem_of_cons in Hin as [-> | Hin];
            [repeat first [by left | right] |]);
    by apply elem_of_nil in Hin.
Qed.

(** X19: an automatic period is always one of the periods retained for
    the age of the start of the range, hence one of 60, 300, 900, 3600,
    21600 and 86400 seconds, whatever the range is, even when it ends
    before it starts. *)
Theorem automatic_period_retained (query : metricsDataQuery.t)
    (startTime endTime now : Time.Time) :
  isAuto (metricsDataQuery.Period query) ->
  exists period,
    getPeriod ParseDuration query startTime endTime now = Ok period
    /\ period ∈ getRetainedPeriods (Time.Since now startTime)
    /\ period ∈ [60; 300; 900; 3600; 21600; 86400]%Z.
Proof.
  intros Hauto%isAuto_test. unfold getPeriod. rewrite Hauto.
  eexists. split; [reflexivity |].
  assert (Hin : firstAtLeast (datapointsOf (Time.Sub endTime startTime))
                  (getRetainedPeriods (Time.Since now startTime))
                  (List.last (getRetainedPeriods (Time.Since now startTime)) 0%Z)
                ∈ getRetainedPeriods (Time.Since now startTime)).
  { apply firstAtLeast_member. unfold getRetainedPeriods.
    by repeat destruct (_ <? _)%Z. }
  split; [exact Hin |]. by eapply getRetainedPeriods_subset.
Qed.

(** X20: a period that is neither automatic nor an integer is parsed as
    a duration: a duration of a whole number of seconds, not negative,
    gives that number, and a text that is no duration gives the error
    "failed to parse period as duration: " followed by the text of the
    parser's error. *)
Theorem duration_period (query : metricsDataQuery.t)
    (startTime endTime now : Time.Time) :
  ~ isAuto (metricsDataQuery.Period query) ->
  Strconv.Atoi (metricsDataQuery.Period query) = None ->
  (forall k, ParseDuration (metricsDataQuery.Period query)
             = inr (k * Time.Second)%Z ->
             (0 <= k)%Z -> (k * Time.Second <= Time.maxDuration)%Z ->
             getPeriod ParseDuration query startTime endTime now = Ok k)
  /\ (forall err, ParseDuration (metricsDataQuery.Period query) = inl err ->
                  getPeriod ParseDuration query startTime endTime now
                  = Err (errorString ("failed to parse period as duration: "
                                      +:+ Error err))).
Proof.
  intros Hno Hint.
  assert (Hauto : String.eqb (Strings.ToLower (metricsDataQuery.Period query))
                    "auto"
                  || String.eqb (metricsDataQuery.Period query) "" = false).
  { destruct (_ || _) eqn:Ht; [| done]. by apply isAuto_test in Ht. }
  unfold getPeriod. rewrite Hauto, Hint. split.
  - intros k -> Hk Hmax. f_equal.
    destruct (Z.eq_dec k 0%Z) as [-> | Hk0]; [by vm_compute |].
    assert (Hr : (0 < k < 2 ^ 53)%Z).
    { unfold Time.maxDuration, Time.Second in Hmax. lia. }
    rewrite Seconds_whole by done. by apply toInt_ofInt.
  - by intros err ->.
Qed.

Lemma firstAtLeast_monotone (d d' age : Z) :
  (d <= d')%Z ->
  let periods := retentionCandidates age in
  (firstAtLeast d periods (List.last periods 0%Z)
   <= firstAtLeast d' periods (List.last periods 0%Z))%Z.
Proof.
  intros Hd. unfold retentionCandidates.
  repeat destruct (_ <? _)%Z; cbn [firstAtLeast List.last];
    repeat match goal with
           | |- context [(?a <=? ?b)%Z] => destruct (Z.leb_spec a b)
           end; lia.
Qed.

(** X21: among ranges of whole seconds that start at the same instant, a
    longer range never gets a shorter automatic period. *)
Theorem automatic_period_monotone (query : metricsDataQuery.t)
    (startTime endTime endTime' now : Time.Time) (k k' : Z) :
  isAuto (metricsDataQuery.Period query) ->
  (endTime - startTime = k * Time.Second)%Z ->
  (endTime' - startTime = k' * Time.Second)%Z ->
  (0 <= k <= k')%Z -> (k' * Time.Second <= Time.maxDuration)%Z ->
  exists period period',
    getPeriod ParseDuration query startTime endTime now = Ok period
    /\ getPeriod ParseDuration query startTime endTime' now = Ok period'
    /\ (period <= period')%Z.
Proof.
  intros Hauto%isAuto_test Hk Hk' Hle Hmax. unfold getPeriod. rewrite Hauto.
  assert (Hsub : forall e j, (e - startTime = j * Time.Second)%Z ->
                             (0 <= j <= k')%Z ->
                             datapointsOf (Time.Sub e startTime)
                             = (- ((- j) / 2000))%Z).
  { intros e j He Hj.
    assert (Time.Sub e startTime = (j * Time.Second)%Z) as ->.
    { unfold Time.Sub. rewrite He.
      unfold Time.minDuration, Time.maxDuration, Time.Second in *.
      destruct (Z.ltb_spec (j * 1000000000) (- 2 ^ 63)); [lia |].
      destruct (Z.ltb_spec (2 ^ 63 - 1) (j * 1000000000)); [lia | done]. }
    apply datapoints_whole_seconds.
    unfold Time.maxDuration, Time.Second in Hmax. lia. }
  rewrite (Hsub endTime k Hk), (Hsub endTime' k' Hk') by lia.
  rewrite getRetainedPeriods_table. eexists _, _.
  split; [reflexivity |]. split; [reflexivity |].
  apply firstAtLeast_monotone.
  apply Z.opp_le_mono. rewrite !Z.opp_involutive.
  apply Z.div_le_mono; lia.
Qed.
End PeriodBounds.

(** ** Label: aliases without placeholder *)

Section PlainAlias.
Import Go Models Spec.

Lemma matchAt_braces (s : string) :
  Strings.HasPrefix s "{{" = false -> Regexp.matchAt s = None.
Proof.
  intros Hp. destruct (Regexp.matchAt s) as [[full name] |] eqn:Hm; [| done].
  apply matchAt_sound in Hm as [Hshape [rest ->]].
  apply placeholder_head in Hshape as [body ->].
  rewrite !(app_cons_s "{") in Hp. done.
Qed.

Lemma findAllFrom_plain (skip : nat) (s : string) :
  Strings.Contains s "{{" = false -> Regexp.findAllFrom skip s = [].
Proof.
  revert skip. induction s as [| c s IH]; intros skip; [done |].
  cbn [Strings.Contains]. intros [Hp Hs]%orb_false_iff.
  cbn [Regexp.findAllFrom]. destruct skip as [| n]; [| by apply IH].
  rewrite (matchAt_braces _ Hp). by apply IH.
Qed.

(** X22: with dynamic labels enabled and no explicit label, an alias in
    which "{{" does not occur is returned as it is. *)
Theorem plain_alias_kept (query : metricsDataQuery.t) :
  metricsDataQuery.Label query = None ->
  Strings.Contains (metricsDataQuery.Alias query) "{{" = false ->
  getLabel query true = metricsDataQuery.Alias query.
Proof.
  intros Hl Hplain. unfold getLabel. rewrite Hl.
  destruct (String.eqb_spec (metricsDataQuery.Alias query) "") as [-> | _];
    [done |].
  unfold Regexp.legacyAliasRegexp_FindAllStringSubmatch.
  by rewrite findAllFrom_plain.
Qed.
End PlainAlias.

(** ** CSV framing: what the framer is given *)

Section FramerInput.
Import Go Infinity.
Variable QueryTypeTSV : string.

End FramerInput.

(** ** Label names *)

Section LabelNames.
Import Go Metricutil Spec.
Variable Quote : string -> string.

Local Abbreviation sanitize := (SanitizeLabelName Quote).

Lemma length_zero (s : string) : (String.length s =? 0)%nat = true <-> s = "".
Proof. destruct s; [done |]. split; [done | discriminate]. Qed.

Lemma written_id (i : nat) (b c : ascii) :
  written i b = Some c -> Regexp.isIdByte c = true.
Proof.
  unfold written, Regexp.isIdByte.
  destruct (Regexp.between 97 122 b) eqn:H1; [by intros [= <-]; rewrite H1 |].
  destruct (Regexp.between 65 90 b) eqn:H2;
    [by intros [= <-]; rewrite H1, H2 |].
  destruct (Ascii.eqb b "_") eqn:H3;
    [intros [= <-]; rewrite H1, H2, H3; by rewrite !orb_true_r |].
  destruct (Regexp.between 48 57 b) eqn:H4; cbn [orb andb].
  - destruct (0 <? i)%nat; [by intros [= <-]; rewrite H1, H2, H4 |].
    by destruct (Ascii.eqb b " "); intros [= <-].
  - by destruct (Ascii.eqb b " "); intros [= <-].
Qed.

Lemma sanitizeFrom_id (i : nat) (name : string) :
  Regexp.allIdBytes (sanitizeFrom i name) = true
  /\ String.length (sanitizeFrom i name) <= String.length name.
Proof.
  revert i. induction name as [| b name IH]; intros i; [done |].
  cbn [sanitizeFrom]. destruct (IH (S i)) as [Hid Hlen].
  destruct (written i b) as [c |] eqn:Hw.
  - cbn [Regexp.allIdBytes String.length].
    rewrite (written_id _ _ _ Hw), Hid. split; [done | lia].
  - cbn [String.length]. split; [done | lia].
Qed.

(** X24: a name returned by [SanitizeLabelName] is not empty, is made of
    ASCII letters, digits and underscores only, and is not longer than
    the name given. *)
Theorem sanitized_bytes (name out : string) :
  sanitize name = Ok out ->
  out <> ""
  /\ Regexp.allIdBytes out = true
  /\ String.length out <= String.length name.
Proof.
  unfold SanitizeLabelName.
  destruct (String.length name =? 0)%nat; [done |].
  destruct (String.length (sanitizeFrom 0 name) =? 0)%nat eqn:Hz; [done |].
  intros [= <-]. destruct (sanitizeFrom_id 0 name) as [Hid Hlen].
  split; [| done]. intros He. by rewrite He in Hz.
Qed.

Lemma sanitizeFrom_fixed (i : nat) (name : string) :
  sanitizeFrom (S i) name = name <-> Regexp.allIdBytes name = true.
Proof.
  revert i. induction name as [| b name IH]; intros i; [done |].
  cbn [sanitizeFrom Regexp.allIdBytes]. rewrite andb_true_iff, <- (IH (S i)).
  destruct (written (S i) b) as [c |] eqn:Hw.
  - split.
    + intros [= -> Hn]. split; [by eapply written_id | done].
    + intros [Hb ->]. f_equal. revert Hw. unfold written.
      unfold Regexp.isIdByte in Hb. cbn [Nat.ltb Nat.leb andb].
      rewrite andb_true_r.
      replace (Regexp.between 97 122 b || Regexp.between 65 90 b
               || Ascii.eqb b "_" || Regexp.between 48 57 b)
        with true; [by intros [= <-] |].
      symmetry. revert Hb. repeat destruct (Regexp.between _ _ b); simpl; auto.
      all: by destruct (Ascii.eqb b "_").
  - split.
    + intros Heq. exfalso.
      pose proof (sanitizeFrom_id (S (S i)) name) as [_ Hlen].
      rewrite Heq in Hlen. cbn [String.length] in Hlen. lia.
    + intros [Hb _]. exfalso. revert Hw. unfold written.
      unfold Regexp.isIdByte in Hb. cbn [Nat.ltb Nat.leb andb].
      rewrite andb_true_r.
      replace (Regexp.between 97 122 b || Regexp.between 65 90 b
               || Ascii.eqb b "_" || Regexp.between 48 57 b)
        with true; [done |].
      symmetry. revert Hb. repeat destruct (Regexp.between _ _ b); simpl; auto.
      all: by destruct (Ascii.eqb b "_").
Qed.

Lemma written_first (b c : ascii) :
  written 0 b = Some c
  <-> (Regexp.between 97 122 b || Regexp.between 65 90 b || Ascii.eqb b "_"
       = true /\ c = b)
      \/ (b = " "%char /\ c = "_"%char).
Proof.
  unfold written. cbn [Nat.ltb Nat.leb andb]. rewrite andb_false_r, orb_false_r.
  destruct (Regexp.between 97 122 b || Regexp.between 65 90 b || Ascii.eqb b "_")
    eqn:Hk.
  - split; [intros [= <-]; by left |]. intros [[_ ->] | [-> ->]]; [done |].
    by vm_compute in Hk.
  - destruct (Ascii.eqb_spec b " ") as [-> | Hsp].
    + split; [intros [= <-]; by right | by intros [[? _] | [_ ->]]].
    + split; [done | by intros [[? _] | [? _]]].
Qed.

(** X25: [SanitizeLabelName] returns the name it is given exactly when
    that name starts with an ASCII letter or an underscore and goes on
    with ASCII letters, digits and underscores. *)
Theorem sanitized_unchanged (name : string) :
  sanitize name = Ok name
  <-> exists b rest,
        name = String b rest
        /\ Regexp.between 97 122 b || Regexp.between 65 90 b
           || Ascii.eqb b "_" = true
        /\ Regexp.allIdBytes rest = true.
Proof.
  unfold SanitizeLabelName. destruct name as [| b rest].
  { split; [done | by intros (? & ? & ? & _)]. }
  cbn [String.length Nat.eqb sanitizeFrom].
  pose proof (written_first b) as Hw.
  pose proof (sanitizeFrom_fixed 0 rest) as Hfix.
  pose proof (sanitizeFrom_id 1 rest) as [_ Hlen].
  destruct (written 0 b) as [c |].
  - cbn [String.length Nat.eqb]. split.
    + intros [= -> Hrest]. exists b, rest. split; [done |].
      destruct (proj1 (Hw b) eq_refl) as [[Hk _] | [-> Hc]]; [| done].
      split; [done | by apply Hfix].
    + intros (b' & rest' & [= <- <-] & Hk & Hid).
      assert (Some c = Some b) as [= ->] by (apply Hw; by left).
      f_equal. f_equal. by apply Hfix.
  - split.
    + destruct (String.length (sanitizeFrom 1 rest) =? 0)%nat; [done |].
      intros [= Heq]. rewrite Heq in Hlen. cbn [String.length] in Hlen. lia.
    + intros (b' & rest' & [= <- <-] & Hk & Hid).
      assert (None = Some b) by (apply Hw; by left). done.
Qed.

Lemma digit_first_changed (d : ascii) (out : string) :
  Regexp.between 48 57 d = true -> sanitize (String d out) <> Ok (String d out).
Proof.
  intros Hd. unfold SanitizeLabelName.
  cbn [String.length Nat.eqb sanitizeFrom].
  assert (written 0 d = None) as ->.
  { destruct (written 0 d) as [c |] eqn:Hw; [| done].
    apply written_first in Hw as [[Hk _] | [-> _]]; [| done].
    exfalso. revert Hk Hd. unfold Regexp.between.
    destruct (N_of_ascii d) as [| p] eqn:Hn; [done |].
    rewrite !orb_true_iff, !andb_true_iff, !N.leb_le.
    intros [[[? ?] | [? ?]] | He]; intros [? ?]; try lia.
    apply Ascii.eqb_eq in He. subst d. vm_compute in Hn.
    injection Hn as <-. lia. }
  pose proof (sanitizeFrom_id 1 out) as [_ Hlen].
  destruct (String.length (sanitizeFrom 1 out) =? 0)%nat; [done |].
  intros [= Heq]. rewrite Heq in Hlen. cbn [String.length] in Hlen. lia.
Qed.

(** X26: a digit is dropped at the start of the name only, so that the
    result can start with a digit: when the first byte is neither a
    letter, nor an underscore, nor a space and the second one is a
    digit, the result starts with that digit, and [SanitizeLabelName]
    does not return this result unchanged when given it. *)
Theorem sanitized_leading_digit (b d : ascii) (rest : string) :
  Regexp.between 97 122 b || Regexp.between 65 90 b || Ascii.eqb b "_"
  || Ascii.eqb b " " = false ->
  Regexp.between 48 57 d = true ->
  exists out,
    sanitize (String b (String d rest)) = Ok (String d out)
    /\ sanitize (String d out) <> Ok (String d out).
Proof.
  intros Hb Hd. exists (sanitizeFrom 2 rest). split.
  - unfold SanitizeLabelName. cbn [String.length Nat.eqb sanitizeFrom].
    apply orb_false_iff in Hb as [Hb Hsp].
    assert (written 0 b = None) as ->.
    { unfold written. cbn [Nat.ltb Nat.leb andb].
      by rewrite andb_false_r, orb_false_r, Hb, Hsp. }
    assert (written 1 d = Some d) as ->.
    { unfold written. cbn [Nat.ltb Nat.leb]. rewrite Hd. cbn [andb].
      by rewrite orb_true_r. }
    done.
  - by apply digit_first_changed.
Qed.

Lemma written_None (i : nat) (b : ascii) :
  written i b = None
  <-> Regexp.between 97 122 b || Regexp.between 65 90 b || Ascii.eqb b "_"
      || Ascii.eqb b " " || (Regexp.between 48 57 b && (0 <? i)%nat) = false.
Proof.
  unfold written.
  destruct (Regexp.between 97 122 b), (Regexp.between 65 90 b),
    (Ascii.eqb b "_"), (Regexp.between 48 57 b), (0 <? i)%nat,
    (Ascii.eqb b " "); cbn; split; done.
Qed.

Lemma sanitizeFrom_empty (i : nat) (name : string) :
  sanitizeFrom i name = ""
  <-> forall j b, list_ascii_of_string name !! j = Some b ->
                  written (i + j) b = None.
Proof.
  revert i. induction name as [| c name IH]; intros i.
  { split; [by intros _ j b | done]. }
  cbn [sanitizeFrom list_ascii_of_string]. split.
  - destruct (written i c) as [c' |] eqn:Hw; [done |].
    intros He [| j] b; cbn.
    + intros [= <-]. by rewrite Nat.add_0_r.
    + intros Hb. replace (i + S j) with (S i + j) by lia.
      by apply (proj1 (IH (S i)) He).
  - intros Hall. pose proof (Hall 0 c eq_refl) as Hc.
    rewrite Nat.add_0_r in Hc. rewrite Hc.
    apply (proj2 (IH (S i))). intros j b Hb.
    replace (S i + j) with (i + S j) by lia. by apply Hall.
Qed.

Lemma kept_or_not (i : nat) (name : string) :
  (exists j b,
     list_ascii_of_string name !! j = Some b
     /\ Regexp.between 97 122 b || Regexp.between 65 90 b
        || Ascii.eqb b "_" || Ascii.eqb b " "
        || (Regexp.between 48 57 b && (0 <? i + j)%nat) = true)
  \/ forall j b, list_ascii_of_string name !! j = Some b ->
                 written (i + j) b = None.
Proof.
  revert i. induction name as [| c name IH]; intros i; [by right |].
  destruct (written i c) as [c' |] eqn:Hw.
  - left. exists 0, c. split; [done |]. rewrite Nat.add_0_r.
    destruct (_ || _ || _ || _ || _) eqn:Hk; [done |].
    apply written_None in Hk. congruence.
  - destruct (IH (S i)) as [(j & b & Hb & Hk) | Hall].
    + left. exists (S j), b. split; [done |].
      by replace (i + S j) with (S i + j) by lia.
    + right. intros [| j] b; cbn.
      * intros [= <-]. by rewrite Nat.add_0_r.
      * intros Hb. replace (i + S j) with (S i + j) by lia. by apply Hall.
Qed.

(** X27: [SanitizeLabelName] returns a name exactly when some byte of
    the name given is an ASCII letter, an underscore, a space, or a digit
    that is not the first byte; the empty name gives the error "label
    name cannot be empty" and every other name the error that quotes
    it. *)
Theorem sanitized_exactly (name : string) :
  ((exists out, sanitize name = Ok out)
   <-> exists i b,
         list_ascii_of_string name !! i = Some b
         /\ Regexp.between 97 122 b || Regexp.between 65 90 b
            || Ascii.eqb b "_" || Ascii.eqb b " "
            || (Regexp.between 48 57 b && (0 <? i)%nat) = true)
  /\ sanitize "" = Err (errorString "label name cannot be empty")
  /\ (name <> "" ->
      (forall out, sanitize name <> Ok out) ->
      sanitize name
      = Err (errorString
               ("label name only contains invalid chars: " +:+ Quote name))).
Proof.
  split; [| split; [done |]].
  - unfold SanitizeLabelName. destruct name as [| c name].
    { split; [by intros [? ?] | by intros (i & b & ? & _)]. }
    cbn [String.length Nat.eqb].
    pose proof (sanitizeFrom_empty 0 (String c name)) as He.
    destruct (String.length (sanitizeFrom 0 (String c name)) =? 0)%nat eqn:Hz.
    + apply length_zero in Hz. split; [by intros [? ?] |].
      intros (i & b & Hb & Hk). apply (proj1 He Hz) in Hb.
      apply written_None in Hb. cbn [Nat.add] in Hb. congruence.
    + split; [intros _ | intros _; by eexists].
      destruct (kept_or_not 0 (String c name)) as [Hex | Hall]; [done |].
      exfalso. apply He in Hall. by rewrite Hall in Hz.
  - intros Hne Hno. unfold SanitizeLabelName in *.
    destruct name as [| c name]; [done |]. cbn [String.length Nat.eqb] in *.
    destruct (String.length (sanitizeFrom 0 (String c name)) =? 0)%nat;
      [done |]. by destruct (Hno (sanitizeFrom 0 (String c name))).
Qed.
End LabelNames.

(** ** Listing of metrics *)

Section MetricsListing.
Import Go Clients Spec.
Variable Metric : Type.
Variable ListMetricsOutput : Type.
Variable OwningAccounts : ListMetricsOutput -> list (option string).
Variable ValuesAtPath_Metrics : ListMetricsOutput -> error + list Metric.

Local Abbreviation listMetrics :=
  (ListMetricsWithPageLimit Metric ListMetricsOutput OwningAccounts
     ValuesAtPath_Metrics).
Local Abbreviation fn :=
  (pageFn Metric ListMetricsOutput OwningAccounts ValuesAtPath_Metrics).
Local Abbreviation responses :=
  (pageResponses Metric ListMetricsOutput OwningAccounts ValuesAtPath_Metrics).
Local Abbreviation response := (mkMetricResponse Metric).

Implicit Types (metrics : list Metric) (owning : list (option string))
  (acc : list (MetricResponse Metric)).

(** The loop over the metrics of a page, by cases. *)
Lemma appendMetrics_plain owning idx metrics acc :
  appendMetrics Metric owning false idx metrics acc
  = Ok (acc ++ ((fun metric => response metric None) <$> metrics))%list.
Proof.
  revert idx acc. induction metrics as [| metric metrics IH]; intros idx acc.
  { cbn. by rewrite app_nil_r. }
  cbn [appendMetrics]. rewrite andb_false_r, IH.
  cbn [fmap list_fmap]. by rewrite <- (assoc_L (++)).
Qed.

Lemma appendMetrics_linked owning idx metrics acc :
  idx + length metrics <= length owning ->
  appendMetrics Metric owning true idx metrics acc
  = Ok (acc ++ zip_with response metrics (drop idx owning))%list.
Proof.
  revert idx acc. induction metrics as [| metric metrics IH]; intros idx acc.
  { intros _. cbn. by rewrite app_nil_r. }
  cbn [length appendMetrics]. intros Hlen.
  destruct (Nat.leb_spec idx (length owning)) as [_ | ?]; [| lia].
  cbn [andb].
  destruct (owning !! idx) as [account |] eqn:Hacc.
  - rewrite IH by lia. rewrite (drop_S _ _ _ Hacc). cbn [zip_with].
    by rewrite <- (assoc_L (++)).
  - apply lookup_ge_None in Hacc. lia.
Qed.

Lemma appendMetrics_Panic owning idx metrics acc :
  idx <= length owning -> length owning < idx + length metrics ->
  appendMetrics Metric owning true idx metrics acc
  = Panic ("index out of range [" +:+ decimal (length owning)
           +:+ "] with length " +:+ decimal (length owning)).
Proof.
  revert idx acc. induction metrics as [| metric metrics IH]; intros idx acc.
  { cbn [length]. lia. }
  cbn [length appendMetrics]. intros Hle Hlt.
  destruct (Nat.leb_spec idx (length owning)) as [_ | ?]; [| lia].
  cbn [andb].
  destruct (owning !! idx) as [account |] eqn:Hacc.
  - apply lookup_lt_Some in Hacc. apply IH; lia.
  - apply lookup_ge_None in Hacc.
    by replace idx with (length owning) by lia.
Qed.

(** X28: [ListMetricsWithPageLimit] never looks at more than 1000 pages:
    what it returns for the pages of a provider is what it returns for
    the first 1000 of them. *)
Theorem page_limit (pages : list (ListMetricsOutput * bool))
    (providerError : option error) (includeLinkedAccounts : option bool) :
  listMetrics pages providerError includeLinkedAccounts
  = listMetrics (take 1000 pages) providerError includeLinkedAccounts.
Proof.
  unfold ListMetricsWithPageLimit. f_equal.
  assert (Hgen : forall (left : nat) acc,
             0 < left <= 1000 ->
             ListMetricsPages ListMetricsOutput pages
               (fn includeLinkedAccounts) (acc, 1000 - Z.of_nat left)%Z
             = ListMetricsPages ListMetricsOutput (take left pages)
                 (fn includeLinkedAccounts) (acc, 1000 - Z.of_nat left)%Z).
  { induction pages as [| [page lastPage] rest IH]; intros left acc Hleft.
    { by rewrite take_nil. }
    destruct left as [| left]; [lia |].
    cbn [take ListMetricsPages]. unfold pageFn at 1 3.
    destruct (match ValuesAtPath_Metrics page with
              | inl _ => _
              | inr _ => _
              end) as [acc' | |]; cbn [mbind result_bind bind]; [| done | done].
    destruct lastPage; cbn [negb andb]; [done |].
    destruct (Z.ltb_spec (1000 - Z.of_nat (S left) + 1) 1000) as [Hlt | Hge].
    - replace (1000 - Z.of_nat (S left) + 1)%Z with (1000 - Z.of_nat left)%Z
        by lia.
      apply IH. lia.
    - done. }
  apply (Hgen 1000 []). lia.
Qed.

(** What the function does with one page. *)
Lemma pageFn_fine (include : option bool) acc (pageNum : Z)
    (page : ListMetricsOutput) (lastPage : bool) :
  (default false include = true ->
   forall metrics, ValuesAtPath_Metrics page = inr metrics ->
                   length metrics <= length (OwningAccounts page)) ->
  fn include (acc, pageNum) page lastPage
  = Ok ((acc ++ responses (default false include) page)%list,
        (pageNum + 1)%Z, negb lastPage && (pageNum + 1 <? 1000)%Z).
Proof.
  intros Hfine. unfold pageFn, pageResponses.
  destruct (ValuesAtPath_Metrics page) as [err | metrics].
  { cbn. by rewrite app_nil_r. }
  destruct (default false include).
  - rewrite appendMetrics_linked by (cbn; by apply Hfine). by rewrite drop_0.
  - by rewrite appendMetrics_plain.
Qed.

Lemma pageFn_bad (include : option bool) acc (pageNum : Z)
    (page : ListMetricsOutput) (lastPage : bool) metrics :
  default false include = true ->
  ValuesAtPath_Metrics page = inr metrics ->
  length (OwningAccounts page) < length metrics ->
  fn include (acc, pageNum) page lastPage
  = Panic ("index out of range [" +:+ decimal (length (OwningAccounts page))
           +:+ "] with length " +:+ decimal (length (OwningAccounts page))).
Proof.
  intros Hinc Hm Hlen. unfold pageFn. rewrite Hm, Hinc.
  rewrite appendMetrics_Panic; [done | lia | cbn; lia].
Qed.

Lemma pages_run (include : option bool)
    (pages : list (ListMetricsOutput * bool)) (left : nat) acc :
  0 < left <= 1000 ->
  let run := ListMetricsPages ListMetricsOutput pages (fn include)
               (acc, 1000 - Z.of_nat left)%Z in
  let seen := consumedPages left pages in
  (Forall (fun page =>
             default false include = true ->
             forall metrics, ValuesAtPath_Metrics page = inr metrics ->
                             length metrics <= length (OwningAccounts page))
     seen ->
   exists pageNum,
     run = Ok ((acc ++ concat (responses (default false include) <$> seen))%list,
               pageNum))
  /\ (Exists (fun page =>
                default false include = true
                /\ exists metrics,
                     ValuesAtPath_Metrics page = inr metrics
                     /\ length (OwningAccounts page) < length metrics)
        seen ->
      exists msg, run = Panic msg).
Proof.
  cbn zeta. revert left acc.
  induction pages as [| [page lastPage] rest IH]; intros left acc Hleft.
  { destruct left; [lia |]. cbn. split.
    - intros _. eexists. by rewrite app_nil_r.
    - by intros ?%Exists_nil. }
  destruct left as [| left]; [lia |]. cbn [consumedPages ListMetricsPages].
  assert (Hnext : (1000 - Z.of_nat (S left) + 1 = 1000 - Z.of_nat left)%Z)
    by lia.
  split.
  - intros [Hpage Hrest]%Forall_cons. rewrite pageFn_fine by done.
    rewrite Hnext. destruct lastPage; cbn [negb andb].
    { eexists. cbn. by rewrite app_nil_r. }
    destruct (Z.ltb_spec (1000 - Z.of_nat left) 1000) as [Hlt | Hge].
    + destruct (proj1 (IH left (acc ++ responses (default false include) page)%list
                         ltac:(lia)) Hrest) as [pageNum ->].
      eexists. cbn [fmap list_fmap concat]. by rewrite (assoc_L (++)).
    + assert (left = 0) as -> by lia. eexists. cbn. by rewrite app_nil_r.
  - intros [(Hinc & metrics & Hm & Hlen) | Hrest]%Exists_cons.
    { rewrite (pageFn_bad _ _ _ _ _ metrics) by done. by eexists. }
    destruct (Nat.le_gt_cases
                (match ValuesAtPath_Metrics page with
                 | inr metrics => length metrics
                 | inl _ => 0
                 end) (length (OwningAccounts page))) as [Hfine | Hbad].
    + rewrite pageFn_fine
        by (intros _ metrics Hm; by rewrite Hm in Hfine).
      rewrite Hnext. destruct lastPage; [by apply Exists_nil in Hrest |].
      cbn [negb andb].
      destruct (Z.ltb_spec (1000 - Z.of_nat left) 1000) as [Hlt | Hge].
      * apply IH; [lia | done].
      * assert (left = 0) as -> by lia. by apply Exists_nil in Hrest.
    + destruct (default false include) eqn:Hinc.
      * destruct (ValuesAtPath_Metrics page) as [err | metrics] eqn:Hm;
          [lia |].
        rewrite (pageFn_bad _ _ _ _ _ metrics) by done. by eexists.
      * rewrite pageFn_fine by (by rewrite Hinc).
        rewrite Hnext. destruct lastPage; [by apply Exists_nil in Hrest |].
        cbn [negb andb].
        destruct (Z.ltb_spec (1000 - Z.of_nat left) 1000) as [Hlt | Hge].
        -- apply IH; [lia | done].
        -- assert (left = 0) as -> by lia. by apply Exists_nil in Hrest.
Qed.

Lemma accounts_enough (seen : list ListMetricsOutput) :
  Forall (fun page =>
            forall metrics, ValuesAtPath_Metrics page = inr metrics ->
                            length metrics <= length (OwningAccounts page))
    seen
  \/ Exists (fun page =>
               exists metrics,
                 ValuesAtPath_Metrics page = inr metrics
                 /\ length (OwningAccounts page) < length metrics)
       seen.
Proof.
  induction seen as [| page seen IH]; [by left |].
  destruct (ValuesAtPath_Metrics page) as [err | metrics] eqn:Hm.
  - destruct IH as [IH | IH]; [left | right; by right].
    constructor; [| done]. intros metrics. by rewrite Hm.
  - destruct (Nat.le_gt_cases (length metrics) (length (OwningAccounts page)))
      as [Hle | Hgt].
    + destruct IH as [IH | IH]; [left | right; by right].
      constructor; [| done]. intros metrics'. rewrite Hm. by intros [= <-].
    + right. left. by exists metrics.
Qed.

(** X29: with linked accounts included, [ListMetricsWithPageLimit]
    panics exactly when one of the pages it looks at has fewer owning
    accounts than metrics: the test before the index lets the index
    equal to the number of accounts through. *)
Theorem linked_accounts_panic (pages : list (ListMetricsOutput * bool))
    (providerError : option error) :
  (exists msg, listMetrics pages providerError (Some true) = Panic msg)
  <-> exists page metrics,
        page ∈ consumedPages 1000 pages
        /\ ValuesAtPath_Metrics page = inr metrics
        /\ length (OwningAccounts page) < length metrics.
Proof.
  unfold ListMetricsWithPageLimit.
  destruct (pages_run (Some true) pages 1000 [] ltac:(lia)) as [Hfine Hbad].
  cbn zeta in Hfine, Hbad. change (1000 - Z.of_nat 1000)%Z with 0%Z in *.
  split.
  - intros [msg Hp].
    destruct (accounts_enough (consumedPages 1000 pages)) as [Hall | Hex].
    + destruct Hfine as [pageNum Hrun].
      { eapply Forall_impl; [exact Hall |]. cbn. auto. }
      by rewrite Hrun in Hp.
    + apply Exists_exists in Hex as (page & Hin & metrics & Hm & Hlen).
      by exists page, metrics.
  - intros (page & metrics & Hin & Hm & Hlen).
    destruct Hbad as [msg ->]; [| by eexists].
    apply Exists_exists. exists page. split; [done |].
    split; [done | by exists metrics].
Qed.

(** X30: when no page it looks at has fewer owning accounts than
    metrics, or linked accounts are not included, the call returns the
    error of the provider and, for the pages up to the first one flagged
    as the last and at most 1000, their metrics in order, each with the
    owning account at its index when linked accounts are included and
    with none otherwise; a page whose metrics cannot be read adds
    nothing. *)
Theorem listed_metrics (pages : list (ListMetricsOutput * bool))
    (providerError : option error) (includeLinkedAccounts : option bool) :
  (default false includeLinkedAccounts = true ->
   forall page metrics,
     page ∈ consumedPages 1000 pages ->
     ValuesAtPath_Metrics page = inr metrics ->
     length metrics <= length (OwningAccounts page)) ->
  listMetrics pages providerError includeLinkedAccounts
  = Ok (concat (responses (default false includeLinkedAccounts)
                <$> consumedPages 1000 pages),
        providerError).
Proof.
  intros Hfine. unfold ListMetricsWithPageLimit.
  destruct (pages_run includeLinkedAccounts pages 1000 [] ltac:(lia))
    as [Hrun _].
  cbn zeta in Hrun. change (1000 - Z.of_nat 1000)%Z with 0%Z in *.
  destruct Hrun as [pageNum ->]; [| done].
  apply Forall_forall. intros page Hin Hinc metrics Hm.
  by apply (Hfine Hinc page).
Qed.
End MetricsListing.

Section DeepLinkExamples.
Import Go Models Spec.

Lemma BuildDeepLink_panics_witness :
  exists msg,
    toyDeepLink (map_to_list ({[ "Zone" := [] ]} : gmap string (list string)))
      (statQuery {[ "Zone" := [] ]}) 0%Z 0%Z true = Panic msg.
Proof.
  assert (Hsearch : isSearchExpression (statQuery {[ "Zone" := [] ]}) = false)
    by (vm_compute; reflexivity).
  refine (proj2 (BuildDeepLink_panics (fun _ => "") (fun _ => inr "{}") string
                   (list (string * string)) (fun text => inr text)
                   (fun _ => [])
                   (fun key value values => (key, value) :: values)
                   (fun values => String.concat "&" (values.*1))
                   (fun rawQuery url => url +:+ "?" +:+ rawQuery)
                   (fun url => url)
                   (statQuery {[ "Zone" := [] ]})
                   (map_to_list {[ "Zone" := [] ]}) 0%Z 0%Z true
                   (reflexivity _)) _).
  split; [reflexivity |]. split; [discriminate |]. split; [exact Hsearch |].
  exists "Zone". apply lookup_singleton_eq.
Defined.

Lemma resolved_deep_link_witness :
  exists cw,
    parseExample "a" [] dimensionQuery = Ok cw
    /\ ((exists link,
           toyDeepLink (map_to_list (CloudWatchQuery.Dimensions cw)) cw 0%Z
             (4000 * Time.Second)%Z true = Ok link)
        \/ exists e,
             toyDeepLink (map_to_list (CloudWatchQuery.Dimensions cw)) cw 0%Z
               (4000 * Time.Second)%Z true = Err e).
Proof.
  destruct (parseExample "a" [] dimensionQuery) as [cw | e | msg] eqn:Hrun.
  - exists cw. split; [reflexivity |].
    exact (resolved_deep_link noDuration (decodeAs dimensionQuery)
             (fun _ => "") (fun _ => inr "{}") string
             (list (string * string)) (fun text => inr text) (fun _ => [])
             (fun key value values => (key, value) :: values)
             (fun values => String.concat "&" (values.*1))
             (fun rawQuery url => url +:+ "?" +:+ rawQuery) (fun url => url)
             (DataQuery.mk "a" "{}") [] 0%Z (4000 * Time.Second)%Z
             (4000 * Time.Second)%Z [] "us-east-1" true false dimensionQuery
             cw (map_to_list (CloudWatchQuery.Dimensions cw)) 0%Z
             (4000 * Time.Second)%Z true eq_refl Hrun (reflexivity _)).
  - vm_compute in Hrun. discriminate Hrun.
  - vm_compute in Hrun. discriminate Hrun.
Defined.
End DeepLinkExamples.

Section PeriodBoundExamples.
Import Go Models Spec.

Lemma automatic_period_retained_witness :
  exists period,
    getPeriod noDuration (periodQuery "auto") 0%Z (4000 * Time.Second)%Z
      (4000 * Time.Second)%Z = Ok period
    /\ period ∈ getRetainedPeriods (Time.Since (4000 * Time.Second)%Z 0%Z)
    /\ period ∈ [60; 300; 900; 3600; 21600; 86400]%Z.
Proof.
  apply (automatic_period_retained noDuration (periodQuery "auto") 0%Z
           (4000 * Time.Second)%Z (4000 * Time.Second)%Z).
  right. exists "a"%char, "u"%char, "t"%char, "o"%char. auto 10.
Defined.

Lemma duration_period_witness :
  getPeriod fiveMinutes (periodQuery "5m") 0%Z 0%Z 0%Z = Ok 300%Z.
Proof.
  apply (proj1 (duration_period fiveMinutes (periodQuery "5m") 0%Z 0%Z 0%Z
                  ltac:(intros [H | (a & u & t & o & H & _)]; discriminate H)
                  eq_refl) 300%Z eq_refl).
  - lia.
  - vm_compute. discriminate.
Defined.

Lemma automatic_period_monotone_witness :
  exists period period',
    getPeriod noDuration (periodQuery "auto") 0%Z (4000 * Time.Second)%Z
      (400000 * Time.Second)%Z = Ok period
    /\ getPeriod noDuration (periodQuery "auto") 0%Z (400000 * Time.Second)%Z
         (400000 * Time.Second)%Z = Ok period'
    /\ (period <= period')%Z.
Proof.
  apply (automatic_period_monotone noDuration (periodQuery "auto") 0%Z
           (4000 * Time.Second)%Z (400000 * Time.Second)%Z
           (400000 * Time.Second)%Z 4000%Z 400000%Z).
  - right. exists "a"%char, "u"%char, "t"%char, "o"%char. auto 10.
  - lia.
  - lia.
  - lia.
  - vm_compute. discriminate.
Defined.
End PeriodBoundExamples.

Section PlainAliasExamples.
Import Go Models Spec.

Lemma plain_alias_kept_witness :
  getLabel (aliasQuery "cpu of i-1") true = "cpu of i-1".
Proof. exact (plain_alias_kept (aliasQuery "cpu of i-1") eq_refl eq_refl). Defined.
End PlainAliasExamples.

Section LabelNameExamples.
Import Go Metricutil Spec.

Lemma sanitized_bytes_witness :
  "my_label1" <> ""
  /\ Regexp.allIdBytes "my_label1" = true
  /\ String.length "my_label1" <= String.length "my label-1".
Proof.
  exact (sanitized_bytes (fun name => name) "my label-1" "my_label1" eq_refl).
Defined.

Lemma sanitized_leading_digit_witness :
  exists out,
    SanitizeLabelName (fun name => name) "-1x" = Ok (String "1" out)
    /\ SanitizeLabelName (fun name => name) (String "1" out)
       <> Ok (String "1" out).
Proof.
  exact (sanitized_leading_digit (fun name => name) "-"%char "1"%char "x"
           eq_refl eq_refl).
Defined.
End LabelNameExamples.

Section MetricsListingExamples.
Import Go Clients Spec.

Lemma listed_metrics_witness :
  toyListMetrics
    [((["m1"; "m2"], [Some "111"; Some "222"]), false);
     ((["m3"], [Some "333"]), true);
     ((["m4"], []), true)]
    (Some true)
  = Ok ([mkMetricResponse string "m1" (Some "111");
         mkMetricResponse string "m2" (Some "222");
         mkMetricResponse string "m3" (Some "333")], None).
Proof.
  apply (listed_metrics string toyPage snd (fun page => inr page.1)
           [((["m1"; "m2"], [Some "111"; Some "222"]), false);
            ((["m3"], [Some "333"]), true);
            ((["m4"], []), true)]
           None (Some true)).
  intros _ page metrics Hin [= <-]. cbn in Hin.
  apply elem_of_cons in Hin as [-> | Hin]; [cbn; lia |].
  apply elem_of_cons in Hin as [-> | Hin]; [cbn; lia |].
  by apply elem_of_nil in Hin.
Defined.
End MetricsListingExamples.
